(** * coreos-metadata: the metadata providers

    A shallow embedding of the provider code (DigitalOcean network
    synthesis, EC2, GCE and OpenStack key and attribute fetching) and of
    the retry client they share, followed by the properties stated for
    them.

    Conventions of the embedding:
    - a Go [string] and a Go [[]byte] are a [string] (a sequence of bytes);
    - a Go slice is a [list]; where the code tells a nil slice from an
      empty one, the slice is an [option (list _)] and [None] is nil;
    - a Go [(value, error)] pair whose error is tested first is a [result];
    - a Go [map[string]V] is a [gmap string V]; the order in which [range]
      visits it is a parameter of the code that ranges over it. *)

From Stdlib Require Import ZArith NArith List String Ascii DecimalString Lia Permutation.
From Stdlib Require DecimalN DecimalPos.
From Stdlib.Strings Require Import Byte.
From stdpp Require Import base option list strings gmap.

Open Scope string_scope.

(** ** Results *)

Inductive result (E A : Type) : Type :=
| Ok (a : A)
| Err (e : E).
Arguments Ok {E A} a.
Arguments Err {E A} e.

Definition isErr {E A} (r : result E A) : bool :=
  match r with Ok _ => false | Err _ => true end.

#[global] Instance byte_eq_dec : EqDecision byte := Byte.byte_eq_dec.

(** ** The Go standard library functions the providers call *)

(** Package [strings]: [Split] and [SplitN], for a separator of one byte
    (the providers split at a newline, a colon and an equals sign). *)
Module GoStrings.

(** [strings.Split(s, sep)]: the pieces of [s] between the occurrences of
    [sep]; an [s] without [sep] is returned as its only piece. *)
Fixpoint Split (s : string) (sep : ascii) : list string :=
  match s with
  | EmptyString => [EmptyString]
  | String c rest =>
      if Ascii.eqb c sep then EmptyString :: Split rest sep
      else match Split rest sep with
           | [] => [String c EmptyString]
           | piece :: pieces => String c piece :: pieces
           end
  end.

(** [s] cut at the first [sep]: what is before it and what is after. *)
Fixpoint cut (s : string) (sep : ascii) : option (string * string) :=
  match s with
  | EmptyString => None
  | String c rest =>
      if Ascii.eqb c sep then Some (EmptyString, rest)
      else match cut rest sep with
           | Some (before, after) => Some (String c before, after)
           | None => None
           end
  end.

(** [strings.SplitN(s, sep, n)] for [n >= 0]: at most [n] pieces, the
    last one being the unsplit remainder. *)
Fixpoint SplitN (s : string) (sep : ascii) (n : nat) : list string :=
  match n with
  | 0 => []
  | 1 => [s]
  | S n' =>
      match cut s sep with
      | Some (before, after) => before :: SplitN after sep n'
      | None => [s]
      end
  end.

(** [sep] occurs in [s]. *)
Fixpoint contains (s : string) (sep : ascii) : bool :=
  match s with
  | EmptyString => false
  | String c rest => Ascii.eqb c sep || contains rest sep
  end.

End GoStrings.

(** [bufio.Scanner] with its default split function [bufio.ScanLines]. *)
Module GoBufio.

Inductive scanError : Type := ErrTooLong.

(** [bufio.MaxScanTokenSize]: the size of the scanner's buffer. A line of
    that many bytes or more does not fit in it with its newline, and stops
    the scan with [ErrTooLong]. *)
Definition MaxScanTokenSize : N := 65536.

Definition newline : ascii := "010"%char.
Definition carriageReturn : ascii := "013"%char.

(** [dropCR]: a line without its final carriage return. *)
Fixpoint dropCR (s : string) : string :=
  match s with
  | EmptyString => EmptyString
  | String c EmptyString =>
      if Ascii.eqb c carriageReturn then EmptyString else s
  | String c rest => String c (dropCR rest)
  end.

(** The lines of the input as [ScanLines] cuts them: each newline ends a
    line, and what follows the last newline is a line when it is not
    empty. *)
Definition rawLines (s : string) : list string :=
  let pieces := GoStrings.Split s newline in
  match List.last pieces EmptyString with
  | EmptyString => List.removelast pieces
  | _ => pieces
  end.

(** The loop [for scanner.Scan() { ... scanner.Text() ... }] followed by
    [scanner.Err()]: the tokens delivered and the error that stopped the
    scan, if any. *)
Fixpoint scan (lines : list string) : list string * option scanError :=
  match lines with
  | [] => ([], None)
  | l :: rest =>
      if (MaxScanTokenSize <=? N.of_nat (String.length l))%N
      then ([], Some ErrTooLong)
      else let '(tokens, err) := scan rest in (dropCR l :: tokens, err)
  end.

Definition ScanLines (s : string) : list string * option scanError :=
  scan (rawLines s).

End GoBufio.

(** Package [strconv]. *)
Module GoStrconv.

(** [strconv.ParseBool(str)]: the twelve spellings the library accepts;
    [None] stands for its syntax error. *)
Definition ParseBool (str : string) : option bool :=
  if (String.eqb str "1" || String.eqb str "t" || String.eqb str "T"
      || String.eqb str "true" || String.eqb str "TRUE" || String.eqb str "True")%bool
  then Some true
  else if (String.eqb str "0" || String.eqb str "f" || String.eqb str "F"
           || String.eqb str "false" || String.eqb str "FALSE" || String.eqb str "False")%bool
  then Some false
  else None.

End GoStrconv.

(** Package [net]: addresses, masks and the textual forms the providers
    parse. [ParseIP] and [ParseMAC] follow the library's parsers; the
    provider code below takes its parsers as parameters, and these are the
    ones it is run with in the examples. *)
Module GoNet.

(** [net.IP], [net.IPMask] and [net.HardwareAddr] are byte slices; the nil
    slice is the empty list. *)
Definition IP : Type := list byte.
Definition IPMask : Type := list byte.
Definition HardwareAddr : Type := list byte.

Record IPNet : Type := mkIPNet { IPNet_IP : IP; IPNet_Mask : IPMask }.

Definition byteOfN (n : N) : byte := default x00 (Byte.of_N n).

Definition v4InV6Prefix : list byte :=
  [x00; x00; x00; x00; x00; x00; x00; x00; x00; x00; xff; xff].

(** [net.IPv4(a, b, c, d)]: the 16-byte form of an IPv4 address. *)
Definition IPv4 (a b c d : byte) : IP := (v4InV6Prefix ++ [a; b; c; d])%list.

Definition IPv4zero : IP := IPv4 x00 x00 x00 x00.
Definition IPv6zero : IP := repeat x00 16.

(** [ip.To4()]: the 4-byte form of an IPv4 address, nil for anything else. *)
Definition To4 (ip : IP) : IP :=
  if decide (length ip = 4) then ip
  else if decide (length ip = 16 ∧ take 12 ip = v4InV6Prefix) then drop 12 ip
  else [].

Fixpoint cidrBytes (l : nat) (n : Z) : list byte :=
  match l with
  | 0 => []
  | S l' =>
      if (8 <=? n)%Z then xff :: cidrBytes l' (n - 8)%Z
      else byteOfN (Z.to_N (255 - Z.shiftr 255 n)) :: cidrBytes l' 0%Z
  end.

(** [net.CIDRMask(ones, bits)]: [ones] leading one bits in a mask of
    [bits] bits; nil when the arguments are out of range. *)
Definition CIDRMask (ones bits : Z) : IPMask :=
  if negb ((bits =? 32)%Z || (bits =? 128)%Z) then []
  else if ((ones <? 0)%Z || (bits <? ones)%Z) then []
  else cidrBytes (Z.to_nat (bits / 8)) ones.

(** *** Parsing numbers *)

Definition big : N := 16777215.

Definition digitVal (c : ascii) : option N :=
  let n := N_of_ascii c in
  if ((48 <=? n) && (n <=? 57))%N then Some (n - 48)%N else None.

Definition hexVal (c : ascii) : option N :=
  let n := N_of_ascii c in
  if ((48 <=? n) && (n <=? 57))%N then Some (n - 48)%N
  else if ((97 <=? n) && (n <=? 102))%N then Some (n - 87)%N
  else if ((65 <=? n) && (n <=? 70))%N then Some (n - 55)%N
  else None.

(** The common loop of [dtoi] and [xtoi]: the number read, how many bytes
    were read and what is left; nothing when no digit was read or the
    number reached [big]. *)
Fixpoint atoiFrom (digit : ascii -> option N) (base : N) (s : string) (n : N) (i : nat)
  : option (N * nat * string) :=
  match s with
  | String c rest =>
      match digit c with
      | Some d =>
          let n' := (n * base + d)%N in
          if (big <=? n')%N then None else atoiFrom digit base rest n' (S i)
      | None => if i is 0 then None else Some (n, i, s)
      end
  | EmptyString => if i is 0 then None else Some (n, i, s)
  end.

Definition dtoi (s : string) : option (N * nat * string) := atoiFrom digitVal 10 s 0 0.
Definition xtoi (s : string) : option (N * nat * string) := atoiFrom hexVal 16 s 0 0.

(** *** [net.ParseIP] *)

Fixpoint parseIPv4Fields (k : nat) (first : bool) (s : string) : option (list byte * string) :=
  match k with
  | 0 => Some ([], s)
  | S k' =>
      let field :=
        match s with
        | EmptyString => None
        | String c rest =>
            if first then Some s
            else if Ascii.eqb c "."%char then Some rest else None
        end in
      match field with
      | None => None
      | Some s1 =>
          match dtoi s1 with
          | None => None
          | Some (n, _, rest) =>
              if (255 <? n)%N then None
              else match parseIPv4Fields k' false rest with
                   | None => None
                   | Some (bs, r) => Some (byteOfN n :: bs, r)
                   end
          end
      end
  end.

Definition parseIPv4 (s : string) : option IP :=
  match parseIPv4Fields 4 true s with
  | Some ([a; b; c; d], EmptyString) => Some (IPv4 a b c d)
  | _ => None
  end.

Definition startsWith (c : ascii) (s : string) : bool :=
  match s with
  | String c' _ => Ascii.eqb c c'
  | EmptyString => false
  end.

(** The loop of [parseIPv6]: one 16-bit group per round, [acc] being the
    bytes stored so far and [ellipsis] the position of the double colon. *)
Fixpoint parseIPv6Loop (rounds : nat) (s : string) (acc : list byte) (ellipsis : option nat)
  : option (list byte * option nat * string) :=
  match rounds with
  | 0 => Some (acc, ellipsis, s)
  | S rounds' =>
      match xtoi s with
      | None => None
      | Some (n, _, rest) =>
          if (65535 <? n)%N then None
          else if startsWith "."%char rest then
            if (negb (bool_decide (is_Some ellipsis)) && negb (length acc =? 12)%nat)%bool then None
            else if (16 <? length acc + 4)%nat then None
            else match parseIPv4 s with
                 | None => None
                 | Some ip4 => Some ((acc ++ drop 12 ip4)%list, ellipsis, EmptyString)
                 end
          else
            let acc' := (acc ++ [byteOfN (N.shiftr n 8); byteOfN (N.land n 255)])%list in
            match rest with
            | EmptyString => Some (acc', ellipsis, EmptyString)
            | String c rest1 =>
                if negb (Ascii.eqb c ":"%char) then None
                else match rest1 with
                     | EmptyString => None
                     | String c1 rest2 =>
                         if Ascii.eqb c1 ":"%char then
                           match ellipsis with
                           | Some _ => None
                           | None =>
                               match rest2 with
                               | EmptyString => Some (acc', Some (length acc'), EmptyString)
                               | _ => parseIPv6Loop rounds' rest2 acc' (Some (length acc'))
                               end
                           end
                         else parseIPv6Loop rounds' rest1 acc' ellipsis
                     end
            end
      end
  end.

Definition parseIPv6 (s : string) : option IP :=
  let '(s1, ellipsis) :=
    match s with
    | String c (String c' rest) =>
        if (Ascii.eqb c ":"%char && Ascii.eqb c' ":"%char)%bool then (rest, Some 0) else (s, None)
    | _ => (s, None)
    end in
  match ellipsis, s1 with
  | Some _, EmptyString => Some IPv6zero
  | _, _ =>
      match parseIPv6Loop 8 s1 [] ellipsis with
      | Some (acc, ell, EmptyString) =>
          if (length acc <? 16)%nat then
            match ell with
            | None => None
            | Some e => Some (take e acc ++ repeat x00 (16 - length acc) ++ drop e acc)%list
            end
          else if bool_decide (is_Some ell) then None else Some acc
      | _ => None
      end
  end.

Fixpoint firstDotOrColon (s : string) : option ascii :=
  match s with
  | EmptyString => None
  | String c rest =>
      if (Ascii.eqb c "."%char || Ascii.eqb c ":"%char)%bool then Some c
      else firstDotOrColon rest
  end.

(** [net.ParseIP(s)]: dotted decimal IPv4 or IPv6 text to a 16-byte
    address; [None] is the nil result of the library. Decimal fields may
    have leading zeros, as in the library of the time of the providers. *)
Definition ParseIP (s : string) : option IP :=
  match firstDotOrColon s with
  | None => None
  | Some c => if Ascii.eqb c "."%char then parseIPv4 s else parseIPv6 s
  end.

(** *** [net.ParseMAC] *)

Fixpoint dropBytes (n : nat) (s : string) : string :=
  match n, s with
  | S n', String _ rest => dropBytes n' rest
  | _, _ => s
  end.

Definition byteAt (n : nat) (s : string) : option ascii := String.get n s.

(** [xtoi2(s, e)]: the byte written by the two hex digits that start [s],
    which [e] must follow unless [s] ends there ([e] absent: no check). *)
Definition xtoi2 (s : string) (e : option ascii) : option byte :=
  match s with
  | String a (String b rest) =>
      let followed :=
        match rest, e with
        | String c _, Some e' => Ascii.eqb c e'
        | _, _ => true
        end in
      match hexVal a, hexVal b with
      | Some x, Some y => if followed then Some (byteOfN (16 * x + y)) else None
      | _, _ => None
      end
  | _ => None
  end.

(** [n] groups of two hex digits, [e] between them. *)
Fixpoint macGroups (n : nat) (s : string) (e : ascii) : option (list byte) :=
  match n with
  | 0 => Some []
  | S n' =>
      match xtoi2 s (Some e) with
      | None => None
      | Some b =>
          match macGroups n' (dropBytes 3 s) e with
          | None => None
          | Some bs => Some (b :: bs)
          end
      end
  end.

(** [n] groups of four hex digits, a dot between them. *)
Fixpoint macQuads (n : nat) (s : string) : option (list byte) :=
  match n with
  | 0 => Some []
  | S n' =>
      match xtoi2 s None, xtoi2 (dropBytes 2 s) (Some "."%char) with
      | Some b1, Some b2 =>
          match macQuads n' (dropBytes 5 s) with
          | None => None
          | Some bs => Some (b1 :: b2 :: bs)
          end
      | _, _ => None
      end
  end.

Definition macLength (n : nat) : bool :=
  ((n =? 6) || (n =? 8) || (n =? 20))%nat.

(** [net.ParseMAC(s)]: the forms [00:00:5e:00:53:01], [00-00-5e-00-53-01]
    and [0000.5e00.5301], of 6, 8 or 20 bytes; hex digits of either case. *)
Definition ParseMAC (s : string) : option HardwareAddr :=
  let len := String.length s in
  if (len <? 14)%nat then None
  else
    match byteAt 2 s, byteAt 4 s with
    | Some c2, Some c4 =>
        if (Ascii.eqb c2 ":"%char || Ascii.eqb c2 "-"%char)%bool then
          if negb ((len + 1) mod 3 =? 0)%nat then None
          else
            let n := ((len + 1) / 3)%nat in
            if negb (macLength n) then None else macGroups n s c2
        else if Ascii.eqb c4 "."%char then
          if negb ((len + 1) mod 5 =? 0)%nat then None
          else
            let n := (2 * (len + 1) / 5)%nat in
            if negb (macLength n) then None else macQuads (n / 2) s
        else None
    | _, _ => None
    end.

(** *** [ip.String()] *)

Definition uitoa (n : N) : string := DecimalString.NilZero.string_of_uint (N.to_uint n).

Definition hexDigit (n : N) : ascii :=
  if (n <? 10)%N then ascii_of_N (48 + n) else ascii_of_N (87 + n).

Fixpoint dropZeros (ds : list N) : list N :=
  match ds with
  | 0%N :: rest => dropZeros rest
  | _ => ds
  end.

(** [appendHex]: lower-case hex without leading zeros. *)
Definition hexOf16 (n : N) : string :=
  let digits := [N.shiftr n 12; N.land (N.shiftr n 8) 15; N.land (N.shiftr n 4) 15; N.land n 15] in
  match dropZeros digits with
  | [] => "0"
  | ds => string_of_list_ascii (map hexDigit ds)
  end.

Fixpoint groups16 (ip : list byte) : list N :=
  match ip with
  | hi :: lo :: rest => (256 * Byte.to_N hi + Byte.to_N lo)%N :: groups16 rest
  | _ => []
  end.

Fixpoint zeroRun (gs : list N) : nat :=
  match gs with
  | 0%N :: rest => S (zeroRun rest)
  | _ => 0
  end.

(** The first longest run of zero groups, as (start, length), scanning
    [gs] from group [i]. *)
Fixpoint longestZeroRun (gs : list N) (i : nat) (best : nat * nat) : nat * nat :=
  match gs with
  | [] => best
  | _ :: rest =>
      let run := zeroRun gs in
      longestZeroRun rest (S i) (if (snd best <? run)%nat then (i, run) else best)
  end.

(** The groups from group [i] on, the zero run [e0 .. e1) written as a
    double colon (no run when [e0 = e1]). *)
Fixpoint printGroups (gs : list N) (i e0 e1 : nat) : string :=
  match gs with
  | [] => EmptyString
  | g :: rest =>
      if ((e0 <=? i) && (i <? e1))%nat then
        (if (i =? e0)%nat then "::" else "") ++ printGroups rest (S i) e0 e1
      else
        (if ((0 <? i) && negb ((i =? e1) && (e0 <? e1)))%nat then ":" else "")
        ++ hexOf16 g ++ printGroups rest (S i) e0 e1
  end.

Definition hexString (b : list byte) : string :=
  string_of_list_ascii
    (flat_map (fun x => [hexDigit (N.shiftr (Byte.to_N x) 4); hexDigit (N.land (Byte.to_N x) 15)]) b).

Definition IPString (ip : IP) : string :=
  if decide (length ip = 0) then "<nil>"
  else
    match To4 ip with
    | [a; b; c; d] =>
        uitoa (Byte.to_N a) ++ "." ++ uitoa (Byte.to_N b) ++ "."
        ++ uitoa (Byte.to_N c) ++ "." ++ uitoa (Byte.to_N d)
    | _ =>
        if negb (length ip =? 16)%nat then "?" ++ hexString ip
        else
          let gs := groups16 ip in
          let '(e0, len) := longestZeroRun gs 0 (0, 0) in
          if (len <=? 1)%nat then printGroups gs 0 0 0
          else printGroups gs 0 e0 (e0 + len)
    end.

End GoNet.

(** ** Early return on error *)

#[global] Instance result_ret {E} : MRet (result E) := fun _ a => Ok a.
#[global] Instance result_bind {E} : MBind (result E) :=
  fun _ _ k r => match r with Ok a => k a | Err e => Err e end.

(** ** Package [providers]: the normalized record *)

Module providers.

(** Modelled from the spec: the types of package [providers] (the file
    that declares them is not among the sources), with the field names the
    provider code uses for them. A route: a destination network and the
    gateway to it. *)
Record NetworkRoute : Type := mkNetworkRoute {
  Destination : GoNet.IPNet;
  Gateway : GoNet.IP
}.

(** Modelled from the spec: an interface, identified by its hardware
    address, with the nameservers of the fetch and the addresses and routes
    found for it. *)
Record NetworkInterface : Type := mkNetworkInterface {
  HardwareAddress : GoNet.HardwareAddr;
  Nameservers : list GoNet.IP;
  IPAddresses : list GoNet.IPNet;
  Routes : list NetworkRoute
}.

(** Modelled from the spec: the normalized record; [Network] is the field
    the DigitalOcean provider fills with its interfaces. *)
Record Metadata : Type := mkMetadata {
  Attributes : gmap string string;
  Hostname : string;
  Network : list NetworkInterface;
  SshKeys : option (list string)
}.

End providers.

(** ** Package [retry]: the bounded-retry client *)

Module retry.

(** Modelled from the spec: the retry client (package internal/retry is not
    among the sources). Durations are nanoseconds, as [time.Duration]. *)
Definition Duration : Type := Z.

(** Modelled from the spec: [time.Second]. *)
Definition Second : Duration := 1000000000%Z.

(** Modelled from the spec: the configuration of the client, as the
    providers write it. *)
Record Client : Type := mkClient {
  InitialBackoff : Duration;
  MaxBackoff : Duration;
  MaxAttempts : nat;
  Header : gmap string (list string)
}.

(** Modelled from the spec: what one HTTP GET comes back with, in the
    classes the client tells apart. *)
Inductive outcome : Type :=
| NetworkFailure (cause : string)
| Status5xx (cause : string)
| Status404
| Status200 (body : string).

(** Modelled from the spec: what the client does, in order: requests and
    timed sleeps. *)
Inductive event : Type :=
| Attempt (url : string)
| Sleep (d : Duration).

(** Modelled from the spec: the error of a client that has used all its
    attempts, with the cause of the last failure. *)
Inductive error : Type :=
| RetryExhausted (cause : option string).

(** Modelled from the spec: the transport, that is the outcome of the
    [k]-th GET (from 0) of a URL sent with the given headers. *)
Definition Transport : Type := string -> gmap string (list string) -> nat -> outcome.

(** Modelled from the spec: the retry loop. [remaining] attempts are left,
    the next one is attempt [k], and [delay] is the backoff reached so far
    (it starts at [InitialBackoff] and doubles); a sleep lasts [delay]
    clamped to [MaxBackoff]. The body is [None] when the client returns
    nil. *)
Fixpoint attempts (c : Client) (t : Transport) (url : string)
    (remaining k : nat) (delay : Duration) (last : option string)
  : (option string * option error) * list event :=
  match remaining with
  | 0 => ((None, Some (RetryExhausted last)), [])
  | S remaining' =>
      match t url (Header c) k with
      | Status200 body => ((Some body, None), [Attempt url])
      | Status404 => ((None, None), [Attempt url])
      | NetworkFailure cause | Status5xx cause =>
          match remaining' with
          | 0 => ((None, Some (RetryExhausted (Some cause))), [Attempt url])
          | S _ =>
              let '(r, evs) :=
                attempts c t url remaining' (S k) (2 * delay)%Z (Some cause) in
              (r, Attempt url :: Sleep (Z.min delay (MaxBackoff c)) :: evs)
          end
      end
  end.

(** Modelled from the spec: [Get(url)], the body or nil and the error,
    with the trace of what was done. *)
Definition Get (c : Client) (t : Transport) (url : string)
  : (option string * option error) * list event :=
  attempts c t url (MaxAttempts c) 0 (InitialBackoff c) None.

(** The attempts and the sleeps of a trace. *)
Fixpoint attemptCount (evs : list event) : nat :=
  match evs with
  | [] => 0
  | Attempt _ :: rest => S (attemptCount rest)
  | Sleep _ :: rest => attemptCount rest
  end.

Fixpoint delays (evs : list event) : list Duration :=
  match evs with
  | [] => []
  | Sleep d :: rest => d :: delays rest
  | Attempt _ :: rest => delays rest
  end.

End retry.

(** ** Package [digitalocean]: the network synthesizer *)

Module digitalocean.

Record Address : Type := mkAddress {
  IPAddress : string;
  Netmask : string;
  Cidr : Z;
  Gateway : string
}.

(** [Type_] is the field [Type]; a nil [*Address] is [None]. *)
Record Interface : Type := mkInterface {
  IPv4 : option Address;
  IPv6 : option Address;
  AnchorIPv4 : option Address;
  MAC : string;
  Type_ : string
}.

Record Interfaces : Type := mkInterfaces {
  Public : list Interface;
  Private : list Interface
}.

Record DNS : Type := mkDNS { Nameservers : list string }.

(** [Interfaces_] and [DNS_] are the fields [Interfaces] and [DNS]. *)
Record Metadata : Type := mkMetadata {
  Hostname : string;
  Interfaces_ : Interfaces;
  PublicKeys : list string;
  Region : string;
  DNS_ : DNS
}.

(** The errors of the synthesizer, each with the text it could not parse. *)
Inductive error : Type :=
| ErrMAC (raw : string)
| ErrIPv4Address (raw : string)
| ErrIPv4Mask (raw : string)
| ErrIPv6Address (raw : string)
| ErrGateway (raw : string)
| ErrNameserver (raw : string).

(** The destinations of the synthesized default routes. *)
Definition defaultIPv4 : GoNet.IPNet :=
  {| GoNet.IPNet_IP := GoNet.IPv4zero; GoNet.IPNet_Mask := GoNet.IPv4zero |}.
Definition defaultIPv6 : GoNet.IPNet :=
  {| GoNet.IPNet_IP := GoNet.IPv6zero; GoNet.IPNet_Mask := GoNet.IPv6zero |}.

Section Synthesizer.

(** [net.ParseIP] and [net.ParseMAC], and the order in which [range]
    visits the interface map. *)
Variable ParseIP : string -> option GoNet.IP.
Variable ParseMAC : string -> option GoNet.HardwareAddr.
Variable rangeOrder :
  gmap string providers.NetworkInterface -> list (string * providers.NetworkInterface).

Definition parseIPv4Address (address : Address) : result error GoNet.IPNet :=
  match ParseIP (IPAddress address) with
  | None => Err (ErrIPv4Address (IPAddress address))
  | Some ip =>
      match ParseIP (Netmask address) with
      | None => Err (ErrIPv4Mask (Netmask address))
      | Some mask => Ok {| GoNet.IPNet_IP := ip; GoNet.IPNet_Mask := GoNet.To4 mask |}
      end
  end.

Definition parseIPv6Address (address : Address) : result error GoNet.IPNet :=
  match ParseIP (IPAddress address) with
  | None => Err (ErrIPv6Address (IPAddress address))
  | Some ip =>
      Ok {| GoNet.IPNet_IP := ip; GoNet.IPNet_Mask := GoNet.CIDRMask (Cidr address) 128 |}
  end.

Definition parseRoute (gateway : string) (destination : GoNet.IPNet)
  : result error providers.NetworkRoute :=
  match ParseIP gateway with
  | None => Err (ErrGateway gateway)
  | Some addr => Ok {| providers.Destination := destination; providers.Gateway := addr |}
  end.

Fixpoint parseNameservers (servers : list string) : result error (list GoNet.IP) :=
  match servers with
  | [] => Ok []
  | server :: rest =>
      match ParseIP server with
      | None => Err (ErrNameserver server)
      | Some addr => addrs ← parseNameservers rest; Ok (addr :: addrs)
      end
  end.

Definition parseInterface (iface : Interface) (public : bool)
  : result error (list GoNet.IPNet * list providers.NetworkRoute) :=
  '(addrs, routes) ←
    match IPv4 iface with
    | None => Ok ([], [])
    | Some a =>
        addr ← parseIPv4Address a;
        route ← parseRoute (Gateway a) addr;
        Ok ([addr],
            if public
            then [route; {| providers.Destination := defaultIPv4;
                            providers.Gateway := providers.Gateway route |}]
            else [route])
    end;
  '(addrs, routes) ←
    match IPv6 iface with
    | None => Ok (addrs, routes)
    | Some a =>
        addr ← parseIPv6Address a;
        route ← parseRoute (Gateway a) addr;
        Ok ((addrs ++ [addr])%list,
            if public
            then (routes ++ [route; {| providers.Destination := defaultIPv6;
                                       providers.Gateway := providers.Gateway route |}])%list
            else (routes ++ [route])%list)
    end;
  match AnchorIPv4 iface with
  | None => Ok (addrs, routes)
  | Some a =>
      addr ← parseIPv4Address a;
      route ← parseRoute (Gateway a) addr;
      Ok ((addrs ++ [addr])%list, (routes ++ [route])%list)
  end.

(** [ifaceConfigs[mac].IPAddresses] and [.Routes]: the zero value, a nil
    list, when the key is not in the map. *)
Definition addressesAt (ifaceConfigs : gmap string providers.NetworkInterface) (mac : string)
  : list GoNet.IPNet :=
  match ifaceConfigs !! mac with
  | Some ni => providers.IPAddresses ni
  | None => []
  end.

Definition routesAt (ifaceConfigs : gmap string providers.NetworkInterface) (mac : string)
  : list providers.NetworkRoute :=
  match ifaceConfigs !! mac with
  | Some ni => providers.Routes ni
  | None => []
  end.

(** The first loop of [parseNetwork], over the descriptions in order:
    the map keyed by the [MAC] text of the descriptions. *)
Fixpoint parseNetworkLoop (servers : list GoNet.IP) (ifaces : list Interface)
    (ifaceConfigs : gmap string providers.NetworkInterface)
  : result error (gmap string providers.NetworkInterface) :=
  match ifaces with
  | [] => Ok ifaceConfigs
  | iface :: rest =>
      match ParseMAC (MAC iface) with
      | None => Err (ErrMAC (MAC iface))
      | Some mac =>
          '(addrs, routes) ← parseInterface iface (String.eqb (Type_ iface) "public");
          parseNetworkLoop servers rest
            (<[MAC iface :=
                 {| providers.HardwareAddress := mac;
                    providers.Nameservers := servers;
                    providers.IPAddresses := (addressesAt ifaceConfigs (MAC iface) ++ addrs)%list;
                    providers.Routes := (routesAt ifaceConfigs (MAC iface) ++ routes)%list |}]>
               ifaceConfigs)
      end
  end.

(** The descriptions in the order [parseNetwork] processes them:
    [append(Private, Public...)]. *)
Definition descriptions (metadata : Metadata) : list Interface :=
  (Private (Interfaces_ metadata) ++ Public (Interfaces_ metadata))%list.

(** The interface map [parseNetwork] has built when its first loop ends. *)
Definition ifaceConfigsOf (metadata : Metadata)
  : result error (gmap string providers.NetworkInterface) :=
  servers ← parseNameservers (Nameservers (DNS_ metadata));
  parseNetworkLoop servers (descriptions metadata) ∅.

Definition parseNetwork (metadata : Metadata)
  : result error (list providers.NetworkInterface) :=
  ifaceConfigs ← ifaceConfigsOf metadata;
  Ok (map snd (rangeOrder ifaceConfigs)).

End Synthesizer.

End digitalocean.

(** ** Fetching through the client *)

(** A provider holds a client and calls its [Get]. The provider code takes
    [Get] as a parameter: the body it returns ([None] for nil) and its
    error ([None] for nil, otherwise the error's text). A computation that
    fetches is a function of the log of the URLs requested so far. *)
Module fetch.

Definition M (A : Type) : Type := list string -> A * list string.

#[global] Instance M_ret : MRet M := fun _ a log => (a, log).
#[global] Instance M_bind : MBind M :=
  fun _ _ k m log => let '(a, log') := m log in k a log'.

Definition clientGet (Get : string -> option string * option string) (url : string)
  : M (option string * option string) :=
  fun log => (Get url, (log ++ [url])%list).

(** [string(body)]: the empty string for a nil body. *)
Definition stringOf (body : option string) : string := default "" body.

(** The elements of a slice that may be nil. *)
Definition elements {A} (s : option (list A)) : list A := default [] s.

(** [append(s, t...)] on slices that may be nil: [s] itself when [t] has
    no element. *)
Definition appendSlice {A} (s t : option (list A)) : option (list A) :=
  match elements t with
  | [] => s
  | elems => Some (elements s ++ elems)%list
  end.

End fetch.

(** ** Package [ec2] *)

Module ec2.

Import fetch.

Record instanceIdDoc : Type := mkInstanceIdDoc {
  PrivateIp : string;
  DevpayProductCodes : string;
  AvailabilityZone : string;
  Version : string;
  Region : string;
  PendingTime : string;
  InstanceId : string;
  BillingProducts : string;
  InstanceType : string;
  AccountId : string;
  Architecture : string;
  KernelId : string;
  RamdiskId : string;
  ImageId : string
}.

Inductive error : Type :=
| ErrClient (e : string)
| ErrReadingKeys (e : string)
| ErrParsingKeys (e : GoBufio.scanError)
| ErrMalformedKey (keyname : string)
| ErrParseIP (str : string)
| ErrJSON (e : string).

Definition endpoint : string := "http://169.254.169.254/2009-04-04/".

(** [fmt.Sprintf("public-keys/%s/openssh-key", id)]. *)
Definition keyPath (id : string) : string := "public-keys/" ++ id ++ "/openssh-key".

(** The loop that fills [keyIDs]: name to index, a later line replacing
    an earlier one of the same name. *)
Fixpoint keyIDsLoop (keynames : list string) (keyIDs : gmap string string)
  : result error (gmap string string) :=
  match keynames with
  | [] => Ok keyIDs
  | keyname :: rest =>
      match GoStrings.SplitN keyname "="%char 2 with
      | [id; name] => keyIDsLoop rest (<[name := id]> keyIDs)
      | _ => Err (ErrMalformedKey keyname)
      end
  end.

Section Provider.

(** The client's [Get]; [net.ParseIP]; [providers.String] on an address
    that may be nil; [json.Unmarshal] into an [instanceIdDoc]; the order in
    which [range] visits [keyIDs]. *)
Variable Get : string -> option string * option string.
Variable ParseIP : string -> option GoNet.IP.
Variable String_ : option GoNet.IP -> string.
Variable Unmarshal : string -> result string instanceIdDoc.
Variable rangeOrder : gmap string string -> list (string * string).

Definition fetchString (key : string) : M (string * bool * option string) :=
  '(body, err) ← clientGet Get (endpoint ++ key);
  mret (stringOf body, bool_decide (is_Some body), err).

Definition fetchIP (key : string) : M (result error (option GoNet.IP)) :=
  '(str, present, err) ← fetchString key;
  match err with
  | Some e => mret (Err (ErrClient e))
  | None =>
      if negb present then mret (Ok None)
      else match ParseIP str with
           | Some ip => mret (Ok (Some ip))
           | None => mret (Err (ErrParseIP str))
           end
  end.

(** The last loop of [fetchSshKeys]: one fetch per index, in the order
    [range] gives them. *)
Fixpoint fetchKeyBodies (ids : list string) (keys : list string)
  : M (result error (option (list string))) :=
  match ids with
  | [] => mret (Ok (Some keys))
  | id :: rest =>
      '(sshkey, _, err) ← fetchString (keyPath id);
      match err with
      | Some e => mret (Err (ErrClient e))
      | None => fetchKeyBodies rest (keys ++ [sshkey])%list
      end
  end.

Definition fetchSshKeys : M (result error (option (list string))) :=
  '(keydata, present, err) ← fetchString "public-keys";
  match err with
  | Some e => mret (Err (ErrReadingKeys e))
  | None =>
      if negb present then mret (Ok None)
      else
        let '(keynames, scanErr) := GoBufio.ScanLines keydata in
        match scanErr with
        | Some e => mret (Err (ErrParsingKeys e))
        | None =>
            match keyIDsLoop keynames ∅ with
            | Err e => mret (Err e)
            | Ok keyIDs => fetchKeyBodies (map snd (rangeOrder keyIDs)) []
            end
        end
  end.

Definition FetchMetadata : M (result error providers.Metadata) :=
  '(instanceId, _, err) ← fetchString "meta-data/instance-id";
  match err with Some e => mret (Err (ErrClient e)) | None =>
  public ← fetchIP "meta-data/public-ipv4";
  match public with Err e => mret (Err e) | Ok public =>
  local ← fetchIP "meta-data/local-ipv4";
  match local with Err e => mret (Err e) | Ok local =>
  '(hostname, _, err) ← fetchString "meta-data/hostname";
  match err with Some e => mret (Err (ErrClient e)) | None =>
  '(availabilityZone, _, err) ← fetchString "meta-data/placement/availability-zone";
  match err with Some e => mret (Err (ErrClient e)) | None =>
  '(instanceIdDocBlob, _, err) ← fetchString "dynamic/instance-identity/document";
  match err with Some e => mret (Err (ErrClient e)) | None =>
  match Unmarshal instanceIdDocBlob with Err e => mret (Err (ErrJSON e)) | Ok instanceIdDoc =>
  sshKeys ← fetchSshKeys;
  match sshKeys with Err e => mret (Err e) | Ok sshKeys =>
  mret (Ok {|
    providers.Attributes :=
      <["EC2_REGION" := Region instanceIdDoc]>
      (<["EC2_AVAILABILITY_ZONE" := availabilityZone]>
      (<["EC2_HOSTNAME" := hostname]>
      (<["EC2_IPV4_PUBLIC" := String_ public]>
      (<["EC2_IPV4_LOCAL" := String_ local]>
      (<["EC2_INSTANCE_ID" := instanceId]> ∅)))));
    providers.Hostname := hostname;
    providers.Network := [];
    providers.SshKeys := sshKeys |})
  end end end end end end end end.

End Provider.

End ec2.

(** ** Package [gce] *)

Module gce.

Import fetch.

Inductive error : Type :=
| ErrReadingKeys (e : string)
| ErrMalformedKey (key : string).

Definition endpoint : string := "http://metadata.google.internal/computeMetadata/v1/".

(** The loop of [fetchSshKeys] over the lines of the listing. *)
Fixpoint keysLoop (lines : list string) (keys : list string) : result error (list string) :=
  match lines with
  | [] => Ok keys
  | key :: rest =>
      if (String.length key =? 0)%nat then keysLoop rest keys
      else match GoStrings.SplitN key ":"%char 2 with
           | [_; body] => keysLoop rest (keys ++ [body])%list
           | _ => Err (ErrMalformedKey key)
           end
  end.

(** The errors of [FetchMetadata] and of what it calls: an error of the
    client returned as it is, an address that does not parse, and the
    errors of [fetchSshKeys]. *)
Inductive fetchError : Type :=
| ErrClient (e : string)
| ErrParseIP (str : string)
| ErrKeys (e : error).

Section Provider.

Variable Get : string -> option string * option string.

(** The service answers 200 with an empty body where it has no value:
    present means a body that is not empty. *)
Definition fetchString (key : string) : M (string * bool * option string) :=
  '(body, err) ← clientGet Get (endpoint ++ key);
  mret (stringOf body, (0 <? String.length (stringOf body))%nat, err).

Definition fetchSshKeys (prefix : string) : M (result error (option (list string))) :=
  '(keydata, present, err) ← fetchString prefix;
  match err with
  | Some e => mret (Err (ErrReadingKeys e))
  | None =>
      if negb present then mret (Ok None)
      else match keysLoop (GoStrings.Split keydata GoBufio.newline) [] with
           | Err e => mret (Err e)
           | Ok keys => mret (Ok (Some keys))
           end
  end.

(** [net.ParseIP] and [providers.String] on an address that may be nil. *)
Variable ParseIP : string -> option GoNet.IP.
Variable String_ : option GoNet.IP -> string.

Definition fetchIP (key : string) : M (result fetchError (option GoNet.IP)) :=
  '(str, present, err) ← fetchString key;
  match err with
  | Some e => mret (Err (ErrClient e))
  | None =>
      if negb present then mret (Ok None)
      else match ParseIP str with
           | Some ip => mret (Ok (Some ip))
           | None => mret (Err (ErrParseIP str))
           end
  end.

Definition fetchAllSshKeys : M (result fetchError (option (list string))) :=
  deprecatedInstanceSshKeys ← fetchSshKeys "instance/attributes/sshKeys";
  match deprecatedInstanceSshKeys with Err e => mret (Err (ErrKeys e))
  | Ok deprecatedInstanceSshKeys =>
  match deprecatedInstanceSshKeys with Some _ => mret (Ok deprecatedInstanceSshKeys)
  | None =>
  instanceSshKeys ← fetchSshKeys "instance/attributes/ssh-keys";
  match instanceSshKeys with Err e => mret (Err (ErrKeys e)) | Ok instanceSshKeys =>
  '(blockProjectKeys, _, err) ← fetchString "instance/attributes/block-project-ssh-keys";
  match err with Some e => mret (Err (ErrClient e)) | None =>
  match GoStrconv.ParseBool blockProjectKeys with
  | Some true => mret (Ok instanceSshKeys)
  | _ =>
      projectSshKeys ← fetchSshKeys "project/attributes/sshKeys";
      match projectSshKeys with
      | Err e => mret (Err (ErrKeys e))
      | Ok projectSshKeys => mret (Ok (appendSlice instanceSshKeys projectSshKeys))
      end
  end end end end end.

Definition FetchMetadata : M (result fetchError providers.Metadata) :=
  public ← fetchIP "instance/network-interfaces/0/access-configs/0/external-ip";
  match public with Err e => mret (Err e) | Ok public =>
  local ← fetchIP "instance/network-interfaces/0/ip";
  match local with Err e => mret (Err e) | Ok local =>
  '(hostname, _, err) ← fetchString "instance/hostname";
  match err with Some e => mret (Err (ErrClient e)) | None =>
  sshKeys ← fetchAllSshKeys;
  match sshKeys with Err e => mret (Err e) | Ok sshKeys =>
  mret (Ok {|
    providers.Attributes :=
      <["GCE_HOSTNAME" := hostname]>
      (<["GCE_IP_EXTERNAL_0" := String_ public]>
      (<["GCE_IP_LOCAL_0" := String_ local]> ∅));
    providers.Hostname := hostname;
    providers.Network := [];
    providers.SshKeys := sshKeys |})
  end end end end.

End Provider.

End gce.

(** ** Package [openstackMetadata] *)

Module openstack.

Import fetch.

Inductive error : Type :=
| ErrClient (e : string)
| ErrParsingKeyID (keyID : string)
| ErrFetchingKey (keyID : string).

Definition metadataEndpoint : string := "http://169.254.169.254/latest/meta-data/".

Section Provider.

(** The client's [Get] and [path.Join]. *)
Variable Get : string -> option string * option string.
Variable pathJoin : list string -> string.

Definition fetchMetadata (key : string) : M (string * bool * option string) :=
  '(body, err) ← clientGet Get (metadataEndpoint ++ key);
  mret (stringOf body, bool_decide (is_Some body), err).

(** [fetchAndSet] writes into the map it is given; here it returns the
    map as it leaves it. *)
Definition fetchAndSet (key attrKey : string) (attributes : gmap string string)
  : M (result error (gmap string string)) :=
  '(val, ok, err) ← fetchMetadata key;
  match err with
  | Some e => mret (Err (ErrClient e))
  | None =>
      if (negb ok || String.eqb val "")%bool then mret (Ok attributes)
      else mret (Ok (<[attrKey := val]> attributes))
  end.

Definition fetchKeys : M (result error (option (list string))) :=
  '(keysListBlob, ok, err) ← fetchMetadata "public-keys";
  match err with
  | Some e => mret (Err (ErrClient e))
  | None =>
      if (negb ok || String.eqb keysListBlob "")%bool then mret (Ok None)
      else
        match GoStrings.Split keysListBlob GoBufio.newline with
        | [] => mret (Ok None)
        | keyID :: _ =>
            match GoStrings.Split keyID "="%char with
            | [keyNum; _] =>
                '(key, ok, err) ← fetchMetadata (pathJoin ["public-keys"; keyNum; "openssh-key"]);
                match err with
                | Some e => mret (Err (ErrClient e))
                | None =>
                    if (negb ok || String.eqb key "")%bool then mret (Err (ErrFetchingKey keyID))
                    else mret (Ok (Some [key]))
                end
            | _ => mret (Err (ErrParsingKeyID keyID))
            end
        end
  end.

Definition FetchMetadata : M (result error providers.Metadata) :=
  attributes ← fetchAndSet "instance-id" "OPENSTACK_INSTANCE_ID" ∅;
  match attributes with Err e => mret (Err e) | Ok attributes =>
  attributes ← fetchAndSet "local-ipv4" "OPENSTACK_IPV4_LOCAL" attributes;
  match attributes with Err e => mret (Err e) | Ok attributes =>
  attributes ← fetchAndSet "public-ipv4" "OPENSTACK_IPV4_PUBLIC" attributes;
  match attributes with Err e => mret (Err e) | Ok attributes =>
  attributes ← fetchAndSet "hostname" "OPENSTACK_HOSTNAME" attributes;
  match attributes with Err e => mret (Err e) | Ok attributes =>
  keys ← fetchKeys;
  match keys with Err e => mret (Err e) | Ok keys =>
  mret (Ok {|
    providers.Attributes := attributes;
    providers.Hostname := "";
    providers.Network := [];
    providers.SshKeys := keys |})
  end end end end end.

End Provider.

End openstack.

(** ** Package [digitalocean]: attributes and the fetch *)

Module digitalocean_fetch.

Import fetch digitalocean.

(** The errors of [FetchMetadata]: the client's, the decoder's and the
    synthesizer's, each under the text [FetchMetadata] puts before it. *)
Inductive error : Type :=
| ErrFetch (e : string)
| ErrUnmarshal (e : string)
| ErrNetwork (e : digitalocean.error).

Definition endpoint : string := "http://169.254.169.254/metadata/v1.json".

(** [fmt.Sprintf(prefix + "%d", i)]. *)
Definition indexedKey (prefix : string) (i : nat) : string :=
  prefix ++ GoNet.uitoa (N.of_nat i).

Section Provider.

(** The client's [Get]; [net.ParseIP] and [net.ParseMAC]; the order of
    [range] over the interface map; [json.Unmarshal] into a [Metadata];
    [providers.String] on an address that may be nil. *)
Variable Get : string -> option string * option string.
Variable ParseIP : string -> option GoNet.IP.
Variable ParseMAC : string -> option GoNet.HardwareAddr.
Variable rangeOrder :
  gmap string providers.NetworkInterface -> list (string * providers.NetworkInterface).
Variable Unmarshal : string -> result string Metadata.
Variable String_ : option GoNet.IP -> string.

(** [attrs[key] = providers.String(net.ParseIP(address.IPAddress))] when
    the address is there. *)
Definition setAddress (key : string) (address : option Address)
    (attrs : gmap string string) : gmap string string :=
  match address with
  | Some a => <[key := String_ (ParseIP (IPAddress a))]> attrs
  | None => attrs
  end.

(** The loop of [parseAttributes] over the public interfaces, from index
    [i] on. *)
Fixpoint publicAttributes (i : nat) (ifaces : list Interface)
    (attrs : gmap string string) : gmap string string :=
  match ifaces with
  | [] => attrs
  | iface :: rest =>
      let attrs := setAddress (indexedKey "DIGITALOCEAN_IPV4_PUBLIC_" i) (IPv4 iface) attrs in
      let attrs := setAddress (indexedKey "DIGITALOCEAN_IPV6_PUBLIC_" i) (IPv6 iface) attrs in
      let attrs :=
        setAddress (indexedKey "DIGITALOCEAN_IPV4_ANCHOR_" i) (AnchorIPv4 iface) attrs in
      publicAttributes (S i) rest attrs
  end.

(** The loop of [parseAttributes] over the private interfaces. *)
Fixpoint privateAttributes (i : nat) (ifaces : list Interface)
    (attrs : gmap string string) : gmap string string :=
  match ifaces with
  | [] => attrs
  | iface :: rest =>
      let attrs := setAddress (indexedKey "DIGITALOCEAN_IPV4_PRIVATE_" i) (IPv4 iface) attrs in
      let attrs := setAddress (indexedKey "DIGITALOCEAN_IPV6_PRIVATE_" i) (IPv6 iface) attrs in
      privateAttributes (S i) rest attrs
  end.

Definition parseAttributes (metadata : Metadata) : gmap string string :=
  let attrs :=
    <["DIGITALOCEAN_REGION" := Region metadata]>
    (<["DIGITALOCEAN_HOSTNAME" := Hostname metadata]> ∅) in
  let attrs := publicAttributes 0 (Public (Interfaces_ metadata)) attrs in
  privateAttributes 0 (Private (Interfaces_ metadata)) attrs.

(** The decoded key list is passed on as it is; [PublicKeys] being a
    list, the record gets the slice of its elements. *)
Definition FetchMetadata : M (result error providers.Metadata) :=
  '(body, err) ← clientGet Get endpoint;
  match err with
  | Some e => mret (Err (ErrFetch e))
  | None =>
      match Unmarshal (stringOf body) with
      | Err e => mret (Err (ErrUnmarshal e))
      | Ok m =>
          match parseNetwork ParseIP ParseMAC rangeOrder m with
          | Err e => mret (Err (ErrNetwork e))
          | Ok network =>
              mret (Ok {|
                providers.Attributes := parseAttributes m;
                providers.Hostname := Hostname m;
                providers.Network := network;
                providers.SshKeys := Some (PublicKeys m) |})
          end
      end
  end.

End Provider.

End digitalocean_fetch.

(** * Vocabulary of the properties *)

(** ** The network synthesizer *)

Module netspec.

Import digitalocean.

(** A description with one of its addresses taken away, or with only one
    of them left. *)
Definition withoutIPv4 (iface : Interface) : Interface :=
  {| IPv4 := None; IPv6 := IPv6 iface; AnchorIPv4 := AnchorIPv4 iface;
     MAC := MAC iface; Type_ := Type_ iface |}.

Definition withoutAnchor (iface : Interface) : Interface :=
  {| IPv4 := IPv4 iface; IPv6 := IPv6 iface; AnchorIPv4 := None;
     MAC := MAC iface; Type_ := Type_ iface |}.

Definition onlyIPv4 (iface : Interface) : Interface :=
  {| IPv4 := IPv4 iface; IPv6 := None; AnchorIPv4 := None;
     MAC := MAC iface; Type_ := Type_ iface |}.

Definition onlyIPv6 (iface : Interface) : Interface :=
  {| IPv4 := None; IPv6 := IPv6 iface; AnchorIPv4 := None;
     MAC := MAC iface; Type_ := Type_ iface |}.

Definition onlyAnchor (iface : Interface) : Interface :=
  {| IPv4 := None; IPv6 := None; AnchorIPv4 := AnchorIPv4 iface;
     MAC := MAC iface; Type_ := Type_ iface |}.

(** The route to [destination] via [gateway]. *)
Definition routeVia (destination : GoNet.IPNet) (gateway : GoNet.IP) : providers.NetworkRoute :=
  {| providers.Destination := destination; providers.Gateway := gateway |}.

(** A default route, as [parseInterface] writes one: its destination is
    the zero address under the zero address as a mask. *)
Definition isDefaultRoute (r : providers.NetworkRoute) : Prop :=
  providers.Destination r = defaultIPv4 ∨ providers.Destination r = defaultIPv6.

(** The flag [parseNetwork] passes to [parseInterface]. *)
Definition isPublic (iface : Interface) : bool := String.eqb (Type_ iface) "public".

(** The address and route lists of one description, as [parseNetwork]
    obtains them (nothing for a description that does not parse). *)
Definition addressesOf (ParseIP : string -> option GoNet.IP) (iface : Interface)
  : list GoNet.IPNet :=
  match parseInterface ParseIP iface (isPublic iface) with
  | Ok (addrs, _) => addrs
  | Err _ => []
  end.

Definition routesOf (ParseIP : string -> option GoNet.IP) (iface : Interface)
  : list providers.NetworkRoute :=
  match parseInterface ParseIP iface (isPublic iface) with
  | Ok (_, routes) => routes
  | Err _ => []
  end.

(** The descriptions whose [MAC] field is the text [mac], in order. *)
Definition sharing (mac : string) (ifaces : list Interface) : list Interface :=
  filter (fun d => MAC d = mac) ifaces.

(** The interfaces of an output that carry the hardware address [hw]. *)
Definition withAddress (hw : GoNet.HardwareAddr) (out : list providers.NetworkInterface)
  : list providers.NetworkInterface :=
  filter (fun ni => providers.HardwareAddress ni = hw) out.

(** The interface the loop of [parseNetwork] leaves under the key [mac]
    once it has gone through [ifaces], starting from the map [before]. *)
Definition merged (ParseIP : string -> option GoNet.IP)
    (ParseMAC : string -> option GoNet.HardwareAddr) (servers : list GoNet.IP)
    (before : gmap string providers.NetworkInterface) (mac : string) (ifaces : list Interface)
  : providers.NetworkInterface :=
  {| providers.HardwareAddress := default [] (ParseMAC mac);
     providers.Nameservers := servers;
     providers.IPAddresses :=
       (addressesAt before mac ++ concat (addressesOf ParseIP <$> sharing mac ifaces))%list;
     providers.Routes :=
       (routesAt before mac ++ concat (routesOf ParseIP <$> sharing mac ifaces))%list |}.

(** The three texts of an IPv4 address that [parseInterface] reads are IP
    addresses; of an IPv6 address it reads two. *)
Definition parsesIPv4 (ParseIP : string -> option GoNet.IP) (a : Address) : Prop :=
  is_Some (ParseIP (IPAddress a)) /\ is_Some (ParseIP (Netmask a))
  /\ is_Some (ParseIP (Gateway a)).

Definition parsesIPv6 (ParseIP : string -> option GoNet.IP) (a : Address) : Prop :=
  is_Some (ParseIP (IPAddress a)) /\ is_Some (ParseIP (Gateway a)).



(** *** Sample descriptions *)

Definition sampleIPv4 : Address :=
  {| IPAddress := "10.0.0.5"; Netmask := "255.255.0.0"; Cidr := 0; Gateway := "10.0.0.1" |}.

Definition sampleIPv6 : Address :=
  {| IPAddress := "2001:db8::5"; Netmask := ""; Cidr := 64; Gateway := "2001:db8::1" |}.

Definition sampleAnchor : Address :=
  {| IPAddress := "10.17.0.9"; Netmask := "255.255.0.0"; Cidr := 0; Gateway := "10.17.0.1" |}.

Definition samplePublic : Interface :=
  {| IPv4 := Some sampleIPv4; IPv6 := Some sampleIPv6; AnchorIPv4 := Some sampleAnchor;
     MAC := "04:01:2a:0f:2a:02"; Type_ := "public" |}.

Definition samplePrivate : Interface :=
  {| IPv4 := Some sampleIPv4; IPv6 := None; AnchorIPv4 := None;
     MAC := "04:01:2a:0f:2a:02"; Type_ := "private" |}.

(** The same interface as [samplePrivate], its address written in capitals. *)
Definition samplePublicCapitals : Interface :=
  {| IPv4 := Some sampleIPv4; IPv6 := Some sampleIPv6; AnchorIPv4 := None;
     MAC := "04:01:2A:0F:2A:02"; Type_ := "public" |}.

Definition sampleMetadata (public private : list Interface) (nameservers : list string)
  : Metadata :=
  {| Hostname := "droplet"; Interfaces_ := {| Public := public; Private := private |};
     PublicKeys := []; Region := "nyc3"; DNS_ := {| Nameservers := nameservers |} |}.

(** A description whose hardware address is not a MAC. *)
Definition sampleUnparseable : Interface :=
  {| IPv4 := Some sampleIPv4; IPv6 := None; AnchorIPv4 := None;
     MAC := "04:01:2a:0f:2a"; Type_ := "public" |}.

Definition sampleHardwareAddr : GoNet.HardwareAddr := [x04; x01; x2a; x0f; x2a; x02].

(** What the sample addresses parse to: 10.0.0.5/16 via 10.0.0.1,
    2001:db8::5/64 via 2001:db8::1 and 10.17.0.9/16 via 10.17.0.1. *)
Definition sampleNet4 : GoNet.IPNet :=
  {| GoNet.IPNet_IP := GoNet.IPv4 x0a x00 x00 x05; GoNet.IPNet_Mask := [xff; xff; x00; x00] |}.

Definition sampleGateway4 : GoNet.IP := GoNet.IPv4 x0a x00 x00 x01.

Definition sampleNet6 : GoNet.IPNet :=
  {| GoNet.IPNet_IP :=
       [x20; x01; x0d; xb8; x00; x00; x00; x00; x00; x00; x00; x00; x00; x00; x00; x05];
     GoNet.IPNet_Mask :=
       [xff; xff; xff; xff; xff; xff; xff; xff; x00; x00; x00; x00; x00; x00; x00; x00] |}.

Definition sampleGateway6 : GoNet.IP :=
  [x20; x01; x0d; xb8; x00; x00; x00; x00; x00; x00; x00; x00; x00; x00; x00; x01].

Definition sampleNetAnchor : GoNet.IPNet :=
  {| GoNet.IPNet_IP := GoNet.IPv4 x0a x11 x00 x09; GoNet.IPNet_Mask := [xff; xff; x00; x00] |}.

Definition sampleGatewayAnchor : GoNet.IP := GoNet.IPv4 x0a x11 x00 x01.

Definition sampleNameserver : GoNet.IP := GoNet.IPv4 x08 x08 x08 x08.

(** The routes of [samplePrivate], then those of [samplePublic]. *)
Definition samplePrivateRoutes : list providers.NetworkRoute :=
  [routeVia sampleNet4 sampleGateway4].

Definition samplePublicRoutes : list providers.NetworkRoute :=
  [routeVia sampleNet4 sampleGateway4; routeVia defaultIPv4 sampleGateway4;
   routeVia sampleNet6 sampleGateway6; routeVia defaultIPv6 sampleGateway6;
   routeVia sampleNetAnchor sampleGatewayAnchor].

(** [samplePrivate] and [samplePublic] merged: the private description's
    lists, then the public one's; 10.0.0.5/16 and its route are there
    twice. *)
Definition sampleMerged : providers.NetworkInterface :=
  {| providers.HardwareAddress := sampleHardwareAddr;
     providers.Nameservers := [sampleNameserver];
     providers.IPAddresses := [sampleNet4; sampleNet4; sampleNet6; sampleNetAnchor];
     providers.Routes := (samplePrivateRoutes ++ samplePublicRoutes)%list |}.

(** An IPv6 address with a prefix length that no address has. *)
Definition sampleIPv6Wide : Address :=
  {| IPAddress := "2001:db8::5"; Netmask := ""; Cidr := 129; Gateway := "2001:db8::1" |}.

End netspec.

(** ** Key listings and attributes *)

Module keyspec.

Import fetch.

(** [line] is [before], the separator, [after], and the separator does not
    occur in [before]: [after] is the text after the first separator. *)
Definition entryOf (sep : ascii) (line before after : string) : Prop :=
  line = before ++ String sep after /\ GoStrings.contains before sep = false.

(** The lines of a key listing split at newlines that are not empty. *)
Definition nonEmptyLines (keydata : string) : list string :=
  filter (fun line => line <> "") (GoStrings.Split keydata GoBufio.newline).

(** The lines of a key listing as the scanner delivers them when none is
    too long for it. *)
Definition scannedLines (keydata : string) : list string :=
  GoBufio.dropCR <$> GoBufio.rawLines keydata.

(** An entry [(index, name)] of an EC2 listing survives when no later entry
    has its name. *)
Definition survives (entries : list (string * string)) (id name : string) : Prop :=
  exists earlier later,
    entries = (earlier ++ (id, name) :: later)%list /\ name ∉ later.*2.

(** Absent: the client returns neither a body nor an error. *)
Definition absent (Get : string -> option string * option string) (url : string) : Prop :=
  Get url = (None, None).

Definition lf : string := String GoBufio.newline "".

(** The map the listing loop of EC2 builds from well-formed entries. *)
Definition keyIDsOf (entries : list (string * string)) (keyIDs : gmap string string)
  : gmap string string :=
  foldl (fun m e => <[e.2 := e.1]> m) keyIDs entries.

(** The attributes after one [fetchAndSet] of OpenStack that did not fail. *)
Definition stored (Get : string -> option string * option string)
    (key attrKey : string) (attributes : gmap string string)
  : gmap string string :=
  match (Get (openstack.metadataEndpoint ++ key)).1 with
  | None => attributes
  | Some body => if String.eqb body "" then attributes else <[attrKey := body]> attributes
  end.

(** The address [fetchIP] of EC2 returns when it does not fail. *)
Definition addressOf (Get : string -> option string * option string)
    (ParseIP : string -> option GoNet.IP) (key : string) : option GoNet.IP :=
  (Get (ec2.endpoint ++ key)).1 ≫= ParseIP.

(** The six requests [FetchMetadata] of EC2 makes before the key listing. *)
Definition scalarRequests : list string :=
  (String.append ec2.endpoint) <$>
    ["meta-data/instance-id"; "meta-data/public-ipv4"; "meta-data/local-ipv4";
     "meta-data/hostname"; "meta-data/placement/availability-zone";
     "dynamic/instance-identity/document"].

(** The attributes of a fetch of EC2 that succeeds. *)
Definition attributesOf (Get : string -> option string * option string)
    (ParseIP : string -> option GoNet.IP) (String_ : option GoNet.IP -> string)
    (doc : ec2.instanceIdDoc) : gmap string string :=
  <["EC2_REGION" := ec2.Region doc]>
  (<["EC2_AVAILABILITY_ZONE" :=
       stringOf (Get (ec2.endpoint ++ "meta-data/placement/availability-zone")).1]>
  (<["EC2_HOSTNAME" := stringOf (Get (ec2.endpoint ++ "meta-data/hostname")).1]>
  (<["EC2_IPV4_PUBLIC" := String_ (addressOf Get ParseIP "meta-data/public-ipv4")]>
  (<["EC2_IPV4_LOCAL" := String_ (addressOf Get ParseIP "meta-data/local-ipv4")]>
  (<["EC2_INSTANCE_ID" := stringOf (Get (ec2.endpoint ++ "meta-data/instance-id")).1]> ∅))))).

(** *** Sample services *)

(** A service that knows the given URLs and answers absent to the rest. *)
Fixpoint service (known : list (string * string)) (url : string)
  : option string * option string :=
  match known with
  | [] => (None, None)
  | (u, body) :: rest => if String.eqb u url then (Some body, None) else service rest url
  end.

Definition sampleFormatC : string := "ssh-rsa:AAAA..." ++ lf ++ "ssh-ed25519:BBBB...".

Definition sampleGCE : string -> option string * option string :=
  service [(gce.endpoint ++ "instance/attributes/ssh-keys", sampleFormatC);
           (gce.endpoint ++ "instance/attributes/sshKeys", "");
           (gce.endpoint ++ "project/attributes/sshKeys", "alice:ssh-rsa AAAA" ++ lf ++ "bob")].

(** An EC2 listing with the name [deploy] under indices 0 and 2, and no key
    body for index 1. *)
Definition sampleFormatB : string := "0=deploy" ++ lf ++ "1=backup" ++ lf ++ "2=deploy" ++ lf.

Definition sampleKeynames : list string := ["0=deploy"; "1=backup"; "2=deploy"].

Definition sampleEntries : list (string * string) :=
  [("0", "deploy"); ("1", "backup"); ("2", "deploy")].

Definition sampleEC2 : string -> option string * option string :=
  service [(ec2.endpoint ++ "public-keys", sampleFormatB);
           (ec2.endpoint ++ ec2.keyPath "0", "ssh-rsa AAAA0 deploy");
           (ec2.endpoint ++ ec2.keyPath "2", "ssh-rsa AAAA2 deploy");
           (ec2.endpoint ++ "dynamic/instance-identity/document", "{}")].

Definition sampleEC2Malformed : string -> option string * option string :=
  service [(ec2.endpoint ++ "public-keys", "0=deploy" ++ lf ++ "backup" ++ lf)].

Definition sampleEC2Empty : string -> option string * option string :=
  service [(ec2.endpoint ++ "public-keys", "")].

(** [providers.String] as the code is run with on the samples: the empty
    string for a nil address, [ip.String()] for any other. *)
Definition sampleString (ip : option GoNet.IP) : string :=
  match ip with
  | None => ""
  | Some ip => GoNet.IPString ip
  end.

Definition zeroInstanceIdDoc : ec2.instanceIdDoc :=
  ec2.mkInstanceIdDoc "" "" "" "" "" "" "" "" "" "" "" "" "" "".

(** [json.Unmarshal] as the code is run with on the samples, where the
    identity document is the empty object: every field keeps its zero
    value. Any other blob is reported as an error, as the library does for
    the empty blob. *)
Definition sampleUnmarshal (blob : string) : result string ec2.instanceIdDoc :=
  if String.eqb blob "{}" then Ok zeroInstanceIdDoc
  else Err "unexpected end of JSON input".

(** The scalar keys of the OpenStack and EC2 providers with the attribute
    each is stored under. *)
Definition openstackScalars : list (string * string) :=
  [("instance-id", "OPENSTACK_INSTANCE_ID"); ("local-ipv4", "OPENSTACK_IPV4_LOCAL");
   ("public-ipv4", "OPENSTACK_IPV4_PUBLIC"); ("hostname", "OPENSTACK_HOSTNAME")].

Definition ec2StringScalars : list (string * string) :=
  [("meta-data/instance-id", "EC2_INSTANCE_ID"); ("meta-data/hostname", "EC2_HOSTNAME");
   ("meta-data/placement/availability-zone", "EC2_AVAILABILITY_ZONE")].

Definition ec2IPScalars : list (string * string) :=
  [("meta-data/public-ipv4", "EC2_IPV4_PUBLIC"); ("meta-data/local-ipv4", "EC2_IPV4_LOCAL")].

(** [path.Join] as the code is run with on the samples, whose elements
    need no cleaning: the elements with a slash between them. *)
Definition samplePathJoin (elems : list string) : string := String.concat "/" elems.

Definition sampleOpenStack : string -> option string * option string :=
  service [(openstack.metadataEndpoint ++ "instance-id", "i-0042");
           (openstack.metadataEndpoint ++ "hostname", "")].

(** *** The GCE provider *)

(** Every non-empty line of a GCE listing has a colon. *)
Definition wellFormed (keydata : string) : Prop :=
  Forall (fun line => line = "" \/ GoStrings.contains line ":"%char = true)
    (GoStrings.Split keydata GoBufio.newline).

(** [bodies] are the texts after the first colon of the non-empty lines
    of a GCE listing, in line order. *)
Definition bodiesOf (keydata : string) (bodies : list string) : Prop :=
  Forall2 (fun line body => exists before, entryOf ":"%char line before body)
    (nonEmptyLines keydata) bodies.

(** The body the GCE service answers with under a key. *)
Definition gceBody (Get : string -> option string * option string) (key : string) : string :=
  stringOf (Get (gce.endpoint ++ key)).1.

(** The address [fetchIP] of GCE returns when it does not fail: none for
    an empty body. *)
Definition gceAddressOf (Get : string -> option string * option string)
    (ParseIP : string -> option GoNet.IP) (key : string) : option GoNet.IP :=
  if String.eqb (gceBody Get key) "" then None else ParseIP (gceBody Get key).

(** The four requests of [fetchAllSshKeys], in the order it makes them. *)
Definition keyRequests : list string :=
  (String.append gce.endpoint) <$>
    ["instance/attributes/sshKeys"; "instance/attributes/ssh-keys";
     "instance/attributes/block-project-ssh-keys"; "project/attributes/sshKeys"].

(** A service with a deprecated instance listing beside the current one. *)
Definition sampleGCEDeprecated : string -> option string * option string :=
  service [(gce.endpoint ++ "instance/attributes/sshKeys", "old:ssh-rsa OLD");
           (gce.endpoint ++ "instance/attributes/ssh-keys", sampleFormatC);
           (gce.endpoint ++ "project/attributes/sshKeys", "carol:ssh-rsa CCCC")].

(** A service with an instance listing and a project listing, and a
    blocking flag that is not a boolean. *)
Definition sampleGCEProject : string -> option string * option string :=
  service [(gce.endpoint ++ "instance/attributes/ssh-keys", sampleFormatC);
           (gce.endpoint ++ "instance/attributes/block-project-ssh-keys", "yes");
           (gce.endpoint ++ "project/attributes/sshKeys", "carol:ssh-rsa CCCC");
           (gce.endpoint ++ "instance/hostname", "vm-1.internal");
           (gce.endpoint ++ "instance/network-interfaces/0/ip", "10.0.0.5")].

(** A service that blocks the project keys; its project listing has a
    line without a colon. *)
Definition sampleGCEBlocked : string -> option string * option string :=
  service [(gce.endpoint ++ "instance/attributes/ssh-keys", sampleFormatC);
           (gce.endpoint ++ "instance/attributes/block-project-ssh-keys", "true");
           (gce.endpoint ++ "project/attributes/sshKeys", "bob")].

(** *** The OpenStack provider *)

(** How many times [sep] occurs in [s]. *)
Fixpoint occurrences (s : string) (sep : ascii) : nat :=
  match s with
  | EmptyString => 0
  | String c rest => ((if Ascii.eqb c sep then 1 else 0) + occurrences rest sep)%nat
  end.

(** The first line of a key listing. *)
Definition firstLine (blob : string) : string :=
  List.hd "" (GoStrings.Split blob GoBufio.newline).

(** A service with two keys and a hostname; one with a listing and no key
    body; one whose first entry has two equals signs. *)
Definition sampleOpenStackKeys : string -> option string * option string :=
  service [(openstack.metadataEndpoint ++ "hostname", "web-1");
           (openstack.metadataEndpoint ++ "public-keys", "0=deploy" ++ lf ++ "1=backup");
           (openstack.metadataEndpoint ++ "public-keys/0/openssh-key", "ssh-rsa AAAA0 deploy");
           (openstack.metadataEndpoint ++ "public-keys/1/openssh-key", "ssh-rsa AAAA1 backup")].

Definition sampleOpenStackMissing : string -> option string * option string :=
  service [(openstack.metadataEndpoint ++ "public-keys", "0=deploy")].

Definition sampleOpenStackTwoEquals : string -> option string * option string :=
  service [(openstack.metadataEndpoint ++ "public-keys", "0=deploy=old");
           (openstack.metadataEndpoint ++ "public-keys/0/openssh-key", "ssh-rsa AAAA0 deploy")].

(** *** The EC2 provider *)

(** The attribute keys of the EC2 provider. *)
Definition ec2AttributeKeys : list string :=
  ["EC2_REGION"; "EC2_AVAILABILITY_ZONE"; "EC2_HOSTNAME"; "EC2_IPV4_PUBLIC";
   "EC2_IPV4_LOCAL"; "EC2_INSTANCE_ID"].

(** The service [Get], except that the request for [url] fails with [e]. *)
Definition failing (url e : string) (Get : string -> option string * option string)
  : string -> option string * option string :=
  fun u => if String.eqb u url then (None, Some e) else Get u.

(** A service whose public address is there with an empty body. *)
Definition sampleEC2EmptyIP : string -> option string * option string :=
  service [(ec2.endpoint ++ "meta-data/public-ipv4", "")].

(** The sample service, the key body of index 2 failing. *)
Definition sampleEC2Refused : string -> option string * option string :=
  failing (ec2.endpoint ++ ec2.keyPath "2") "connection refused" sampleEC2.

End keyspec.

(** ** The attributes and the fetch of DigitalOcean *)

Module attrspec.

Import digitalocean keyspec.

(** The prefixes of the indexed attributes with the address each is for. *)
Definition publicFields : list (string * (Interface -> option Address)) :=
  [("DIGITALOCEAN_IPV4_PUBLIC_", IPv4); ("DIGITALOCEAN_IPV6_PUBLIC_", IPv6);
   ("DIGITALOCEAN_IPV4_ANCHOR_", AnchorIPv4)].

Definition privateFields : list (string * (Interface -> option Address)) :=
  [("DIGITALOCEAN_IPV4_PRIVATE_", IPv4); ("DIGITALOCEAN_IPV6_PRIVATE_", IPv6)].

(** The value [parseAttributes] stores for an address. *)
Definition attributeOf (ParseIP : string -> option GoNet.IP)
    (String_ : option GoNet.IP -> string) (a : Address) : string :=
  String_ (ParseIP (IPAddress a)).

(** *** A sample droplet *)

(** [s] between double quotes. *)
Definition quoted (s : string) : string := String "034"%char (s ++ String "034"%char "").

(** A document with a hostname and a region, and what it decodes to. *)
Definition sampleDocument : string :=
  "{" ++ quoted "hostname" ++ ":" ++ quoted "droplet" ++ ","
      ++ quoted "region" ++ ":" ++ quoted "nyc3" ++ "}".

Definition sampleDroplet : Metadata := netspec.sampleMetadata [] [] [].

(** [json.Unmarshal] as the code is run with on the samples: the sample
    document decodes to the sample droplet; any other blob is reported as
    an error, as the library does for the empty blob. *)
Definition sampleDecode (blob : string) : result string Metadata :=
  if String.eqb blob sampleDocument then Ok sampleDroplet
  else Err "unexpected end of JSON input".

Definition sampleDigitalOcean : string -> option string * option string :=
  service [(digitalocean_fetch.endpoint, sampleDocument)].

End attrspec.

(** ** The retry client *)

Module retryspec.

(** One second to five seconds of backoff, ten attempts. *)
Definition sampleClient (header : gmap string (list string)) : retry.Client :=
  {| retry.InitialBackoff := retry.Second;
     retry.MaxBackoff := (5 * retry.Second)%Z;
     retry.MaxAttempts := 10;
     retry.Header := header |}.

(** A transport on which every GET fails to connect. *)
Definition refusing : retry.Transport :=
  fun _ _ k => retry.NetworkFailure ("connection refused").

Definition seconds (n : Z) : retry.Duration := (n * retry.Second)%Z.

End retryspec.

(** * Properties *)

(** ** Splitting strings *)

Module strings_props.

Import GoStrings keyspec.

Lemma cut_Some (s : string) (sep : ascii) (before after : string) :
  cut s sep = Some (before, after) -> entryOf sep s before after.
Proof.
  unfold entryOf. revert before. induction s as [|c s IH]; intros before; simpl.
  - discriminate.
  - destruct (Ascii.eqb c sep) eqn:Hc.
    + apply Ascii.eqb_eq in Hc as ->. intros [= <- <-]. split; reflexivity.
    + destruct (cut s sep) as [[b a]|]; [|discriminate].
      intros [= <- <-]. destruct (IH b eq_refl) as [-> Hb].
      split; [reflexivity|]. simpl. rewrite Hc. exact Hb.
Qed.

Lemma cut_app (sep : ascii) (before after : string) :
  contains before sep = false -> cut (before ++ String sep after) sep = Some (before, after).
Proof.
  induction before as [|c before IH]; simpl.
  - intros _. rewrite Ascii.eqb_refl. reflexivity.
  - intros H. apply orb_false_elim in H as [Hc Hb]. rewrite Hc, (IH Hb). reflexivity.
Qed.

Lemma cut_entry (s : string) (sep : ascii) (before after : string) :
  cut s sep = Some (before, after) <-> entryOf sep s before after.
Proof.
  split; [apply cut_Some|]. intros [-> Hb]. apply cut_app. exact Hb.
Qed.

Lemma cut_none (s : string) (sep : ascii) :
  cut s sep = None <-> contains s sep = false.
Proof.
  induction s as [|c s IH]; simpl; [tauto|].
  destruct (Ascii.eqb c sep); simpl; [split; discriminate|].
  destruct (cut s sep) as [[b a]|].
  - split; [discriminate|]. intros H. apply IH in H. discriminate.
  - split; [intros _; apply IH; reflexivity | reflexivity].
Qed.

Lemma SplitN_two (s : string) (sep : ascii) :
  SplitN s sep 2 =
    match cut s sep with
    | Some (before, after) => [before; after]
    | None => [s]
    end.
Proof. simpl. destruct (cut s sep) as [[b a]|]; reflexivity. Qed.

(** A sample service never fails. *)
Lemma service_no_error (known : list (string * string)) (url : string) :
  (service known url).2 = None.
Proof.
  induction known as [|[u body] known IH]; [reflexivity|].
  simpl. destruct (String.eqb u url); [reflexivity | exact IH].
Qed.

(** A scan that ends without error has delivered every line. *)
Lemma ScanLines_all (keydata : string) (tokens : list string) :
  GoBufio.ScanLines keydata = (tokens, None) -> tokens = scannedLines keydata.
Proof.
  unfold GoBufio.ScanLines, scannedLines. generalize (GoBufio.rawLines keydata).
  intros lines. revert tokens. induction lines as [|l lines IH]; intros tokens; simpl.
  - intros [= <-]. reflexivity.
  - destruct (_ <=? _)%N; [discriminate|].
    destruct (GoBufio.scan lines) as [rest err]. intros [= <- ->].
    rewrite (IH rest eq_refl). reflexivity.
Qed.

Lemma length_zero (s : string) : (String.length s =? 0)%nat = true <-> s = "".
Proof. destruct s; simpl; split; congruence. Qed.

End strings_props.

(** ** The GCE key listing *)

Module gce_props.

Import fetch gce keyspec strings_props.

Lemma keysLoop_bodies (lines keys : list string) :
  Forall (fun line => line = "" \/ GoStrings.contains line ":"%char = true) lines ->
  exists bodies,
    keysLoop lines keys = Ok (keys ++ bodies)%list
    /\ Forall2 (fun line body => exists before, entryOf ":"%char line before body)
         (filter (fun line => line <> "") lines) bodies.
Proof.
  intros Hlines. revert keys. induction Hlines as [|line lines Hline _ IH]; intros keys.
  - exists []. simpl. rewrite app_nil_r. split; constructor.
  - cbn [keysLoop]. destruct (String.length line =? 0)%nat eqn:Hlen.
    + apply length_zero in Hlen as ->.
      rewrite filter_cons_False by (intros H; apply H; reflexivity). apply IH.
    + assert (Hne : line <> "") by (intros ->; discriminate).
      destruct Hline as [->|Hcolon]; [discriminate|].
      rewrite SplitN_two.
      destruct (GoStrings.cut line ":"%char) as [[before body]|] eqn:Hcut.
      * destruct (IH (keys ++ [body])%list) as (bodies & -> & Hall).
        exists (body :: bodies). rewrite <- app_assoc. split; [reflexivity|].
        rewrite filter_cons_True by assumption.
        constructor; [|exact Hall]. exists before. apply cut_entry. exact Hcut.
      * apply cut_none in Hcut. congruence.
Qed.

Lemma keysLoop_malformed (lines keys : list string) (line : string) :
  line ∈ lines -> line <> "" -> GoStrings.contains line ":"%char = false ->
  exists bad,
    keysLoop lines keys = Err (ErrMalformedKey bad)
    /\ bad ∈ lines /\ bad <> "" /\ GoStrings.contains bad ":"%char = false.
Proof.
  intros Hin Hne Hcolon. revert keys.
  induction lines as [|l lines IH]; intros keys; [inversion Hin|].
  cbn [keysLoop]. destruct (String.length l =? 0)%nat eqn:Hlen.
  - apply length_zero in Hlen as ->.
    apply elem_of_cons in Hin as [->|Hin]; [contradiction|].
    destruct (IH Hin keys) as (bad & -> & Hbad & Hrest).
    exists bad. split; [reflexivity|]. split; [|exact Hrest].
    apply elem_of_cons. right. exact Hbad.
  - assert (Hl : l <> "") by (intros ->; discriminate).
    rewrite SplitN_two.
    destruct (GoStrings.cut l ":"%char) as [[before body]|] eqn:Hcut.
    + apply elem_of_cons in Hin as [->|Hin].
      { apply cut_none in Hcolon. congruence. }
      destruct (IH Hin (keys ++ [body])%list) as (bad & -> & Hbad & Hrest).
      exists bad. split; [reflexivity|]. split; [|exact Hrest].
      apply elem_of_cons. right. exact Hbad.
    + exists l. split; [reflexivity|]. split; [apply elem_of_cons; left; reflexivity|].
      split; [exact Hl | apply cut_none; exact Hcut].
Qed.

Section Provider.

Context (Get : string -> option string * option string).

Local Abbreviation url key := (String.append endpoint key).
Local Abbreviation fetchString := (gce.fetchString Get).
Local Abbreviation fetchSshKeys := (gce.fetchSshKeys Get).

Lemma gce_fetchString_eq (key : string) (log : list string) :
  fetchString key log =
    ((stringOf (Get (url key)).1,
      (0 <? String.length (stringOf (Get (url key)).1))%nat,
      (Get (url key)).2),
     (log ++ [url key])%list).
Proof.
  unfold gce.fetchString, clientGet, mbind, M_bind, mret, M_ret.
  destruct (Get (url key)) as [body err]. reflexivity.
Qed.

Lemma gce_fetchSshKeys_eq (prefix : string) (log : list string) :
  fetchSshKeys prefix log =
    (match (Get (url prefix)).2 with
     | Some e => Err (ErrReadingKeys e)
     | None =>
         if (0 <? String.length (stringOf (Get (url prefix)).1))%nat then
           match keysLoop (GoStrings.Split (stringOf (Get (url prefix)).1)
                             GoBufio.newline) [] with
           | Err e => Err e
           | Ok keys => Ok (Some keys)
           end
         else Ok None
     end, (log ++ [url prefix])%list).
Proof.
  unfold gce.fetchSshKeys. unfold mbind at 1. unfold M_bind.
  rewrite gce_fetchString_eq.
  destruct (Get (url prefix)).2; [reflexivity|].
  destruct (0 <? _)%nat; simpl; [|reflexivity].
  destruct (keysLoop _ _); reflexivity.
Qed.

(** C7. For a Format C listing fetched without error, each of whose
    non-empty lines has a colon, the keys returned are, for each non-empty
    line in line order, the text after the first colon of the line (none
    for a listing that is absent or empty); the listing of an [ssh-rsa] and
    an [ssh-ed25519] entry yields the two key bodies in that order. *)
Theorem fetchSshKeys_format_C (prefix : string) (log : list string) :
  (forall keydata,
      (Get (url prefix)).2 = None ->
      keydata = stringOf (Get (url prefix)).1 ->
      Forall (fun line => line = "" \/ GoStrings.contains line ":"%char = true)
        (GoStrings.Split keydata GoBufio.newline) ->
      exists keys,
        fetchSshKeys prefix log = (Ok keys, (log ++ [url prefix])%list)
        /\ Forall2 (fun line body => exists before, entryOf ":"%char line before body)
             (nonEmptyLines keydata) (elements keys))
  /\ (Get (url prefix) = (Some sampleFormatC, None) ->
      fetchSshKeys prefix log = (Ok (Some ["AAAA..."; "BBBB..."]), (log ++ [url prefix])%list)).
Proof.
  split.
  - intros keydata Herr -> Hlines.
    rewrite gce_fetchSshKeys_eq, Herr.
    destruct (stringOf (Get (url prefix)).1) as [|c keydata] eqn:Hbody.
    + exists None. split; [reflexivity | constructor].
    + cbn [String.length Nat.ltb Nat.leb].
      destruct (keysLoop_bodies _ [] Hlines) as (bodies & -> & Hbodies).
      exists (Some bodies). split; [reflexivity | exact Hbodies].
  - intros HGet. rewrite gce_fetchSshKeys_eq, HGet. reflexivity.
Qed.

End Provider.

Lemma fetchSshKeys_format_C_witness :
  (exists keys,
      gce.fetchSshKeys sampleGCE "instance/attributes/ssh-keys" []
        = (Ok keys, [gce.endpoint ++ "instance/attributes/ssh-keys"])
      /\ Forall2 (fun line body => exists before, entryOf ":"%char line before body)
           (nonEmptyLines sampleFormatC) (elements keys))
  /\ gce.fetchSshKeys sampleGCE "instance/attributes/ssh-keys" []
     = (Ok (Some ["AAAA..."; "BBBB..."]), [gce.endpoint ++ "instance/attributes/ssh-keys"]).
Proof.
  split.
  - apply (proj1 (fetchSshKeys_format_C sampleGCE "instance/attributes/ssh-keys" [])).
    + reflexivity.
    + reflexivity.
    + repeat (constructor; [right; reflexivity|]). constructor.
  - apply (proj2 (fetchSshKeys_format_C sampleGCE "instance/attributes/ssh-keys" [])).
    reflexivity.
Defined.

End gce_props.

(** ** The EC2 key listing *)

Module ec2_props.

Import fetch ec2 keyspec strings_props.

Lemma keyIDsLoop_entries (keynames : list string) (entries : list (string * string))
    (keyIDs : gmap string string) :
  Forall2 (fun line e => entryOf "="%char line e.1 e.2) keynames entries ->
  keyIDsLoop keynames keyIDs = Ok (keyIDsOf entries keyIDs).
Proof.
  intros Hall. revert keyIDs.
  induction Hall as [|line [id name] keynames entries Hline _ IH]; intros keyIDs.
  - reflexivity.
  - cbn [keyIDsLoop]. rewrite SplitN_two.
    apply cut_entry in Hline. simpl in Hline. rewrite Hline. apply IH.
Qed.

Lemma keyIDsLoop_malformed (keynames : list string) (keyIDs : gmap string string)
    (line : string) :
  line ∈ keynames -> GoStrings.contains line "="%char = false ->
  exists bad,
    keyIDsLoop keynames keyIDs = Err (ErrMalformedKey bad)
    /\ bad ∈ keynames /\ GoStrings.contains bad "="%char = false.
Proof.
  intros Hin Hline. revert keyIDs.
  induction keynames as [|l keynames IH]; intros keyIDs; [inversion Hin|].
  cbn [keyIDsLoop]. rewrite SplitN_two.
  destruct (GoStrings.cut l "="%char) as [[id name]|] eqn:Hcut.
  - apply elem_of_cons in Hin as [->|Hin].
    { apply cut_none in Hline. congruence. }
    destruct (IH Hin (<[name := id]> keyIDs)) as (bad & -> & Hbad & Hrest).
    exists bad. split; [reflexivity|]. split; [|exact Hrest].
    apply elem_of_cons. right. exact Hbad.
  - exists l. split; [reflexivity|]. split; [apply elem_of_cons; left; reflexivity|].
    apply cut_none. exact Hcut.
Qed.

(** The last entry of a name decides its index. *)
Lemma keyIDsOf_lookup (entries : list (string * string)) (keyIDs : gmap string string)
    (name id : string) :
  ((keyIDsOf entries keyIDs) !! name = Some id) <->
  (survives entries id name \/ ((name ∉ entries.*2) /\ keyIDs !! name = Some id)).
Proof.
  unfold keyIDsOf, survives. revert keyIDs.
  induction entries as [|[id' name'] entries IH]; intros keyIDs; simpl.
  - split.
    + intros H. right. split; [apply not_elem_of_nil | exact H].
    + intros [(earlier & later & H & _)|[_ H]]; [|exact H].
      destruct earlier; discriminate.
  - rewrite IH. clear IH. split.
    + intros [(earlier & later & -> & Hlater)|[Hnot Hlk]].
      * left. exists ((id', name') :: earlier), later. split; [reflexivity | exact Hlater].
      * destruct (decide (name' = name)) as [->|Hne].
        -- rewrite lookup_insert_eq in Hlk. injection Hlk as ->.
           left. exists [], entries. split; [reflexivity | exact Hnot].
        -- rewrite lookup_insert_ne in Hlk by exact Hne.
           right. split; [|exact Hlk].
           apply not_elem_of_cons. split; [congruence | exact Hnot].
    + intros [(earlier & later & Heq & Hlater)|[Hnot Hlk]].
      * destruct earlier as [|e earlier]; simpl in Heq.
        -- simplify_eq. right. split; [exact Hlater|].
           apply lookup_insert_eq.
        -- simplify_eq. left. exists earlier, later.
           split; [reflexivity | exact Hlater].
      * apply not_elem_of_cons in Hnot as [Hne Hnot]. right. split; [exact Hnot|].
        rewrite lookup_insert_ne by congruence. exact Hlk.
Qed.

Section Provider.

Context (Get : string -> option string * option string).
Context (ParseIP : string -> option GoNet.IP).
Context (String_ : option GoNet.IP -> string).
Context (Unmarshal : string -> result string instanceIdDoc).
Context (rangeOrder : gmap string string -> list (string * string)).

Hypothesis rangeOrder_perm : forall m, rangeOrder m ≡ₚ map_to_list m.

Local Abbreviation url key := (String.append endpoint key).
Local Abbreviation fetchString := (ec2.fetchString Get).
Local Abbreviation fetchIP := (ec2.fetchIP Get ParseIP).
Local Abbreviation fetchKeyBodies := (ec2.fetchKeyBodies Get).
Local Abbreviation fetchSshKeys := (ec2.fetchSshKeys Get rangeOrder).
Local Abbreviation FetchMetadata :=
  (ec2.FetchMetadata Get ParseIP String_ Unmarshal rangeOrder).

Local Abbreviation bodyOf key := (stringOf (Get (url key)).1).

Lemma fetchString_eq (key : string) (log : list string) :
  fetchString key log =
    ((bodyOf key, bool_decide (is_Some (Get (url key)).1), (Get (url key)).2),
     (log ++ [url key])%list).
Proof.
  unfold ec2.fetchString, clientGet, mbind, M_bind, mret, M_ret.
  destruct (Get (url key)) as [body err]. reflexivity.
Qed.

Lemma fetchKeyBodies_ok (ids keys log : list string) :
  (forall id, id ∈ ids -> (Get (url (keyPath id))).2 = None) ->
  fetchKeyBodies ids keys log =
    (Ok (Some (keys ++ ((fun id => bodyOf (keyPath id)) <$> ids))%list),
     (log ++ ((fun id => url (keyPath id)) <$> ids))%list).
Proof.
  revert keys log. induction ids as [|id ids IH]; intros keys log Hok.
  - simpl. rewrite !app_nil_r. reflexivity.
  - cbn [ec2.fetchKeyBodies]. unfold mbind at 1. unfold M_bind.
    rewrite fetchString_eq.
    rewrite (Hok id) by (apply elem_of_cons; left; reflexivity).
    rewrite IH by (intros id' Hid'; apply Hok, elem_of_cons; right; exact Hid').
    rewrite !fmap_cons, <- !app_assoc. reflexivity.
Qed.

(** What [fetchSshKeys] does with a listing that is present. *)
Lemma fetchSshKeys_present (keydata : string) (log : list string) :
  Get (url "public-keys") = (Some keydata, None) ->
  fetchSshKeys log =
    match GoBufio.ScanLines keydata with
    | (_, Some e) => (Err (ErrParsingKeys e), (log ++ [url "public-keys"])%list)
    | (keynames, None) =>
        match keyIDsLoop keynames ∅ with
        | Err e => (Err e, (log ++ [url "public-keys"])%list)
        | Ok keyIDs =>
            fetchKeyBodies (rangeOrder keyIDs).*2 [] (log ++ [url "public-keys"])%list
        end
    end.
Proof.
  intros HGet.
  unfold ec2.fetchSshKeys. unfold mbind at 1. unfold M_bind.
  rewrite fetchString_eq, HGet. cbn [fst snd negb].
  rewrite bool_decide_eq_true_2 by eauto.
  cbn [negb fst stringOf default from_option id].
  destruct (GoBufio.ScanLines keydata) as [keynames [e|]]; [reflexivity|].
  destruct (keyIDsLoop keynames ∅); reflexivity.
Qed.

Lemma fetchSshKeys_absent (log : list string) :
  absent Get (url "public-keys") ->
  fetchSshKeys log = (Ok None, (log ++ [url "public-keys"])%list).
Proof.
  intros HGet. unfold ec2.fetchSshKeys. unfold mbind at 1. unfold M_bind.
  rewrite fetchString_eq, HGet. reflexivity.
Qed.

(** A listing that is present and well formed: the keys are fetched for
    the indices of the map, in the order [range] gives them. *)
Lemma fetchSshKeys_listing (keydata : string) (keynames : list string)
    (entries : list (string * string)) (log : list string) :
  Get (url "public-keys") = (Some keydata, None) ->
  GoBufio.ScanLines keydata = (keynames, None) ->
  Forall2 (fun line e => entryOf "="%char line e.1 e.2) keynames entries ->
  fetchSshKeys log =
    fetchKeyBodies (rangeOrder (keyIDsOf entries ∅)).*2 [] (log ++ [url "public-keys"])%list.
Proof.
  intros HGet Hscan Hentries.
  rewrite (fetchSshKeys_present _ _ HGet), Hscan, (keyIDsLoop_entries _ _ _ Hentries).
  reflexivity.
Qed.

Lemma keyIDsOf_survives (entries : list (string * string)) (name id : string) :
  (keyIDsOf entries ∅) !! name = Some id <-> survives entries id name.
Proof.
  rewrite keyIDsOf_lookup. split; [|auto].
  intros [H|[_ H]]; [exact H|]. rewrite lookup_empty in H. discriminate.
Qed.

(** The indices [range] gives are those of the surviving entries. *)
Lemma rangeOrder_survives (entries : list (string * string)) (id : string) :
  id ∈ (rangeOrder (keyIDsOf entries ∅)).*2 <-> exists name, survives entries id name.
Proof.
  rewrite rangeOrder_perm, list_elem_of_fmap. split.
  - intros ([name id'] & -> & Hin). exists name.
    apply keyIDsOf_survives, elem_of_map_to_list, Hin.
  - intros [name H]. exists (name, id). split; [reflexivity|].
    apply elem_of_map_to_list, keyIDsOf_survives, H.
Qed.

(** C8. In a Format B listing that is present and well formed, an entry
    survives when no later entry has its name (the last index listed for a
    name wins); when no fetch of a surviving index fails, the key bodies of
    the surviving indices, and no others, are fetched after the listing,
    and the keys returned are these bodies, in the order in which [range]
    visits the map, which is any order. *)
Theorem fetchSshKeys_format_B (keydata : string) (keynames : list string)
    (entries : list (string * string)) (log : list string) :
  Get (url "public-keys") = (Some keydata, None) ->
  GoBufio.ScanLines keydata = (keynames, None) ->
  Forall2 (fun line e => entryOf "="%char line e.1 e.2) keynames entries ->
  (forall id name, survives entries id name -> (Get (url (keyPath id))).2 = None) ->
  exists (keyIDs : gmap string string) (ids : list string),
    (forall name id, keyIDs !! name = Some id <-> survives entries id name)
    /\ ids ≡ₚ (map_to_list keyIDs).*2
    /\ fetchSshKeys log =
         (Ok (Some ((fun id => bodyOf (keyPath id)) <$> ids)),
          (log ++ url "public-keys" :: ((fun id => url (keyPath id)) <$> ids))%list).
Proof.
  intros HGet Hscan Hentries Hok.
  exists (keyIDsOf entries ∅), (rangeOrder (keyIDsOf entries ∅)).*2.
  split; [apply keyIDsOf_survives|]. split; [rewrite rangeOrder_perm; reflexivity|].
  rewrite (fetchSshKeys_listing _ _ _ _ HGet Hscan Hentries).
  rewrite fetchKeyBodies_ok.
  - rewrite <- app_assoc. reflexivity.
  - intros id Hid. apply rangeOrder_survives in Hid as [name Hid]. exact (Hok id name Hid).
Qed.

(** C10. In a Format B listing that is present and well formed, where no
    fetch of a surviving index fails, a surviving index whose key body is
    absent gives the empty string at its place in the keys returned: there
    are as many keys as surviving entries, and no error. *)
Theorem fetchSshKeys_absent_key_body (keydata : string) (keynames : list string)
    (entries : list (string * string)) (log : list string) (id name : string) :
  Get (url "public-keys") = (Some keydata, None) ->
  GoBufio.ScanLines keydata = (keynames, None) ->
  Forall2 (fun line e => entryOf "="%char line e.1 e.2) keynames entries ->
  (forall id name, survives entries id name -> (Get (url (keyPath id))).2 = None) ->
  survives entries id name ->
  absent Get (url (keyPath id)) ->
  exists (keyIDs : gmap string string) (ids keys log' : list string),
    (forall name id, keyIDs !! name = Some id <-> survives entries id name)
    /\ ids ≡ₚ (map_to_list keyIDs).*2
    /\ fetchSshKeys log = (Ok (Some keys), log')
    /\ length keys = length ids
    /\ exists i, ids !! i = Some id /\ keys !! i = Some "".
Proof.
  intros HGet Hscan Hentries Hok Hsurvives Habsent.
  exists (keyIDsOf entries ∅), (rangeOrder (keyIDsOf entries ∅)).*2. eexists _, _.
  split; [apply keyIDsOf_survives|]. split; [rewrite rangeOrder_perm; reflexivity|].
  split.
  { rewrite (fetchSshKeys_listing _ _ _ _ HGet Hscan Hentries).
    apply fetchKeyBodies_ok.
    intros id' Hid. apply rangeOrder_survives in Hid as [name' Hid]. exact (Hok id' name' Hid). }
  split; [apply length_fmap|].
  assert (Hid : id ∈ (rangeOrder (keyIDsOf entries ∅)).*2)
    by (apply rangeOrder_survives; eauto).
  apply list_elem_of_lookup in Hid as [i Hi]. exists i. split; [exact Hi|].
  cbn [app]. rewrite list_lookup_fmap, Hi. simpl. rewrite Habsent. reflexivity.
Qed.

End Provider.

(** *** The sample listing *)

Lemma sampleEntries_listed :
  Forall2 (fun line e => entryOf "="%char line e.1 e.2) sampleKeynames sampleEntries.
Proof. repeat constructor. Qed.

Lemma sampleEntries_backup : survives sampleEntries "1" "backup".
Proof.
  exists [("0", "deploy")], [("2", "deploy")]. split; [reflexivity|].
  intros H. apply list_elem_of_singleton in H. discriminate.
Qed.

Lemma fetchSshKeys_format_B_witness :
  exists (keyIDs : gmap string string) (ids : list string),
    (forall name id, keyIDs !! name = Some id <-> survives sampleEntries id name)
    /\ ids ≡ₚ (map_to_list keyIDs).*2
    /\ ec2.fetchSshKeys sampleEC2 map_to_list [] =
         (Ok (Some ((fun id => stringOf (sampleEC2 (ec2.endpoint ++ keyPath id)).1) <$> ids)),
          ([] ++ String.append ec2.endpoint "public-keys"
              :: ((fun id => String.append ec2.endpoint (keyPath id)) <$> ids))%list).
Proof.
  apply (fetchSshKeys_format_B sampleEC2 map_to_list (fun m => Permutation_refl _)
           sampleFormatB sampleKeynames sampleEntries []).
  - reflexivity.
  - reflexivity.
  - exact sampleEntries_listed.
  - intros id name _. apply service_no_error.
Defined.

Lemma fetchSshKeys_absent_key_body_witness :
  exists (keyIDs : gmap string string) (ids keys log' : list string),
    (forall name id, keyIDs !! name = Some id <-> survives sampleEntries id name)
    /\ ids ≡ₚ (map_to_list keyIDs).*2
    /\ ec2.fetchSshKeys sampleEC2 map_to_list [] = (Ok (Some keys), log')
    /\ length keys = length ids
    /\ exists i, ids !! i = Some "1" /\ keys !! i = Some "".
Proof.
  apply (fetchSshKeys_absent_key_body sampleEC2 map_to_list (fun m => Permutation_refl _)
           sampleFormatB sampleKeynames sampleEntries [] "1" "backup").
  - reflexivity.
  - reflexivity.
  - exact sampleEntries_listed.
  - intros id name _. apply service_no_error.
  - exact sampleEntries_backup.
  - reflexivity.
Defined.

(** The keys come in the order of [range]: two orders, two sequences. The
    key of index 1, which has no body, is the empty string in both. *)
Lemma fetchSshKeys_order_follows_range :
  (ec2.fetchSshKeys sampleEC2 map_to_list []).1
    = Ok (Some [""; "ssh-rsa AAAA2 deploy"])
  /\ (ec2.fetchSshKeys sampleEC2 (fun m => reverse (map_to_list m)) []).1
     = Ok (Some ["ssh-rsa AAAA2 deploy"; ""]).
Proof. split; vm_compute; reflexivity. Qed.

End ec2_props.

(** ** Malformed and absent key listings *)

Module keys_props.

Import fetch keyspec strings_props.

Section Providers.

Context (Get : string -> option string * option string).
Context (rangeOrder : gmap string string -> list (string * string)).

Hypothesis rangeOrder_perm : forall m, rangeOrder m ≡ₚ map_to_list m.

Local Abbreviation gceURL key := (String.append gce.endpoint key).
Local Abbreviation ec2Listing := (String.append ec2.endpoint "public-keys").

(** C6. GCE: a listing that is absent or empty yields no keys and no
    error; a non-empty line without a colon makes the fetch return the
    malformed-key error of the first such line. EC2: a listing that is
    absent or empty yields no keys and no error, and no key body is
    fetched; a line without an equals sign makes the fetch return an error,
    the malformed-key error of the first such line unless the scanner
    itself failed on a line too long for it. *)
Theorem malformed_line_is_fatal :
  (forall prefix log,
      stringOf (Get (gceURL prefix)).1 = "" -> (Get (gceURL prefix)).2 = None ->
      gce.fetchSshKeys Get prefix log = (Ok None, (log ++ [gceURL prefix])%list))
  /\ (forall prefix keydata line log,
         Get (gceURL prefix) = (Some keydata, None) ->
         line ∈ nonEmptyLines keydata ->
         GoStrings.contains line ":"%char = false ->
         exists bad,
           gce.fetchSshKeys Get prefix log
             = (Err (gce.ErrMalformedKey bad), (log ++ [gceURL prefix])%list)
           /\ bad ∈ nonEmptyLines keydata
           /\ GoStrings.contains bad ":"%char = false)
  /\ (forall log,
         absent Get ec2Listing ->
         ec2.fetchSshKeys Get rangeOrder log = (Ok None, (log ++ [ec2Listing])%list))
  /\ (forall log,
         Get ec2Listing = (Some "", None) ->
         ec2.fetchSshKeys Get rangeOrder log = (Ok (Some []), (log ++ [ec2Listing])%list))
  /\ (forall keydata line log,
         Get ec2Listing = (Some keydata, None) ->
         line ∈ scannedLines keydata ->
         GoStrings.contains line "="%char = false ->
         exists e,
           ec2.fetchSshKeys Get rangeOrder log = (Err e, (log ++ [ec2Listing])%list)
           /\ (e = ec2.ErrParsingKeys GoBufio.ErrTooLong
               \/ exists bad,
                    e = ec2.ErrMalformedKey bad
                    /\ bad ∈ scannedLines keydata
                    /\ GoStrings.contains bad "="%char = false)).
Proof.
  split; [|split; [|split; [|split]]].
  - intros prefix log Hbody Herr.
    rewrite gce_props.gce_fetchSshKeys_eq, Herr, Hbody. reflexivity.
  - intros prefix keydata line log HGet Hline Hcolon.
    apply list_elem_of_filter in Hline as [Hne Hline].
    rewrite gce_props.gce_fetchSshKeys_eq, HGet. cbn [fst snd stringOf default from_option id].
    assert (Hlen : (0 <? String.length keydata)%nat = true).
    { destruct keydata; [|reflexivity]. simpl in Hline.
      apply list_elem_of_singleton in Hline. contradiction. }
    rewrite Hlen.
    destruct (gce_props.keysLoop_malformed _ [] _ Hline Hne Hcolon)
      as (bad & -> & Hbad & Hbne & Hbcolon).
    exists bad. split; [reflexivity|]. split; [|exact Hbcolon].
    apply list_elem_of_filter. split; assumption.
  - intros log Habsent. apply ec2_props.fetchSshKeys_absent. exact Habsent.
  - intros log HGet. rewrite (ec2_props.fetchSshKeys_present _ _ _ _ HGet).
    simpl. 
    assert (Hempty : rangeOrder ∅ = []).
    { apply Permutation_nil_r. rewrite rangeOrder_perm, map_to_list_empty. reflexivity. }
    rewrite Hempty. reflexivity.
  - intros keydata line log HGet Hline Hequals.
    rewrite (ec2_props.fetchSshKeys_present _ _ _ _ HGet).
    destruct (GoBufio.ScanLines keydata) as [keynames [[]|]] eqn:Hscan.
    + eexists. split; [reflexivity|]. left. reflexivity.
    + apply ScanLines_all in Hscan as ->.
      destruct (ec2_props.keyIDsLoop_malformed _ ∅ _ Hline Hequals)
        as (bad & -> & Hbad & Hbequals).
      eexists. split; [reflexivity|]. right. eauto.
Qed.

End Providers.

Lemma malformed_line_is_fatal_witness :
  gce.fetchSshKeys sampleGCE "instance/attributes/sshKeys" []
    = (Ok None, [gce.endpoint ++ "instance/attributes/sshKeys"])
  /\ (exists bad,
        gce.fetchSshKeys sampleGCE "project/attributes/sshKeys" []
          = (Err (gce.ErrMalformedKey bad), [gce.endpoint ++ "project/attributes/sshKeys"])
        /\ bad ∈ nonEmptyLines ("alice:ssh-rsa AAAA" ++ lf ++ "bob")
        /\ GoStrings.contains bad ":"%char = false)
  /\ ec2.fetchSshKeys (service []) map_to_list [] = (Ok None, [ec2.endpoint ++ "public-keys"])
  /\ ec2.fetchSshKeys sampleEC2Empty map_to_list []
     = (Ok (Some []), [ec2.endpoint ++ "public-keys"])
  /\ (exists e,
        ec2.fetchSshKeys sampleEC2Malformed map_to_list []
          = (Err e, [ec2.endpoint ++ "public-keys"])
        /\ (e = ec2.ErrParsingKeys GoBufio.ErrTooLong
            \/ exists bad,
                 e = ec2.ErrMalformedKey bad
                 /\ bad ∈ scannedLines ("0=deploy" ++ lf ++ "backup" ++ lf)
                 /\ GoStrings.contains bad "="%char = false)).
Proof.
  split; [|split; [|split; [|split]]].
  - apply (proj1 (malformed_line_is_fatal sampleGCE map_to_list
                    (fun m => Permutation_refl _))); reflexivity.
  - apply (proj1 (proj2 (malformed_line_is_fatal sampleGCE map_to_list
                           (fun m => Permutation_refl _)))
             "project/attributes/sshKeys" _ "bob" []).
    + reflexivity.
    + apply list_elem_of_filter. split; [discriminate|].
      apply elem_of_cons. right. apply elem_of_cons. left. reflexivity.
    + reflexivity.
  - apply (proj1 (proj2 (proj2 (malformed_line_is_fatal (service []) map_to_list
                                  (fun m => Permutation_refl _))))).
    reflexivity.
  - apply (proj1 (proj2 (proj2 (proj2 (malformed_line_is_fatal sampleEC2Empty map_to_list
                                         (fun m => Permutation_refl _)))))).
    reflexivity.
  - apply (proj2 (proj2 (proj2 (proj2 (malformed_line_is_fatal sampleEC2Malformed map_to_list
                                         (fun m => Permutation_refl _)))))
             _ "backup" []).
    + reflexivity.
    + apply elem_of_cons. right. apply elem_of_cons. left. reflexivity.
    + reflexivity.
Defined.

End keys_props.

(** ** Absent scalar keys *)

Module attributes_props.

Import fetch keyspec.

Section OpenStack.

Context (Get : string -> option string * option string).
Context (pathJoin : list string -> string).

Local Abbreviation url key := (String.append openstack.metadataEndpoint key).
Local Abbreviation fetchMetadata := (openstack.fetchMetadata Get).
Local Abbreviation fetchAndSet := (openstack.fetchAndSet Get).
Local Abbreviation fetchKeys := (openstack.fetchKeys Get pathJoin).
Local Abbreviation FetchMetadata := (openstack.FetchMetadata Get pathJoin).
Local Abbreviation stored := (keyspec.stored Get).

Lemma openstack_fetchMetadata_eq (key : string) (log : list string) :
  fetchMetadata key log =
    ((stringOf (Get (url key)).1, bool_decide (is_Some (Get (url key)).1), (Get (url key)).2),
     (log ++ [url key])%list).
Proof.
  unfold openstack.fetchMetadata, clientGet, mbind, M_bind, mret, M_ret.
  destruct (Get (url key)) as [body err]. reflexivity.
Qed.

Lemma fetchAndSet_eq (key attrKey : string) (attributes : gmap string string)
    (log : list string) :
  fetchAndSet key attrKey attributes log =
    (match (Get (url key)).2 with
     | Some e => Err (openstack.ErrClient e)
     | None =>
         match (Get (url key)).1 with
         | None => Ok attributes
         | Some body =>
             if String.eqb body "" then Ok attributes
             else Ok (<[attrKey := body]> attributes)
         end
     end, (log ++ [url key])%list).
Proof.
  unfold openstack.fetchAndSet. unfold mbind at 1. unfold M_bind.
  rewrite openstack_fetchMetadata_eq.
  destruct (Get (url key)) as [[body|] [e|]]; cbn [fst snd]; try reflexivity.
  rewrite bool_decide_eq_true_2 by eauto. cbn [negb orb stringOf default from_option id].
  destruct (String.eqb body ""); reflexivity.
Qed.

Lemma FetchMetadata_attributes (log log' : list string) (md : providers.Metadata) :
  FetchMetadata log = (Ok md, log') ->
  providers.Attributes md =
    stored "hostname" "OPENSTACK_HOSTNAME"
      (stored "public-ipv4" "OPENSTACK_IPV4_PUBLIC"
         (stored "local-ipv4" "OPENSTACK_IPV4_LOCAL"
            (stored "instance-id" "OPENSTACK_INSTANCE_ID" ∅))).
Proof.
  unfold openstack.FetchMetadata, stored.
  repeat (unfold mbind at 1; unfold M_bind; rewrite fetchAndSet_eq;
          destruct (Get (url _)).2; [discriminate|];
          destruct (Get (url _)).1 as [?body|]; [destruct (String.eqb _ "")|]).
  all: unfold mbind, M_bind; destruct (fetchKeys _) as [[keys|e] l];
    [intros [= <- _]; reflexivity | discriminate].
Qed.

Lemma stored_lookup_other (key attrKey other : string) (attributes : gmap string string) :
  attrKey <> other -> stored key attrKey attributes !! other = attributes !! other.
Proof.
  intros Hne. unfold stored. destruct (Get (url key)).1 as [body|]; [|reflexivity].
  destruct (String.eqb body ""); [reflexivity|]. apply lookup_insert_ne. exact Hne.
Qed.

Lemma stored_lookup_absent (key attrKey : string) (attributes : gmap string string) :
  absent Get (url key) -> stored key attrKey attributes = attributes.
Proof. unfold stored, absent. intros ->. reflexivity. Qed.

Lemma openstack_absent_omitted (log log' : list string) (md : providers.Metadata)
    (key attrKey : string) :
  FetchMetadata log = (Ok md, log') ->
  (key, attrKey) ∈ openstackScalars ->
  absent Get (url key) ->
  providers.Attributes md !! attrKey = None.
Proof.
  intros Hfetch Hin Habsent. rewrite (FetchMetadata_attributes _ _ _ Hfetch).
  unfold openstackScalars in Hin.
  repeat (apply elem_of_cons in Hin as [[= -> ->]|Hin]);
    [| | | | inversion Hin];
    repeat first [ rewrite (stored_lookup_absent _ _ _ Habsent)
                 | rewrite stored_lookup_other by discriminate ];
    apply lookup_empty.
Qed.

Lemma openstack_no_error (log : list string) :
  (forall key attrKey, (key, attrKey) ∈ openstackScalars -> (Get (url key)).2 = None) ->
  (forall l, isErr (fetchKeys l).1 = false) ->
  isErr (FetchMetadata log).1 = false.
Proof.
  intros Hok Hkeys.
  assert (H1 := Hok "instance-id" "OPENSTACK_INSTANCE_ID").
  assert (H2 := Hok "local-ipv4" "OPENSTACK_IPV4_LOCAL").
  assert (H3 := Hok "public-ipv4" "OPENSTACK_IPV4_PUBLIC").
  assert (H4 := Hok "hostname" "OPENSTACK_HOSTNAME").
  unfold openstackScalars in *.
  rewrite !elem_of_cons in H1, H2, H3, H4.
  unfold openstack.FetchMetadata.
  repeat (unfold mbind at 1; unfold M_bind; rewrite fetchAndSet_eq;
          first [rewrite H1 by tauto | rewrite H2 by tauto | rewrite H3 by tauto
                | rewrite H4 by tauto];
          destruct (Get (url _)).1 as [?body|]; [destruct (String.eqb _ "")|]).
  all: unfold mbind, M_bind; specialize (Hkeys (log ++ [url "instance-id"] ++ [url "local-ipv4"]
         ++ [url "public-ipv4"] ++ [url "hostname"])%list);
    rewrite !app_assoc in Hkeys;
    destruct (fetchKeys _) as [[keys|e] l]; [reflexivity | discriminate Hkeys].
Qed.

End OpenStack.

Section EC2.

Context (Get : string -> option string * option string).
Context (ParseIP : string -> option GoNet.IP).
Context (String_ : option GoNet.IP -> string).
Context (Unmarshal : string -> result string ec2.instanceIdDoc).
Context (rangeOrder : gmap string string -> list (string * string)).

Local Abbreviation url key := (String.append ec2.endpoint key).
Local Abbreviation bodyOf key := (stringOf (Get (url key)).1).
Local Abbreviation fetchIP := (ec2.fetchIP Get ParseIP).
Local Abbreviation fetchSshKeys := (ec2.fetchSshKeys Get rangeOrder).
Local Abbreviation FetchMetadata :=
  (ec2.FetchMetadata Get ParseIP String_ Unmarshal rangeOrder).
Local Abbreviation addressOf := (keyspec.addressOf Get ParseIP).
Local Abbreviation attributesOf := (keyspec.attributesOf Get ParseIP String_).

Lemma fetchIP_eq (key : string) (log : list string) :
  fetchIP key log =
    (match (Get (url key)).2 with
     | Some e => Err (ec2.ErrClient e)
     | None =>
         match (Get (url key)).1 with
         | None => Ok None
         | Some body =>
             match ParseIP body with
             | Some ip => Ok (Some ip)
             | None => Err (ec2.ErrParseIP body)
             end
         end
     end, (log ++ [url key])%list).
Proof.
  unfold ec2.fetchIP. unfold mbind at 1. unfold M_bind.
  rewrite ec2_props.fetchString_eq.
  destruct (Get (url key)) as [[body|] [e|]]; cbn [fst snd]; try reflexivity.
  rewrite bool_decide_eq_true_2 by eauto. cbn [negb stringOf default from_option id].
  destruct (ParseIP body); reflexivity.
Qed.

Lemma FetchMetadata_attributes_ec2 (log log' : list string) (md : providers.Metadata) :
  FetchMetadata log = (Ok md, log') ->
  exists doc, providers.Attributes md = attributesOf doc.
Proof.
  unfold ec2.FetchMetadata, attributesOf, addressOf.
  unfold mbind at 1; unfold M_bind; rewrite ec2_props.fetchString_eq. cbn [fst snd].
  destruct (Get (url "meta-data/instance-id")).2; [discriminate|].
  unfold mbind at 1; unfold M_bind; rewrite fetchIP_eq.
  destruct (Get (url "meta-data/public-ipv4")).2; [discriminate|].
  destruct (Get (url "meta-data/public-ipv4")).1 as [pub|]; cbn [mbind option_bind];
    [destruct (ParseIP pub); [|discriminate]|].
  all: unfold mbind at 1; unfold M_bind; rewrite fetchIP_eq;
    destruct (Get (url "meta-data/local-ipv4")).2; [discriminate|];
    destruct (Get (url "meta-data/local-ipv4")).1 as [loc|]; cbn [mbind option_bind];
    [destruct (ParseIP loc); [|discriminate]|].
  all: unfold mbind at 1; unfold M_bind; rewrite ec2_props.fetchString_eq; cbn [fst snd];
    destruct (Get (url "meta-data/hostname")).2; [discriminate|];
    unfold mbind at 1; unfold M_bind; rewrite ec2_props.fetchString_eq; cbn [fst snd];
    destruct (Get (url "meta-data/placement/availability-zone")).2; [discriminate|];
    unfold mbind at 1; unfold M_bind; rewrite ec2_props.fetchString_eq; cbn [fst snd];
    destruct (Get (url "dynamic/instance-identity/document")).2; [discriminate|];
    destruct (Unmarshal _) as [doc|e]; [|discriminate];
    unfold mbind, M_bind; destruct (fetchSshKeys _) as [[keys|e] l]; [|discriminate];
    intros [= <- _]; exists doc; reflexivity.
Qed.

Lemma ec2_absent_kept (log log' : list string) (md : providers.Metadata)
    (key attrKey : string) :
  FetchMetadata log = (Ok md, log') ->
  absent Get (url key) ->
  ((key, attrKey) ∈ ec2StringScalars -> providers.Attributes md !! attrKey = Some "")
  /\ ((key, attrKey) ∈ ec2IPScalars ->
      providers.Attributes md !! attrKey = Some (String_ None)).
Proof.
  intros Hfetch Habsent.
  destruct (FetchMetadata_attributes_ec2 _ _ _ Hfetch) as [doc ->].
  unfold attributesOf, addressOf, ec2StringScalars, ec2IPScalars.
  split; intros Hin;
    repeat (apply elem_of_cons in Hin as [[= -> ->]|Hin]); try (inversion Hin; fail);
    rewrite Habsent; simplify_map_eq; reflexivity.
Qed.

Lemma ec2_no_error (log : list string) :
  (forall u, u ∈ scalarRequests -> (Get u).2 = None) ->
  (forall key attrKey body,
      (key, attrKey) ∈ ec2IPScalars -> (Get (url key)).1 = Some body ->
      is_Some (ParseIP body)) ->
  isErr (Unmarshal (bodyOf "dynamic/instance-identity/document")) = false ->
  (forall l, isErr (fetchSshKeys l).1 = false) ->
  isErr (FetchMetadata log).1 = false.
Proof.
  intros Hok Hparse Hdoc Hkeys.
  assert (Hreq : forall u, In u scalarRequests -> (Get u).2 = None)
    by (intros u Hu; apply Hok, list_elem_of_In, Hu).
  assert (Hip : forall key attrKey,
             In (key, attrKey) ec2IPScalars ->
             exists r, forall l, fetchIP key l = (Ok r, (l ++ [url key])%list)).
  { intros key attrKey Hin.
    assert (Herr : (Get (url key)).2 = None).
    { apply Hreq. simpl in Hin. destruct Hin as [[= <- _]|[[= <- _]|[]]]; simpl; tauto. }
    destruct (Get (url key)).1 as [body|] eqn:Ebody.
    - destruct (Hparse key attrKey body) as [ip Hparsed];
        [apply list_elem_of_In, Hin | exact Ebody |].
      exists (Some ip). intros l.
      rewrite fetchIP_eq, Herr, Ebody, Hparsed. reflexivity.
    - exists None. intros l.
      rewrite fetchIP_eq, Herr, Ebody. reflexivity. }
  destruct (Hip "meta-data/public-ipv4" "EC2_IPV4_PUBLIC") as (pub & Hpub);
    [simpl; tauto|].
  destruct (Hip "meta-data/local-ipv4" "EC2_IPV4_LOCAL") as (loc & Hloc);
    [simpl; tauto|].
  unfold ec2.FetchMetadata, mbind, M_bind.
  repeat (first [rewrite ec2_props.fetchString_eq | rewrite Hpub | rewrite Hloc];
          cbn [fst snd]; rewrite ?Hreq by (simpl; tauto)).
  destruct (Unmarshal _) as [doc|e]; [|discriminate Hdoc].
  match goal with |- context [ec2.fetchSshKeys Get rangeOrder ?l] => specialize (Hkeys l) end.
  destruct (fetchSshKeys _) as [[keys|e] l]; [reflexivity | discriminate Hkeys].
Qed.

End EC2.

Section Providers.

Context (Get : string -> option string * option string).
Context (pathJoin : list string -> string).
Context (ParseIP : string -> option GoNet.IP).
Context (String_ : option GoNet.IP -> string).
Context (Unmarshal : string -> result string ec2.instanceIdDoc).
Context (rangeOrder : gmap string string -> list (string * string)).

Local Abbreviation openstackURL key := (String.append openstack.metadataEndpoint key).
Local Abbreviation ec2URL key := (String.append ec2.endpoint key).
Local Abbreviation openstackFetch := (openstack.FetchMetadata Get pathJoin).
Local Abbreviation ec2Fetch := (ec2.FetchMetadata Get ParseIP String_ Unmarshal rangeOrder).

(** C3 (amended). OpenStack: a scalar key whose fetch returns absent
    leaves the attributes as they are, so the key is not in the attributes
    of the record returned, and a fetch in which no request for a scalar key
    fails and the keys are read without error returns no error, whichever
    scalar keys are absent. EC2: a scalar key whose fetch returns absent is
    in the attributes of the record returned all the same, with the empty
    string for the instance id, the hostname and the availability zone, and
    with [providers.String] of the nil address for the two IP keys; a fetch
    in which no request fails, the addresses that are present parse, the
    identity document decodes and the keys are read without error returns
    no error, whichever scalar keys are absent. *)
Theorem absent_scalar_key :
  (forall key attrKey attributes log,
      absent Get (openstackURL key) ->
      openstack.fetchAndSet Get key attrKey attributes log
        = (Ok attributes, (log ++ [openstackURL key])%list))
  /\ (forall log log' md key attrKey,
         openstackFetch log = (Ok md, log') ->
         (key, attrKey) ∈ openstackScalars ->
         absent Get (openstackURL key) ->
         providers.Attributes md !! attrKey = None)
  /\ (forall log,
         (forall key attrKey,
             (key, attrKey) ∈ openstackScalars -> (Get (openstackURL key)).2 = None) ->
         (forall l, isErr (openstack.fetchKeys Get pathJoin l).1 = false) ->
         isErr (openstackFetch log).1 = false)
  /\ (forall log log' md key attrKey,
         ec2Fetch log = (Ok md, log') ->
         absent Get (ec2URL key) ->
         ((key, attrKey) ∈ ec2StringScalars ->
          providers.Attributes md !! attrKey = Some "")
         /\ ((key, attrKey) ∈ ec2IPScalars ->
             providers.Attributes md !! attrKey = Some (String_ None)))
  /\ (forall log,
         (forall u, u ∈ scalarRequests -> (Get u).2 = None) ->
         (forall key attrKey body,
             (key, attrKey) ∈ ec2IPScalars -> (Get (ec2URL key)).1 = Some body ->
             is_Some (ParseIP body)) ->
         isErr (Unmarshal (stringOf (Get (ec2URL "dynamic/instance-identity/document")).1))
           = false ->
         (forall l, isErr (ec2.fetchSshKeys Get rangeOrder l).1 = false) ->
         isErr (ec2Fetch log).1 = false).
Proof.
  split; [|split; [|split; [|split]]].
  - intros key attrKey attributes log Habsent.
    unfold absent in Habsent. rewrite fetchAndSet_eq, !Habsent. reflexivity.
  - intros log log' md key attrKey. apply openstack_absent_omitted.
  - intros log. apply openstack_no_error.
  - intros log log' md key attrKey. apply ec2_absent_kept.
  - intros log. apply ec2_no_error.
Qed.

End Providers.

Lemma absent_scalar_key_witness :
  (exists md log',
      openstack.FetchMetadata sampleOpenStack samplePathJoin [] = (Ok md, log')
      /\ providers.Attributes md !! "OPENSTACK_IPV4_LOCAL" = None)
  /\ (exists md log',
         ec2.FetchMetadata sampleEC2 GoNet.ParseIP sampleString sampleUnmarshal map_to_list []
           = (Ok md, log')
         /\ providers.Attributes md !! "EC2_HOSTNAME" = Some ""
         /\ providers.Attributes md !! "EC2_IPV4_PUBLIC" = Some (sampleString None)).
Proof.
  split.
  - pose proof (proj1 (proj2 (absent_scalar_key sampleOpenStack samplePathJoin GoNet.ParseIP
                                sampleString sampleUnmarshal map_to_list))) as Homitted.
    eexists _, _. split; [reflexivity|].
    eapply (Homitted [] _ _ "local-ipv4").
    + reflexivity.
    + apply elem_of_cons. right. apply elem_of_cons. left. reflexivity.
    + exact eq_refl.
  - pose proof (proj1 (proj2 (proj2 (proj2 (absent_scalar_key sampleEC2 samplePathJoin
                  GoNet.ParseIP sampleString sampleUnmarshal map_to_list))))) as Hkept.
    eexists _, _. split; [reflexivity|]. split.
    + refine (proj1 (Hkept [] _ _ "meta-data/hostname" "EC2_HOSTNAME" eq_refl eq_refl) _).
      apply elem_of_cons. right. apply elem_of_cons. left. reflexivity.
    + refine (proj2 (Hkept [] _ _ "meta-data/public-ipv4" "EC2_IPV4_PUBLIC" eq_refl eq_refl) _).
      apply elem_of_cons. left. reflexivity.
Defined.

(** C3, as stated, fails: on a service where the instance id and both
    addresses are absent, the fetch of the EC2 provider succeeds and the
    three keys are in the attributes, with the empty string. *)
Lemma ec2_absent_key_is_kept :
  absent sampleEC2 (ec2.endpoint ++ "meta-data/instance-id")
  /\ absent sampleEC2 (ec2.endpoint ++ "meta-data/local-ipv4")
  /\ exists md log',
       ec2.FetchMetadata sampleEC2 GoNet.ParseIP sampleString sampleUnmarshal map_to_list []
         = (Ok md, log')
       /\ providers.Attributes md !! "EC2_INSTANCE_ID" = Some ""
       /\ providers.Attributes md !! "EC2_IPV4_LOCAL" = Some "".
Proof.
  split; [exact eq_refl|]. split; [exact eq_refl|].
  eexists _, _. split; [reflexivity|]. split; reflexivity.
Qed.

End attributes_props.

(** ** The retry client *)

Module retry_props.

Import retry retryspec.

(** A 404-class response is returned as absent: no body and no error. *)
Lemma Get_absent_on_404 (c : Client) (t : Transport) (url : string) :
  MaxAttempts c <> 0 ->
  t url (Header c) 0 = Status404 ->
  Get c t url = ((None, None), [Attempt url]).
Proof.
  unfold Get. destruct (MaxAttempts c) as [|n]; [contradiction|].
  intros _ H404. simpl. rewrite H404. reflexivity.
Qed.

(** C9. With a backoff of one second to five seconds and ten attempts, on
    a transport whose every GET of the URL fails to connect, [Get] makes
    exactly ten attempts, sleeps 1, 2, 4, 5, 5, 5, 5, 5, 5 seconds between
    them (none after the last), and returns the retry-exhausted error that
    carries the cause of the last failure. *)
Theorem Get_exhausts_after_ten_attempts
    (t : Transport) (url : string) (header : gmap string (list string))
    (cause : nat -> string) :
  (forall k, t url header k = NetworkFailure (cause k)) ->
  exists evs,
    Get (sampleClient header) t url = ((None, Some (RetryExhausted (Some (cause 9)))), evs)
    /\ attemptCount evs = 10
    /\ delays evs = seconds <$> [1; 2; 4; 5; 5; 5; 5; 5; 5]%Z
    /\ List.last evs (Sleep 0%Z) = Attempt url.
Proof.
  intros Hfail. unfold Get, sampleClient; cbn [MaxAttempts InitialBackoff].
  cbn [attempts Header MaxBackoff]. rewrite !Hfail.
  eexists. split; [reflexivity|]. split; [reflexivity|]. split; reflexivity.
Qed.

Lemma Get_exhausts_after_ten_attempts_witness :
  exists evs,
    Get (sampleClient ∅) refusing "http://169.254.169.254/metadata/v1.json"
      = ((None, Some (RetryExhausted (Some "connection refused"))), evs)
    /\ attemptCount evs = 10
    /\ delays evs = seconds <$> [1; 2; 4; 5; 5; 5; 5; 5; 5]%Z
    /\ List.last evs (Sleep 0%Z) = Attempt "http://169.254.169.254/metadata/v1.json".
Proof.
  apply (Get_exhausts_after_ten_attempts refusing _ ∅ (fun _ => "connection refused")).
  intros k. reflexivity.
Defined.

End retry_props.

(** ** The network synthesizer *)

Module digitalocean_props.

Import digitalocean netspec.

Section Synthesizer.

Context (ParseIP : string -> option GoNet.IP).
Context (ParseMAC : string -> option GoNet.HardwareAddr).
Context (rangeOrder :
  gmap string providers.NetworkInterface -> list (string * providers.NetworkInterface)).

Hypothesis rangeOrder_perm : forall m, rangeOrder m ≡ₚ map_to_list m.

Local Abbreviation parseIPv4Address := (digitalocean.parseIPv4Address ParseIP).
Local Abbreviation parseIPv6Address := (digitalocean.parseIPv6Address ParseIP).
Local Abbreviation parseInterface := (digitalocean.parseInterface ParseIP).
Local Abbreviation parseNameservers := (digitalocean.parseNameservers ParseIP).
Local Abbreviation parseNetworkLoop := (digitalocean.parseNetworkLoop ParseIP ParseMAC).
Local Abbreviation ifaceConfigsOf := (digitalocean.ifaceConfigsOf ParseIP ParseMAC).
Local Abbreviation parseNetwork := (digitalocean.parseNetwork ParseIP ParseMAC rangeOrder).
Local Abbreviation merged := (netspec.merged ParseIP ParseMAC).

(** [parseInterface] is its three blocks one after the other. *)
Lemma parseInterface_blocks (iface : Interface) (public : bool) :
  parseInterface iface public =
    ('(a4, r4) ← parseInterface (onlyIPv4 iface) public;
     '(a6, r6) ← parseInterface (onlyIPv6 iface) public;
     '(aA, rA) ← parseInterface (onlyAnchor iface) public;
     Ok (a4 ++ a6 ++ aA, r4 ++ r6 ++ rA)%list).
Proof.
  unfold digitalocean.parseInterface, parseRoute; simpl.
  destruct (IPv4 iface) as [a|]; simpl.
  - destruct (parseIPv4Address a); simpl; [|reflexivity].
    destruct (ParseIP (Gateway a)); simpl; [|reflexivity].
    destruct (IPv6 iface) as [a6|]; simpl.
    + destruct (parseIPv6Address a6); simpl; [|reflexivity].
      destruct (ParseIP (Gateway a6)); simpl; [|reflexivity].
      destruct (AnchorIPv4 iface) as [aa|]; simpl.
      * destruct (parseIPv4Address aa); simpl; [|reflexivity].
        destruct (ParseIP (Gateway aa)); simpl; [|reflexivity].
        destruct public; reflexivity.
      * destruct public; simpl; rewrite ?app_nil_r; reflexivity.
    + destruct (AnchorIPv4 iface) as [aa|]; simpl.
      * destruct (parseIPv4Address aa); simpl; [|reflexivity].
        destruct (ParseIP (Gateway aa)); simpl; [|reflexivity].
        destruct public; reflexivity.
      * destruct public; reflexivity.
  - destruct (IPv6 iface) as [a6|]; simpl.
    + destruct (parseIPv6Address a6); simpl; [|reflexivity].
      destruct (ParseIP (Gateway a6)); simpl; [|reflexivity].
      destruct (AnchorIPv4 iface) as [aa|]; simpl.
      * destruct (parseIPv4Address aa); simpl; [|reflexivity].
        destruct (ParseIP (Gateway aa)); simpl; [|reflexivity].
        destruct public; reflexivity.
      * destruct public; simpl; rewrite ?app_nil_r; reflexivity.
    + destruct (AnchorIPv4 iface) as [aa|]; simpl; [|reflexivity].
      destruct (parseIPv4Address aa); simpl; [|reflexivity].
      destruct (ParseIP (Gateway aa)); reflexivity.
Qed.

Lemma parseInterface_onlyIPv4 (iface : Interface) (public : bool) a addr G :
  IPv4 iface = Some a ->
  parseIPv4Address a = Ok addr ->
  ParseIP (Gateway a) = Some G ->
  parseInterface (onlyIPv4 iface) public =
    Ok ([addr], routeVia addr G :: (if public then [routeVia defaultIPv4 G] else [])).
Proof.
  intros H4 Ha HG. unfold digitalocean.parseInterface, parseRoute; simpl.
  rewrite H4, Ha; simpl. rewrite HG; simpl. destruct public; reflexivity.
Qed.

Lemma parseInterface_onlyIPv6 (iface : Interface) (public : bool) a addr G :
  IPv6 iface = Some a ->
  parseIPv6Address a = Ok addr ->
  ParseIP (Gateway a) = Some G ->
  parseInterface (onlyIPv6 iface) public =
    Ok ([addr], routeVia addr G :: (if public then [routeVia defaultIPv6 G] else [])).
Proof.
  intros H6 Ha HG. unfold digitalocean.parseInterface, parseRoute; simpl.
  rewrite H6, Ha; simpl. rewrite HG; simpl. destruct public; reflexivity.
Qed.

Lemma parseInterface_onlyAnchor (iface : Interface) (public : bool) a addr G :
  AnchorIPv4 iface = Some a ->
  parseIPv4Address a = Ok addr ->
  ParseIP (Gateway a) = Some G ->
  parseInterface (onlyAnchor iface) public = Ok ([addr], [routeVia addr G]).
Proof.
  intros HA Ha HG. unfold digitalocean.parseInterface, parseRoute; simpl.
  rewrite HA, Ha; simpl. rewrite HG; reflexivity.
Qed.

Lemma To4_length (ip : GoNet.IP) : length (GoNet.To4 ip) = 4 \/ GoNet.To4 ip = [].
Proof.
  unfold GoNet.To4. repeat case_decide; auto.
  left. rewrite length_drop. lia.
Qed.

(** An address parsed by [parseIPv4Address] has a mask of 4 bytes or none:
    it is never the destination of a synthesized default route. *)
Lemma parseIPv4Address_not_default (a : Address) (addr : GoNet.IPNet) (G : GoNet.IP) :
  parseIPv4Address a = Ok addr -> ~ isDefaultRoute (routeVia addr G).
Proof.
  unfold digitalocean.parseIPv4Address, isDefaultRoute. intros H.
  destruct (ParseIP (IPAddress a)) as [ip|]; [|discriminate].
  destruct (ParseIP (Netmask a)) as [mask|]; [|discriminate].
  injection H as <-. simpl.
  intros [Hd|Hd]; apply (f_equal GoNet.IPNet_Mask) in Hd; simpl in Hd;
    destruct (To4_length mask) as [Hl|Hl]; rewrite Hd in Hl; discriminate.
Qed.

(** The results of the remaining blocks, once a block is known. *)
Ltac blocks :=
  repeat match goal with
    | |- context [digitalocean.parseInterface ?P ?i ?b] =>
        destruct (digitalocean.parseInterface P i b) as [[? ?]|?]
    end;
  cbn [mbind result_bind]; try discriminate.

(** C2. A description that carries an IPv4 address whose gateway is [G]
    yields the route to that address via [G], followed, when the
    description is flagged public, by the default route 0.0.0.0/0 via [G],
    and by nothing when it is private; the route to the address is not
    itself a default route. The same holds of an IPv6 address, with the
    default route ::/0. The remaining routes are those of the other
    addresses of the description. *)
Theorem parseInterface_public_default_route (iface : Interface) (public : bool) :
  (forall a addr G addrs routes,
      IPv4 iface = Some a ->
      parseIPv4Address a = Ok addr ->
      ParseIP (Gateway a) = Some G ->
      parseInterface (withoutIPv4 iface) public = Ok (addrs, routes) ->
      parseInterface iface public =
        Ok (addr :: addrs,
            (routeVia addr G :: (if public then [routeVia defaultIPv4 G] else []) ++ routes)%list)
      /\ ~ isDefaultRoute (routeVia addr G))
  /\
  (forall a addr G addrs4 routes4 addrsA routesA,
      IPv6 iface = Some a ->
      parseIPv6Address a = Ok addr ->
      ParseIP (Gateway a) = Some G ->
      parseInterface (onlyIPv4 iface) public = Ok (addrs4, routes4) ->
      parseInterface (onlyAnchor iface) public = Ok (addrsA, routesA) ->
      parseInterface iface public =
        Ok ((addrs4 ++ addr :: addrsA)%list,
            (routes4 ++ routeVia addr G :: (if public then [routeVia defaultIPv6 G] else [])
               ++ routesA)%list)).
Proof.
  split.
  - intros a addr G addrs routes H4 Ha HG Hrest. split.
    2: { eapply parseIPv4Address_not_default; eauto. }
    rewrite parseInterface_blocks in Hrest |- *.
    rewrite (parseInterface_onlyIPv4 _ _ _ _ _ H4 Ha HG).
    change (parseInterface (onlyIPv4 (withoutIPv4 iface)) public) with
      (Ok (E:=error) (@nil GoNet.IPNet, @nil providers.NetworkRoute)) in Hrest.
    change (onlyIPv6 (withoutIPv4 iface)) with (onlyIPv6 iface) in Hrest.
    change (onlyAnchor (withoutIPv4 iface)) with (onlyAnchor iface) in Hrest.
    revert Hrest. blocks. intros [= <- <-]. reflexivity.
  - intros a addr G addrs4 routes4 addrsA routesA H6 Ha HG Hpre Hpost.
    rewrite parseInterface_blocks, Hpre, Hpost.
    rewrite (parseInterface_onlyIPv6 _ _ _ _ _ H6 Ha HG). reflexivity.
Qed.

(** C4. Whatever the public flag, the anchor address of a description
    adds one route, to its own network via its own gateway, after the
    routes of the description's other addresses; that route is not a
    default route and no default route is added for the anchor. *)
Theorem parseInterface_anchor_no_default_route
    (iface : Interface) (public : bool) a addr G addrs routes :
  AnchorIPv4 iface = Some a ->
  parseIPv4Address a = Ok addr ->
  ParseIP (Gateway a) = Some G ->
  parseInterface (withoutAnchor iface) public = Ok (addrs, routes) ->
  parseInterface iface public = Ok ((addrs ++ [addr])%list, (routes ++ [routeVia addr G])%list)
  /\ ~ isDefaultRoute (routeVia addr G).
Proof.
  intros HA Ha HG Hrest. split.
  2: { eapply parseIPv4Address_not_default; eauto. }
  rewrite parseInterface_blocks in Hrest |- *.
  rewrite (parseInterface_onlyAnchor _ _ _ _ _ HA Ha HG).
  change (parseInterface (onlyAnchor (withoutAnchor iface)) public) with
    (Ok (E:=error) (@nil GoNet.IPNet, @nil providers.NetworkRoute)) in Hrest.
  change (onlyIPv4 (withoutAnchor iface)) with (onlyIPv4 iface) in Hrest.
  change (onlyIPv6 (withoutAnchor iface)) with (onlyIPv6 iface) in Hrest.
  revert Hrest. blocks. intros [= <- <-]. rewrite !app_nil_r, !app_assoc. reflexivity.
Qed.

(** *** Unparseable input *)

Lemma parseNameservers_unparseable (servers : list string) (s : string) :
  s ∈ servers -> ParseIP s = None -> exists e, parseNameservers servers = Err e.
Proof.
  induction servers as [|server rest IH]; intros Hin Hs.
  - inversion Hin.
  - simpl. destruct (ParseIP server) as [addr|] eqn:Hserver; [|eauto].
    assert (Hrest : s ∈ rest).
    { apply elem_of_cons in Hin as [->|]; [congruence | assumption]. }
    destruct (IH Hrest Hs) as [e ->]. eauto.
Qed.

Lemma parseNetworkLoop_unparseable (servers : list GoNet.IP) (ifaces : list Interface)
    (ifaceConfigs : gmap string providers.NetworkInterface) (d : Interface) :
  d ∈ ifaces -> ParseMAC (MAC d) = None ->
  exists e, parseNetworkLoop servers ifaces ifaceConfigs = Err e.
Proof.
  revert ifaceConfigs. induction ifaces as [|iface rest IH]; intros cfgs Hin Hd.
  - inversion Hin.
  - simpl. destruct (ParseMAC (MAC iface)) as [mac|] eqn:Hmac; [|eauto].
    destruct (parseInterface iface _) as [[addrs routes]|e]; cbn [mbind result_bind]; [|eauto].
    apply IH; [|assumption].
    apply elem_of_cons in Hin as [->|]; [congruence | assumption].
Qed.

(** C5. If a nameserver does not parse as an IP address, or the hardware
    address of a description (private or public) does not parse as a MAC,
    [parseNetwork] returns an error: no interface set comes back. *)
Theorem parseNetwork_unparseable_is_fatal (metadata : Metadata) :
  (exists s, s ∈ Nameservers (DNS_ metadata) /\ ParseIP s = None)
  \/ (exists d, d ∈ descriptions metadata /\ ParseMAC (MAC d) = None) ->
  exists e, parseNetwork metadata = Err e.
Proof.
  unfold digitalocean.parseNetwork, digitalocean.ifaceConfigsOf.
  intros [(s & Hin & Hs)|(d & Hin & Hd)].
  - destruct (parseNameservers_unparseable _ _ Hin Hs) as [e ->]. eauto.
  - destruct (parseNameservers _) as [servers|e]; cbn [mbind result_bind]; [|eauto].
    destruct (parseNetworkLoop_unparseable servers _ ∅ _ Hin Hd) as [e ->]. eauto.
Qed.

(** *** Merging by the text of the hardware address *)

Lemma sharing_none (mac : string) (ifaces : list Interface) :
  mac ∉ MAC <$> ifaces -> sharing mac ifaces = [].
Proof.
  unfold sharing. induction ifaces as [|d rest IH]; [reflexivity|].
  rewrite fmap_cons, not_elem_of_cons. intros [Hne Hrest].
  rewrite filter_cons_False by congruence. auto.
Qed.

Lemma parseNetworkLoop_lookup (servers : list GoNet.IP) (ifaces : list Interface)
    (before after : gmap string providers.NetworkInterface) (mac : string) :
  parseNetworkLoop servers ifaces before = Ok after ->
  after !! mac =
    if decide (mac ∈ MAC <$> ifaces) then Some (merged servers before mac ifaces)
    else before !! mac.
Proof.
  revert before. induction ifaces as [|iface rest IH]; intros before Hloop.
  - injection Hloop as <-. rewrite decide_False; [reflexivity | apply not_elem_of_nil].
  - simpl in Hloop.
    destruct (ParseMAC (MAC iface)) as [hw|] eqn:Hhw; [|discriminate].
    destruct (parseInterface iface _) as [[addrs routes]|e] eqn:Hparse;
      cbn [mbind result_bind] in Hloop; [|discriminate].
    rewrite (IH _ Hloop). clear IH Hloop.
    rewrite fmap_cons.
    destruct (decide (mac = MAC iface)) as [->|Hne].
    + rewrite (decide_True (P := _ ∈ _ :: _)) by (apply elem_of_cons; left; reflexivity).
      assert (Haddrs : addressesOf ParseIP iface = addrs)
        by (unfold addressesOf, isPublic; rewrite Hparse; reflexivity).
      assert (Hroutes : routesOf ParseIP iface = routes)
        by (unfold routesOf, isPublic; rewrite Hparse; reflexivity).
      unfold merged, sharing. rewrite filter_cons_True by reflexivity.
      rewrite !fmap_cons, !concat_cons, Haddrs, Hroutes, Hhw. simpl.
      case_decide as Hrest.
      * f_equal. unfold digitalocean.addressesAt, digitalocean.routesAt.
        rewrite lookup_insert_eq. simpl. rewrite <- !app_assoc. reflexivity.
      * rewrite lookup_insert_eq. fold (sharing (MAC iface) rest).
        rewrite (sharing_none _ _ Hrest). simpl. rewrite !app_nil_r. reflexivity.
    + assert (Hiff : mac ∈ MAC iface :: (MAC <$> rest) <-> mac ∈ MAC <$> rest).
      { rewrite elem_of_cons. tauto. }
      unfold merged, sharing, digitalocean.addressesAt, digitalocean.routesAt.
      rewrite filter_cons_False by congruence.
      rewrite lookup_insert_ne by congruence.
      destruct (decide (mac ∈ MAC <$> rest)) as [Hin|Hnin].
      * rewrite decide_True by (apply Hiff; assumption). reflexivity.
      * rewrite decide_False by (rewrite Hiff; assumption). reflexivity.
Qed.

Lemma parseNetworkLoop_parses (servers : list GoNet.IP) (ifaces : list Interface)
    (before after : gmap string providers.NetworkInterface) :
  parseNetworkLoop servers ifaces before = Ok after ->
  Forall (fun d => is_Some (ParseMAC (MAC d))
                   /\ isErr (parseInterface d (isPublic d)) = false) ifaces.
Proof.
  revert before. induction ifaces as [|iface rest IH]; intros before Hloop; [constructor|].
  simpl in Hloop.
  destruct (ParseMAC (MAC iface)) as [hw|] eqn:Hhw; [|discriminate].
  destruct (parseInterface iface _) as [[addrs routes]|e] eqn:Hparse;
    cbn [mbind result_bind] in Hloop; [|discriminate].
  constructor; [|eauto].
  split; [eauto|]. unfold isPublic. rewrite Hparse. reflexivity.
Qed.

(** Every entry of the map comes from a description, under the text of
    its hardware address. *)
Lemma parseNetworkLoop_entries (servers : list GoNet.IP) (ifaces : list Interface)
    (cfgs : gmap string providers.NetworkInterface) (k : string) (ni : providers.NetworkInterface) :
  parseNetworkLoop servers ifaces ∅ = Ok cfgs ->
  cfgs !! k = Some ni ->
  k ∈ MAC <$> ifaces /\ ParseMAC k = Some (providers.HardwareAddress ni)
  /\ ni = merged servers ∅ k ifaces.
Proof.
  intros Hloop Hk. rewrite (parseNetworkLoop_lookup _ _ _ _ k Hloop) in Hk.
  case_decide as Hin; [|rewrite lookup_empty in Hk; discriminate].
  injection Hk as <-. split; [assumption|]. split; [|reflexivity].
  apply list_elem_of_fmap in Hin as (d & -> & Hd).
  pose proof (parseNetworkLoop_parses _ _ _ _ Hloop) as Hall.
  rewrite Forall_forall in Hall. destruct (Hall d Hd) as [[hw Hhw] _].
  simpl. rewrite Hhw. reflexivity.
Qed.

Lemma filter_none {A} (P : A -> Prop) `{forall x, Decision (P x)} (l : list A) :
  Forall (fun x => ~ P x) l -> filter P l = [].
Proof.
  induction 1 as [|x l Hx _ IH]; [reflexivity|].
  rewrite filter_cons_False by assumption. exact IH.
Qed.

Lemma parseNameservers_parses (servers : list string) :
  Forall (fun s => is_Some (ParseIP s)) servers ->
  exists addrs, parseNameservers servers = Ok addrs.
Proof.
  induction 1 as [|server rest [addr Haddr] _ [addrs IH]]; simpl.
  - eauto.
  - rewrite Haddr, IH. simpl. eauto.
Qed.

Lemma parseNetworkLoop_succeeds (servers : list GoNet.IP) (ifaces : list Interface)
    (before : gmap string providers.NetworkInterface) :
  Forall (fun d => is_Some (ParseMAC (MAC d))
                   /\ isErr (parseInterface d (isPublic d)) = false) ifaces ->
  exists after, parseNetworkLoop servers ifaces before = Ok after.
Proof.
  intros Hall. revert before.
  induction Hall as [|iface rest [[hw Hhw] Hparse] _ IH]; intros before; simpl.
  - eauto.
  - rewrite Hhw. unfold isPublic in Hparse.
    destruct (parseInterface iface _) as [[addrs routes]|e]; [|discriminate].
    cbn [mbind result_bind]. apply IH.
Qed.

(** C1 (amended). When the nameservers, the hardware addresses and the
    addresses of the descriptions all parse, [parseNetwork] succeeds, and
    the descriptions whose [MAC] field is one and the same text [mac] end
    in one entry of the interface map, whose address and route lists are
    the concatenation, in processing order (private descriptions, then
    public ones), of the lists of each of these descriptions, nothing being
    removed; the output is the values of the map, one per distinct [MAC]
    text, and when no description writes the same hardware address in
    another way, that entry is the only interface of the output with this
    hardware address. *)
Theorem parseNetwork_merges_same_MAC_text (metadata : Metadata) (mac : string) :
  Forall (fun s => is_Some (ParseIP s)) (Nameservers (DNS_ metadata)) ->
  Forall (fun d => is_Some (ParseMAC (MAC d))
                   /\ isErr (parseInterface d (isPublic d)) = false)
    (descriptions metadata) ->
  mac ∈ MAC <$> descriptions metadata ->
  exists out hw ni cfgs,
    parseNetwork metadata = Ok out
    /\ ParseMAC mac = Some hw
    /\ ifaceConfigsOf metadata = Ok cfgs
    /\ cfgs !! mac = Some ni
    /\ out ≡ₚ (map_to_list cfgs).*2
    /\ length out = length (remove_dups (MAC <$> descriptions metadata))
    /\ providers.HardwareAddress ni = hw
    /\ providers.IPAddresses ni =
         concat (addressesOf ParseIP <$> sharing mac (descriptions metadata))
    /\ providers.Routes ni =
         concat (routesOf ParseIP <$> sharing mac (descriptions metadata))
    /\ ((forall d, d ∈ descriptions metadata -> ParseMAC (MAC d) = Some hw -> MAC d = mac) ->
        withAddress hw out = [ni]).
Proof.
  intros Hservers Hall Hin.
  destruct (parseNameservers_parses _ Hservers) as [servers Hparsed].
  destruct (parseNetworkLoop_succeeds servers _ ∅ Hall) as [cfgs Hloop].
  assert (Hcfgs : ifaceConfigsOf metadata = Ok cfgs).
  { unfold digitalocean.ifaceConfigsOf. rewrite Hparsed. exact Hloop. }
  assert (Hout : parseNetwork metadata = Ok (rangeOrder cfgs).*2).
  { unfold digitalocean.parseNetwork. rewrite Hcfgs. reflexivity. }
  pose proof (parseNetworkLoop_lookup _ _ _ _ mac Hloop) as Hlookup.
  rewrite decide_True in Hlookup by assumption.
  destruct (parseNetworkLoop_entries _ _ _ _ _ Hloop Hlookup) as (_ & Hhw & _).
  assert (Hperm : (rangeOrder cfgs).*2 ≡ₚ (map_to_list cfgs).*2)
    by (rewrite rangeOrder_perm; reflexivity).
  assert (Haddrs : forall k, digitalocean.addressesAt ∅ k = [])
    by (intros k; unfold digitalocean.addressesAt; rewrite lookup_empty; reflexivity).
  assert (Hroutes : forall k, digitalocean.routesAt ∅ k = [])
    by (intros k; unfold digitalocean.routesAt; rewrite lookup_empty; reflexivity).
  eexists _, _, _, cfgs.
  split; [exact Hout|]. split; [exact Hhw|]. split; [exact Hcfgs|].
  split; [exact Hlookup|]. split; [exact Hperm|]. split; [|split; [reflexivity|]].
  2: split; [simpl; rewrite Haddrs; reflexivity|].
  2: split; [simpl; rewrite Hroutes; reflexivity|].
  - rewrite length_fmap, (Permutation_length (rangeOrder_perm cfgs)), <- (length_fmap fst).
    apply Permutation_length, NoDup_Permutation.
    + apply NoDup_fst_map_to_list.
    + apply NoDup_remove_dups.
    + intros k. rewrite elem_of_remove_dups. split.
      * intros Hk. apply list_elem_of_fmap in Hk as ([k' v] & -> & Hkv).
        apply elem_of_map_to_list in Hkv.
        destruct (parseNetworkLoop_entries _ _ _ _ _ Hloop Hkv) as (Hk & _). exact Hk.
      * intros Hk. pose proof (parseNetworkLoop_lookup _ _ _ _ k Hloop) as Hlk.
        rewrite decide_True in Hlk by assumption.
        apply elem_of_map_to_list in Hlk.
        apply list_elem_of_fmap. eexists; split; [|exact Hlk]. reflexivity.
  - intros Hspelling. unfold withAddress.
    apply Permutation_singleton_r.
    rewrite Hperm.
    rewrite <- (map_to_list_delete cfgs mac _ Hlookup).
    rewrite fmap_cons. cbn [snd].
    rewrite filter_cons_True by exact eq_refl.
    apply Permutation_skip.
    rewrite filter_none; [reflexivity|].
    apply Forall_fmap, Forall_forall. intros [k v] Hkv. cbn [snd compose].
    apply elem_of_map_to_list in Hkv.
    intros Heq.
    destruct (decide (k = mac)) as [->|Hne]; [rewrite lookup_delete_eq in Hkv; discriminate|].
    rewrite lookup_delete_ne in Hkv by congruence.
    destruct (parseNetworkLoop_entries _ _ _ _ _ Hloop Hkv) as (Hk & Hkhw & _).
    apply list_elem_of_fmap in Hk as (d & -> & Hd).
    apply Hne, Hspelling; [assumption|]. rewrite Hkhw. f_equal. exact Heq.
Qed.

End Synthesizer.
(** *** The synthesizer on the sample descriptions *)

Lemma parseInterface_public_default_route_witness :
  digitalocean.parseInterface GoNet.ParseIP samplePrivate false
    = Ok ([sampleNet4], samplePrivateRoutes)
  /\ digitalocean.parseInterface GoNet.ParseIP samplePublic true
     = Ok ([sampleNet4; sampleNet6; sampleNetAnchor], samplePublicRoutes).
Proof.
  split.
  - apply (proj1 (parseInterface_public_default_route GoNet.ParseIP samplePrivate false)
             sampleIPv4 sampleNet4 sampleGateway4 [] []); reflexivity.
  - apply (proj2 (parseInterface_public_default_route GoNet.ParseIP samplePublic true)
             sampleIPv6 sampleNet6 sampleGateway6
             [sampleNet4] [routeVia sampleNet4 sampleGateway4; routeVia defaultIPv4 sampleGateway4]
             [sampleNetAnchor] [routeVia sampleNetAnchor sampleGatewayAnchor]); reflexivity.
Defined.

Lemma parseInterface_anchor_no_default_route_witness :
  (digitalocean.parseInterface GoNet.ParseIP samplePublic true
     = Ok ([sampleNet4; sampleNet6; sampleNetAnchor], samplePublicRoutes)
   /\ ~ isDefaultRoute (routeVia sampleNetAnchor sampleGatewayAnchor))
  /\ (digitalocean.parseInterface GoNet.ParseIP samplePublic false
        = Ok ([sampleNet4; sampleNet6; sampleNetAnchor],
              [routeVia sampleNet4 sampleGateway4; routeVia sampleNet6 sampleGateway6;
               routeVia sampleNetAnchor sampleGatewayAnchor])
      /\ ~ isDefaultRoute (routeVia sampleNetAnchor sampleGatewayAnchor)).
Proof.
  split.
  - apply (parseInterface_anchor_no_default_route GoNet.ParseIP samplePublic true
             sampleAnchor sampleNetAnchor sampleGatewayAnchor
             [sampleNet4; sampleNet6]
             [routeVia sampleNet4 sampleGateway4; routeVia defaultIPv4 sampleGateway4;
              routeVia sampleNet6 sampleGateway6; routeVia defaultIPv6 sampleGateway6]);
      reflexivity.
  - apply (parseInterface_anchor_no_default_route GoNet.ParseIP samplePublic false
             sampleAnchor sampleNetAnchor sampleGatewayAnchor
             [sampleNet4; sampleNet6]
             [routeVia sampleNet4 sampleGateway4; routeVia sampleNet6 sampleGateway6]);
      reflexivity.
Defined.

Lemma parseNetwork_unparseable_is_fatal_witness :
  (exists e, digitalocean.parseNetwork GoNet.ParseIP GoNet.ParseMAC map_to_list
               (sampleMetadata [samplePublic] [samplePrivate] ["8.8.8.8"; "resolver.local"])
             = Err e)
  /\ (exists e, digitalocean.parseNetwork GoNet.ParseIP GoNet.ParseMAC map_to_list
                  (sampleMetadata [sampleUnparseable] [samplePrivate] ["8.8.8.8"])
                = Err e).
Proof.
  split.
  - apply parseNetwork_unparseable_is_fatal. left. exists "resolver.local". split.
    + apply elem_of_cons. right. apply elem_of_cons. left. reflexivity.
    + reflexivity.
  - apply parseNetwork_unparseable_is_fatal. right. exists sampleUnparseable. split.
    + apply elem_of_cons. right. apply elem_of_cons. left. reflexivity.
    + reflexivity.
Defined.

Lemma parseNetwork_merges_same_MAC_text_witness :
  let metadata := sampleMetadata [samplePublic] [samplePrivate] ["8.8.8.8"] in
  let mac := "04:01:2a:0f:2a:02" in
  exists out hw ni cfgs,
    digitalocean.parseNetwork GoNet.ParseIP GoNet.ParseMAC map_to_list metadata = Ok out
    /\ GoNet.ParseMAC mac = Some hw
    /\ digitalocean.ifaceConfigsOf GoNet.ParseIP GoNet.ParseMAC metadata = Ok cfgs
    /\ cfgs !! mac = Some ni
    /\ out ≡ₚ (map_to_list cfgs).*2
    /\ length out = length (remove_dups (MAC <$> descriptions metadata))
    /\ providers.HardwareAddress ni = hw
    /\ providers.IPAddresses ni =
         concat (addressesOf GoNet.ParseIP <$> sharing mac (descriptions metadata))
    /\ providers.Routes ni =
         concat (routesOf GoNet.ParseIP <$> sharing mac (descriptions metadata))
    /\ ((forall d, d ∈ descriptions metadata -> GoNet.ParseMAC (MAC d) = Some hw ->
                   MAC d = mac) ->
        withAddress hw out = [ni]).
Proof.
  apply (parseNetwork_merges_same_MAC_text GoNet.ParseIP GoNet.ParseMAC map_to_list
           (fun m => Permutation_refl _)).
  - repeat (constructor; [eexists; reflexivity|]). constructor.
  - repeat (constructor; [split; [eexists; reflexivity | reflexivity]|]). constructor.
  - apply elem_of_cons. left. reflexivity.
Defined.

(** What the sample gives: one interface, with 10.0.0.5/16 and its route
    twice, once from the private description and once from the public
    one. *)
Lemma parseNetwork_sample_merged :
  digitalocean.parseNetwork GoNet.ParseIP GoNet.ParseMAC map_to_list
    (sampleMetadata [samplePublic] [samplePrivate] ["8.8.8.8"]) = Ok [sampleMerged].
Proof. vm_compute. reflexivity. Qed.

(** C1, as stated, fails: two descriptions that give one hardware address,
    one of them in capitals, are kept as two interfaces with that hardware
    address, neither of which has the lists of both. *)
Lemma parseNetwork_respelled_MAC_not_merged :
  GoNet.ParseMAC (MAC samplePrivate) = Some sampleHardwareAddr
  /\ GoNet.ParseMAC (MAC samplePublicCapitals) = Some sampleHardwareAddr
  /\ exists ni1 ni2,
       digitalocean.parseNetwork GoNet.ParseIP GoNet.ParseMAC map_to_list
         (sampleMetadata [samplePublicCapitals] [samplePrivate] ["8.8.8.8"])
       = Ok [ni1; ni2]
       /\ withAddress sampleHardwareAddr [ni1; ni2] = [ni1; ni2]
       /\ providers.IPAddresses ni1 = [sampleNet4]
       /\ providers.IPAddresses ni2 = [sampleNet4; sampleNet6].
Proof.
  split; [reflexivity|]. split; [reflexivity|].
  eexists _, _. split; [vm_compute; reflexivity|].
  split; [|split]; reflexivity.
Qed.

End digitalocean_props.

(** ** The network synthesizer: errors, flags and what is kept *)

Module synthesizer_props.

Import digitalocean netspec digitalocean_props.

Section Synthesizer.

Context (ParseIP : string -> option GoNet.IP).
Context (ParseMAC : string -> option GoNet.HardwareAddr).
Context (rangeOrder :
  gmap string providers.NetworkInterface -> list (string * providers.NetworkInterface)).

Hypothesis rangeOrder_perm : forall m, rangeOrder m ≡ₚ map_to_list m.

Local Abbreviation parseIPv4Address := (digitalocean.parseIPv4Address ParseIP).
Local Abbreviation parseIPv6Address := (digitalocean.parseIPv6Address ParseIP).
Local Abbreviation parseInterface := (digitalocean.parseInterface ParseIP).
Local Abbreviation parseNameservers := (digitalocean.parseNameservers ParseIP).
Local Abbreviation parseNetworkLoop := (digitalocean.parseNetworkLoop ParseIP ParseMAC).
Local Abbreviation ifaceConfigsOf := (digitalocean.ifaceConfigsOf ParseIP ParseMAC).
Local Abbreviation parseNetwork := (digitalocean.parseNetwork ParseIP ParseMAC rangeOrder).
Local Abbreviation merged := (netspec.merged ParseIP ParseMAC).

Lemma parseNameservers_Ok (servers : list string) (addrs : list GoNet.IP) :
  parseNameservers servers = Ok addrs ->
  Forall2 (fun s a => ParseIP s = Some a) servers addrs.
Proof.
  revert addrs. induction servers as [|server rest IH]; intros addrs; simpl.
  - intros [= <-]. constructor.
  - destruct (ParseIP server) as [addr|] eqn:Hserver; [|discriminate].
    destruct (parseNameservers rest) as [parsed|e]; cbn [mbind result_bind]; [|discriminate].
    intros [= <-]. constructor; [exact Hserver | apply IH; reflexivity].
Qed.

Lemma parseNameservers_first (good rest : list string) (bad : string) :
  Forall (fun s => is_Some (ParseIP s)) good -> ParseIP bad = None ->
  parseNameservers (good ++ bad :: rest) = Err (ErrNameserver bad).
Proof.
  intros Hgood Hbad. induction Hgood as [|s good [a Ha] _ IH]; simpl.
  - rewrite Hbad. reflexivity.
  - rewrite Ha, IH. reflexivity.
Qed.

(** X1. [parseNameservers] returns a list exactly when every server
    text parses as an IP address, and the list is then the parsed
    addresses, one per text, in the order of the texts. *)
Theorem parseNameservers_in_order (servers : list string) (addrs : list GoNet.IP) :
  parseNameservers servers = Ok addrs <->
  Forall2 (fun s a => ParseIP s = Some a) servers addrs.
Proof.
  split; [apply parseNameservers_Ok|].
  induction 1 as [|s a servers addrs Hs _ IH]; simpl; [reflexivity|].
  rewrite Hs, IH. reflexivity.
Qed.

(** X2. The first nameserver that does not parse decides the outcome of
    [parseNetwork]: the error carries its text, whatever the servers after
    it and whatever the interface descriptions are. *)
Theorem parseNetwork_first_unparseable_nameserver (metadata : Metadata)
    (good rest : list string) (bad : string) :
  Nameservers (DNS_ metadata) = (good ++ bad :: rest)%list ->
  Forall (fun s => is_Some (ParseIP s)) good ->
  ParseIP bad = None ->
  parseNetwork metadata = Err (ErrNameserver bad).
Proof.
  intros Hservers Hgood Hbad.
  unfold digitalocean.parseNetwork, digitalocean.ifaceConfigsOf.
  rewrite Hservers, (parseNameservers_first _ _ _ Hgood Hbad). reflexivity.
Qed.

Lemma cidrBytes_length (l : nat) (n : Z) : length (GoNet.cidrBytes l n) = l.
Proof.
  revert n. induction l as [|l IH]; intros n; simpl; [reflexivity|].
  destruct (8 <=? n)%Z; simpl; rewrite IH; reflexivity.
Qed.

(** X3. [parseIPv6Address] does not check the prefix length: an address
    that parses is accepted with a mask of 16 bytes when the length is
    between 0 and 128, and with a nil mask, not an error, when it is not.
    The netmask text is not read. *)
Theorem parseIPv6Address_prefix_not_checked (a : Address) (ip : GoNet.IP) :
  ParseIP (IPAddress a) = Some ip ->
  exists mask,
    parseIPv6Address a = Ok {| GoNet.IPNet_IP := ip; GoNet.IPNet_Mask := mask |}
    /\ if decide (0 <= Cidr a <= 128)%Z then length mask = 16 else mask = [].
Proof.
  intros Hip. unfold digitalocean.parseIPv6Address. rewrite Hip.
  eexists. split; [reflexivity|].
  unfold GoNet.CIDRMask. cbn [Z.eqb negb orb].
  case_decide as Hrange.
  - replace (Cidr a <? 0)%Z with false by lia.
    replace (128 <? Cidr a)%Z with false by lia.
    cbn [orb]. apply cidrBytes_length.
  - destruct (Cidr a <? 0)%Z eqn:Hneg; [reflexivity|].
    destruct (128 <? Cidr a)%Z eqn:Hbig; [reflexivity|]. lia.
Qed.

(** The three blocks of [parseInterface], each on its own. *)
Lemma parseInterface_IPv4_block (iface : Interface) (public : bool) :
  parseInterface (onlyIPv4 iface) public =
    match IPv4 iface with
    | None => Ok ([], [])
    | Some a =>
        match ParseIP (IPAddress a), ParseIP (Netmask a), ParseIP (Gateway a) with
        | None, _, _ => Err (ErrIPv4Address (IPAddress a))
        | Some _, None, _ => Err (ErrIPv4Mask (Netmask a))
        | Some _, Some _, None => Err (ErrGateway (Gateway a))
        | Some ip, Some mask, Some G =>
            let addr := {| GoNet.IPNet_IP := ip; GoNet.IPNet_Mask := GoNet.To4 mask |} in
            Ok ([addr], routeVia addr G :: (if public then [routeVia defaultIPv4 G] else []))
        end
    end.
Proof.
  unfold digitalocean.parseInterface, digitalocean.parseIPv4Address, parseRoute; simpl.
  destruct (IPv4 iface) as [a|]; [|reflexivity].
  destruct (ParseIP (IPAddress a)); [|reflexivity].
  destruct (ParseIP (Netmask a)); [|reflexivity]. simpl.
  destruct (ParseIP (Gateway a)); [|reflexivity].
  destruct public; reflexivity.
Qed.

Lemma parseInterface_IPv6_block (iface : Interface) (public : bool) :
  parseInterface (onlyIPv6 iface) public =
    match IPv6 iface with
    | None => Ok ([], [])
    | Some a =>
        match ParseIP (IPAddress a), ParseIP (Gateway a) with
        | None, _ => Err (ErrIPv6Address (IPAddress a))
        | Some _, None => Err (ErrGateway (Gateway a))
        | Some ip, Some G =>
            let addr :=
              {| GoNet.IPNet_IP := ip; GoNet.IPNet_Mask := GoNet.CIDRMask (Cidr a) 128 |} in
            Ok ([addr], routeVia addr G :: (if public then [routeVia defaultIPv6 G] else []))
        end
    end.
Proof.
  unfold digitalocean.parseInterface, digitalocean.parseIPv6Address, parseRoute; simpl.
  destruct (IPv6 iface) as [a|]; [|reflexivity].
  destruct (ParseIP (IPAddress a)); [|reflexivity]. simpl.
  destruct (ParseIP (Gateway a)); [|reflexivity].
  destruct public; reflexivity.
Qed.

Lemma parseInterface_anchor_block (iface : Interface) (public : bool) :
  parseInterface (onlyAnchor iface) public =
    match AnchorIPv4 iface with
    | None => Ok ([], [])
    | Some a =>
        match ParseIP (IPAddress a), ParseIP (Netmask a), ParseIP (Gateway a) with
        | None, _, _ => Err (ErrIPv4Address (IPAddress a))
        | Some _, None, _ => Err (ErrIPv4Mask (Netmask a))
        | Some _, Some _, None => Err (ErrGateway (Gateway a))
        | Some ip, Some mask, Some G =>
            let addr := {| GoNet.IPNet_IP := ip; GoNet.IPNet_Mask := GoNet.To4 mask |} in
            Ok ([addr], [routeVia addr G])
        end
    end.
Proof.
  unfold digitalocean.parseInterface, digitalocean.parseIPv4Address, parseRoute; simpl.
  destruct (AnchorIPv4 iface) as [a|]; [|reflexivity].
  destruct (ParseIP (IPAddress a)); [|reflexivity].
  destruct (ParseIP (Netmask a)); [|reflexivity]. simpl.
  destruct (ParseIP (Gateway a)); reflexivity.
Qed.

Lemma parsesIPv4_iff (a : Address) :
  parsesIPv4 ParseIP a <->
  match ParseIP (IPAddress a), ParseIP (Netmask a), ParseIP (Gateway a) with
  | Some _, Some _, Some _ => True
  | _, _, _ => False
  end.
Proof.
  unfold parsesIPv4. rewrite !is_Some_alt.
  destruct (ParseIP (IPAddress a)), (ParseIP (Netmask a)), (ParseIP (Gateway a)); tauto.
Qed.

Lemma parsesIPv6_iff (a : Address) :
  parsesIPv6 ParseIP a <->
  match ParseIP (IPAddress a), ParseIP (Gateway a) with
  | Some _, Some _ => True
  | _, _ => False
  end.
Proof.
  unfold parsesIPv6. rewrite !is_Some_alt.
  destruct (ParseIP (IPAddress a)), (ParseIP (Gateway a)); tauto.
Qed.

Lemma IPv4_block_succeeds (iface : Interface) (public : bool) :
  isErr (parseInterface (onlyIPv4 iface) public) = false <->
  (forall a, IPv4 iface = Some a -> parsesIPv4 ParseIP a).
Proof.
  rewrite parseInterface_IPv4_block. destruct (IPv4 iface) as [a|].
  - split.
    + intros H ? [= <-]. apply parsesIPv4_iff.
      destruct (ParseIP (IPAddress a)), (ParseIP (Netmask a)), (ParseIP (Gateway a));
        first [exact I | discriminate H].
    + intros H. specialize (H a eq_refl). apply parsesIPv4_iff in H.
      destruct (ParseIP (IPAddress a)), (ParseIP (Netmask a)), (ParseIP (Gateway a));
        first [reflexivity | destruct H].
  - split; [intros _ ? [=] | reflexivity].
Qed.

Lemma IPv6_block_succeeds (iface : Interface) (public : bool) :
  isErr (parseInterface (onlyIPv6 iface) public) = false <->
  (forall a, IPv6 iface = Some a -> parsesIPv6 ParseIP a).
Proof.
  rewrite parseInterface_IPv6_block. destruct (IPv6 iface) as [a|].
  - split.
    + intros H ? [= <-]. apply parsesIPv6_iff.
      destruct (ParseIP (IPAddress a)), (ParseIP (Gateway a));
        first [exact I | discriminate H].
    + intros H. specialize (H a eq_refl). apply parsesIPv6_iff in H.
      destruct (ParseIP (IPAddress a)), (ParseIP (Gateway a));
        first [reflexivity | destruct H].
  - split; [intros _ ? [=] | reflexivity].
Qed.

Lemma anchor_block_succeeds (iface : Interface) (public : bool) :
  isErr (parseInterface (onlyAnchor iface) public) = false <->
  (forall a, AnchorIPv4 iface = Some a -> parsesIPv4 ParseIP a).
Proof.
  rewrite parseInterface_anchor_block. destruct (AnchorIPv4 iface) as [a|].
  - split.
    + intros H ? [= <-]. apply parsesIPv4_iff.
      destruct (ParseIP (IPAddress a)), (ParseIP (Netmask a)), (ParseIP (Gateway a));
        first [exact I | discriminate H].
    + intros H. specialize (H a eq_refl). apply parsesIPv4_iff in H.
      destruct (ParseIP (IPAddress a)), (ParseIP (Netmask a)), (ParseIP (Gateway a));
        first [reflexivity | destruct H].
  - split; [intros _ ? [=] | reflexivity].
Qed.

(** X4. [parseInterface] succeeds, whatever the public flag, exactly
    when of every address the description carries the address text and the
    gateway text parse and, for the IPv4 and the anchor address, the
    netmask text parses as well. *)
Theorem parseInterface_succeeds_iff (iface : Interface) (public : bool) :
  isErr (parseInterface iface public) = false <->
  (forall a, IPv4 iface = Some a -> parsesIPv4 ParseIP a)
  /\ (forall a, IPv6 iface = Some a -> parsesIPv6 ParseIP a)
  /\ (forall a, AnchorIPv4 iface = Some a -> parsesIPv4 ParseIP a).
Proof.
  rewrite <- (IPv4_block_succeeds iface public), <- (IPv6_block_succeeds iface public),
    <- (anchor_block_succeeds iface public).
  rewrite parseInterface_blocks.
  destruct (parseInterface (onlyIPv4 iface) public) as [[a4 r4]|e4];
    destruct (parseInterface (onlyIPv6 iface) public) as [[a6 r6]|e6];
    destruct (parseInterface (onlyAnchor iface) public) as [[aA rA]|eA];
    cbn [mbind result_bind isErr];
    (split; [intros H; first [discriminate H | (repeat split; reflexivity)]
            | intros (H1 & H2 & H3);
              first [discriminate H1 | discriminate H2 | discriminate H3 | reflexivity]]).
Qed.






(** What a call of [parseNetwork] that returns an output went through. *)
Lemma parseNetwork_Ok (metadata : Metadata) (out : list providers.NetworkInterface) :
  parseNetwork metadata = Ok out ->
  exists servers cfgs,
    parseNameservers (Nameservers (DNS_ metadata)) = Ok servers
    /\ parseNetworkLoop servers (descriptions metadata) ∅ = Ok cfgs
    /\ out = (rangeOrder cfgs).*2
    /\ out ≡ₚ (map_to_list cfgs).*2.
Proof.
  unfold digitalocean.parseNetwork, digitalocean.ifaceConfigsOf.
  destruct (parseNameservers _) as [servers|e]; cbn [mbind result_bind]; [|discriminate].
  destruct (parseNetworkLoop _ _ _) as [cfgs|e] eqn:Hloop; cbn [mbind result_bind];
    [|discriminate].
  intros [= <-]. exists servers, cfgs.
  split; [reflexivity|]. split; [exact Hloop|]. split; [reflexivity|].
  rewrite rangeOrder_perm. reflexivity.
Qed.

(** X6. Every interface [parseNetwork] returns carries the same
    nameservers: the parsed server texts of the metadata, in their order. *)
Theorem parseNetwork_nameservers_on_every_interface (metadata : Metadata)
    (out : list providers.NetworkInterface) :
  parseNetwork metadata = Ok out ->
  exists servers,
    Forall2 (fun s a => ParseIP s = Some a) (Nameservers (DNS_ metadata)) servers
    /\ Forall (fun ni => providers.Nameservers ni = servers) out.
Proof.
  intros Hout. destruct (parseNetwork_Ok _ _ Hout) as (servers & cfgs & Hs & Hloop & _ & Hperm).
  exists servers. split; [apply parseNameservers_Ok; exact Hs|].
  rewrite Hperm. apply Forall_fmap, Forall_forall. intros [k ni] Hk. cbn [snd compose].
  apply elem_of_map_to_list in Hk.
  destruct (parseNetworkLoop_entries _ _ _ _ _ _ _ Hloop Hk) as (_ & _ & ->). reflexivity.
Qed.

(** X8. The hardware addresses of the interfaces [parseNetwork] returns
    are exactly the parsed [MAC] texts of the descriptions. *)
Theorem parseNetwork_hardware_addresses (metadata : Metadata)
    (out : list providers.NetworkInterface) (hw : GoNet.HardwareAddr) :
  parseNetwork metadata = Ok out ->
  hw ∈ providers.HardwareAddress <$> out <->
  exists d, d ∈ descriptions metadata /\ ParseMAC (MAC d) = Some hw.
Proof.
  intros Hout. destruct (parseNetwork_Ok _ _ Hout) as (servers & cfgs & _ & Hloop & _ & Hperm).
  rewrite Hperm. split.
  - intros Hin. apply list_elem_of_fmap in Hin as (ni & -> & Hni).
    apply list_elem_of_fmap in Hni as ([k ni'] & -> & Hk). cbn [snd].
    apply elem_of_map_to_list in Hk.
    destruct (parseNetworkLoop_entries _ _ _ _ _ _ _ Hloop Hk) as (Hin & Hhw & _).
    apply list_elem_of_fmap in Hin as (d & -> & Hd). eauto.
  - intros (d & Hd & Hhw).
    pose proof (parseNetworkLoop_lookup _ _ _ _ _ _ (MAC d) Hloop) as Hlookup.
    rewrite decide_True in Hlookup by (apply list_elem_of_fmap; eauto).
    apply list_elem_of_fmap. eexists. split.
    2: { apply list_elem_of_fmap. exists (MAC d, merged servers ∅ (MAC d) (descriptions metadata)).
         split; [reflexivity|]. apply elem_of_map_to_list. exact Hlookup. }
    simpl. rewrite Hhw. reflexivity.
Qed.

(** Replacing the value under a key by one that extends it extends what
    the values of the map hold together. *)
Lemma values_insert {V A} (f : V -> list A) (m : gmap string V) (k : string) (v : V)
    (extra : list A) :
  f v = (from_option f [] (m !! k) ++ extra)%list ->
  (map_to_list (<[k := v]> m)).*2 ≫= f ≡ₚ (((map_to_list m).*2 ≫= f) ++ extra)%list.
Proof.
  intros Hv. destruct (m !! k) as [old|] eqn:Hk; simpl in Hv.
  - rewrite <- (insert_delete_eq m k v).
    rewrite map_to_list_insert by apply lookup_delete_eq.
    rewrite <- (map_to_list_delete m k old Hk).
    rewrite !fmap_cons, !bind_cons. cbn [snd]. rewrite Hv.
    rewrite <- !app_assoc. apply Permutation_app_head, Permutation_app_comm.
  - rewrite map_to_list_insert by exact Hk.
    rewrite fmap_cons, bind_cons. cbn [snd]. rewrite Hv. apply Permutation_app_comm.
Qed.

Lemma parseNetworkLoop_keeps (servers : list GoNet.IP) (ifaces : list Interface)
    (before after : gmap string providers.NetworkInterface) :
  parseNetworkLoop servers ifaces before = Ok after ->
  (map_to_list after).*2 ≫= providers.IPAddresses
    ≡ₚ (((map_to_list before).*2 ≫= providers.IPAddresses)
         ++ (ifaces ≫= addressesOf ParseIP))%list
  /\ (map_to_list after).*2 ≫= providers.Routes
       ≡ₚ (((map_to_list before).*2 ≫= providers.Routes)
            ++ (ifaces ≫= routesOf ParseIP))%list.
Proof.
  revert before. induction ifaces as [|iface rest IH]; intros before Hloop.
  - injection Hloop as <-. rewrite !app_nil_r. split; reflexivity.
  - simpl in Hloop.
    destruct (ParseMAC (MAC iface)) as [hw|] eqn:Hhw; [|discriminate].
    destruct (parseInterface iface _) as [[addrs routes]|e] eqn:Hparse;
      cbn [mbind result_bind] in Hloop; [|discriminate].
    assert (Haddrs : addressesOf ParseIP iface = addrs)
      by (unfold addressesOf, isPublic; rewrite Hparse; reflexivity).
    assert (Hroutes : routesOf ParseIP iface = routes)
      by (unfold routesOf, isPublic; rewrite Hparse; reflexivity).
    destruct (IH _ Hloop) as [IHa IHr]. rewrite !bind_cons, Haddrs, Hroutes.
    split.
    + rewrite IHa, (values_insert _ _ _ _ addrs), <- app_assoc; [reflexivity|].
      unfold addressesAt. cbn. destruct (before !! MAC iface); reflexivity.
    + rewrite IHr, (values_insert _ _ _ _ routes), <- app_assoc; [reflexivity|].
      unfold routesAt. cbn. destruct (before !! MAC iface); reflexivity.
Qed.

(** X7. [parseNetwork] neither drops nor invents an address or a route:
    the addresses of the interfaces it returns are, up to order, the
    addresses of all descriptions, and so are the routes. *)
Theorem parseNetwork_keeps_every_address_and_route (metadata : Metadata)
    (out : list providers.NetworkInterface) :
  parseNetwork metadata = Ok out ->
  out ≫= providers.IPAddresses ≡ₚ descriptions metadata ≫= addressesOf ParseIP
  /\ out ≫= providers.Routes ≡ₚ descriptions metadata ≫= routesOf ParseIP.
Proof.
  intros Hout. destruct (parseNetwork_Ok _ _ Hout) as (servers & cfgs & _ & Hloop & _ & Hperm).
  rewrite Hperm. destruct (parseNetworkLoop_keeps _ _ _ _ Hloop) as [Ha Hr].
  rewrite map_to_list_empty in Ha, Hr. split; assumption.
Qed.

Lemma parseNetworkLoop_first_failure (servers : list GoNet.IP) (good rest : list Interface)
    (d : Interface) (before : gmap string providers.NetworkInterface) :
  Forall (fun d => is_Some (ParseMAC (MAC d))
                   /\ isErr (parseInterface d (isPublic d)) = false) good ->
  (ParseMAC (MAC d) = None ->
   parseNetworkLoop servers (good ++ d :: rest) before = Err (ErrMAC (MAC d)))
  /\ (forall e, is_Some (ParseMAC (MAC d)) -> parseInterface d (isPublic d) = Err e ->
                parseNetworkLoop servers (good ++ d :: rest) before = Err e).
Proof.
  intros Hgood. revert before.
  induction Hgood as [|iface good [[hw Hhw] Hparse] _ IH]; intros before.
  - cbn [app digitalocean.parseNetworkLoop]. split.
    + intros ->. reflexivity.
    + intros e [hw ->] Hd. unfold isPublic in Hd. rewrite Hd. reflexivity.
  - cbn [app digitalocean.parseNetworkLoop]. rewrite Hhw. unfold isPublic in Hparse.
    destruct (parseInterface iface _) as [[addrs routes]|e]; [|discriminate].
    cbn [mbind result_bind]. apply IH.
Qed.

(** X9. When the nameservers parse, the first description, in
    processing order (private ones first), that does not parse decides the
    error of [parseNetwork]: the [MAC] error when its hardware address does
    not parse, whatever its addresses are, otherwise the error of
    [parseInterface] on it. *)
Theorem parseNetwork_first_failing_description (metadata : Metadata)
    (good rest : list Interface) (d : Interface) :
  Forall (fun s => is_Some (ParseIP s)) (Nameservers (DNS_ metadata)) ->
  descriptions metadata = (good ++ d :: rest)%list ->
  Forall (fun d => is_Some (ParseMAC (MAC d))
                   /\ isErr (parseInterface d (isPublic d)) = false) good ->
  (ParseMAC (MAC d) = None -> parseNetwork metadata = Err (ErrMAC (MAC d)))
  /\ (forall e, is_Some (ParseMAC (MAC d)) -> parseInterface d (isPublic d) = Err e ->
                parseNetwork metadata = Err e).
Proof.
  intros Hservers Hdescs Hgood.
  destruct (parseNameservers_parses _ _ Hservers) as [servers Hparsed].
  unfold digitalocean.parseNetwork, digitalocean.ifaceConfigsOf.
  rewrite Hparsed, Hdescs. cbn [mbind result_bind].
  destruct (parseNetworkLoop_first_failure servers good rest d ∅ Hgood) as [Hmac Hparse].
  split.
  - intros Hd. rewrite (Hmac Hd). reflexivity.
  - intros e Hd He. rewrite (Hparse e Hd He). reflexivity.
Qed.

End Synthesizer.

(** *** On the sample descriptions *)

Lemma parseNameservers_in_order_witness :
  digitalocean.parseNameservers GoNet.ParseIP ["8.8.8.8"; "2001:db8::1"]
    = Ok [sampleNameserver; sampleGateway6].
Proof. apply parseNameservers_in_order. repeat constructor. Defined.

Lemma parseNetwork_first_unparseable_nameserver_witness :
  digitalocean.parseNetwork GoNet.ParseIP GoNet.ParseMAC map_to_list
    (sampleMetadata [samplePublic] [sampleUnparseable]
       ["8.8.8.8"; "resolver.local"; "also.local"])
  = Err (ErrNameserver "resolver.local").
Proof.
  apply (parseNetwork_first_unparseable_nameserver GoNet.ParseIP GoNet.ParseMAC map_to_list
           _ ["8.8.8.8"] ["also.local"]).
  - reflexivity.
  - repeat constructor. eexists. reflexivity.
  - reflexivity.
Defined.

Lemma parseIPv6Address_prefix_not_checked_witness :
  exists mask,
    digitalocean.parseIPv6Address GoNet.ParseIP sampleIPv6Wide
      = Ok {| GoNet.IPNet_IP := GoNet.IPNet_IP sampleNet6; GoNet.IPNet_Mask := mask |}
    /\ if decide (0 <= Cidr sampleIPv6Wide <= 128)%Z then length mask = 16 else mask = [].
Proof. apply parseIPv6Address_prefix_not_checked. reflexivity. Defined.

Lemma parseNetwork_nameservers_on_every_interface_witness :
  exists servers,
    Forall2 (fun s a => GoNet.ParseIP s = Some a) ["8.8.8.8"] servers
    /\ Forall (fun ni => providers.Nameservers ni = servers) [sampleMerged].
Proof.
  apply (parseNetwork_nameservers_on_every_interface GoNet.ParseIP GoNet.ParseMAC map_to_list
           (fun m => Permutation_refl _)
           (sampleMetadata [samplePublic] [samplePrivate] ["8.8.8.8"])).
  exact parseNetwork_sample_merged.
Defined.

Lemma parseNetwork_keeps_every_address_and_route_witness :
  let metadata := sampleMetadata [samplePublic] [samplePrivate] ["8.8.8.8"] in
  [sampleMerged] ≫= providers.IPAddresses
    ≡ₚ descriptions metadata ≫= addressesOf GoNet.ParseIP
  /\ [sampleMerged] ≫= providers.Routes
       ≡ₚ descriptions metadata ≫= routesOf GoNet.ParseIP.
Proof.
  apply (parseNetwork_keeps_every_address_and_route GoNet.ParseIP GoNet.ParseMAC map_to_list
           (fun m => Permutation_refl _)).
  exact parseNetwork_sample_merged.
Defined.

Lemma parseNetwork_hardware_addresses_witness :
  let metadata := sampleMetadata [samplePublic] [samplePrivate] ["8.8.8.8"] in
  sampleHardwareAddr ∈ providers.HardwareAddress <$> [sampleMerged] <->
  exists d, d ∈ descriptions metadata /\ GoNet.ParseMAC (MAC d) = Some sampleHardwareAddr.
Proof.
  apply (parseNetwork_hardware_addresses GoNet.ParseIP GoNet.ParseMAC map_to_list
           (fun m => Permutation_refl _)).
  exact parseNetwork_sample_merged.
Defined.

Lemma parseNetwork_first_failing_description_witness :
  digitalocean.parseNetwork GoNet.ParseIP GoNet.ParseMAC map_to_list
    (sampleMetadata [samplePublic] [samplePrivate; sampleUnparseable] ["8.8.8.8"])
  = Err (ErrMAC "04:01:2a:0f:2a").
Proof.
  refine (proj1 (parseNetwork_first_failing_description GoNet.ParseIP GoNet.ParseMAC
                   map_to_list _ [samplePrivate] [samplePublic] sampleUnparseable _ _ _) _).
  - repeat constructor. eexists. reflexivity.
  - reflexivity.
  - repeat constructor. eexists. reflexivity.
  - reflexivity.
Defined.

End synthesizer_props.

(** ** The attributes and the fetch of DigitalOcean *)

Module digitalocean_fetch_props.

Import fetch digitalocean digitalocean_fetch netspec keyspec attrspec.

Lemma uitoa_inj (n m : N) : GoNet.uitoa n = GoNet.uitoa m -> n = m.
Proof.
  unfold GoNet.uitoa. intros H.
  assert (Hnn : forall k, N.to_uint k <> Decimal.Nil).
  { intros [|p]; [discriminate|]. apply DecimalPos.Unsigned.to_uint_nonnil. }
  apply (f_equal NilZero.uint_of_string) in H.
  rewrite !NilZero.usu in H by apply Hnn.
  injection H as H. apply DecimalN.Unsigned.to_uint_inj, H.
Qed.

Lemma indexedKey_inj (P Q : string) (field field' : Interface -> option Address) (n m : nat) :
  (P, field) ∈ (publicFields ++ privateFields)%list ->
  (Q, field') ∈ (publicFields ++ privateFields)%list ->
  indexedKey P n = indexedKey Q m -> P = Q /\ n = m.
Proof.
  intros HP HQ. unfold indexedKey.
  assert (Hsame : forall p, p ++ GoNet.uitoa (N.of_nat n) = p ++ GoNet.uitoa (N.of_nat m) -> n = m).
  { intros p H. apply String.app_inj, uitoa_inj in H. lia. }
  cbn in HP, HQ.
  repeat (apply elem_of_cons in HP as [HP|HP]; [injection HP as -> _|]);
    [..|apply elem_of_nil in HP; destruct HP];
    (repeat (apply elem_of_cons in HQ as [HQ|HQ]; [injection HQ as -> _|]);
     [..|apply elem_of_nil in HQ; destruct HQ]);
    first [ intros H; split; [reflexivity | exact (Hsame _ H)] | (cbn; discriminate) ].
Qed.

Section Provider.

Context (Get : string -> option string * option string).
Context (ParseIP : string -> option GoNet.IP).
Context (ParseMAC : string -> option GoNet.HardwareAddr).
Context (rangeOrder :
  gmap string providers.NetworkInterface -> list (string * providers.NetworkInterface)).
Context (Unmarshal : string -> result string Metadata).
Context (String_ : option GoNet.IP -> string).

Local Abbreviation setAddress := (digitalocean_fetch.setAddress ParseIP String_).
Local Abbreviation publicAttributes := (digitalocean_fetch.publicAttributes ParseIP String_).
Local Abbreviation privateAttributes := (digitalocean_fetch.privateAttributes ParseIP String_).
Local Abbreviation parseAttributes := (digitalocean_fetch.parseAttributes ParseIP String_).
Local Abbreviation attributeOf := (attrspec.attributeOf ParseIP String_).
Local Abbreviation FetchMetadata :=
  (digitalocean_fetch.FetchMetadata Get ParseIP ParseMAC rangeOrder Unmarshal String_).

Lemma setAddress_lookup (key k : string) (address : option Address)
    (attrs : gmap string string) :
  setAddress key address attrs !! k =
    if decide (k = key) then
      match address with
      | Some a => Some (attributeOf a)
      | None => attrs !! k
      end
    else attrs !! k.
Proof.
  unfold digitalocean_fetch.setAddress. destruct address as [a|].
  - case_decide as Hk; [subst; apply lookup_insert_eq | apply lookup_insert_ne; congruence].
  - case_decide; reflexivity.
Qed.

(** The loops leave alone every key that is not one of theirs. *)
Lemma publicAttributes_other (i : nat) (ifaces : list Interface) (attrs : gmap string string)
    (k : string) :
  (forall P field j, (P, field) ∈ publicFields -> i <= j -> k <> indexedKey P j) ->
  publicAttributes i ifaces attrs !! k = attrs !! k.
Proof.
  revert i attrs. induction ifaces as [|iface rest IH]; intros i attrs Hk; [reflexivity|].
  cbn [digitalocean_fetch.publicAttributes]. rewrite IH.
  - rewrite !setAddress_lookup.
    rewrite !decide_False; [reflexivity|..]; eapply Hk; try reflexivity; unfold publicFields.
    + apply elem_of_cons. left. reflexivity.
    + apply elem_of_cons. right. apply elem_of_cons. left. reflexivity.
    + apply elem_of_cons. right. apply elem_of_cons. right. apply elem_of_cons. left. reflexivity.
  - intros P field j HP Hj. eapply Hk; [exact HP | lia].
Qed.

Lemma privateAttributes_other (i : nat) (ifaces : list Interface) (attrs : gmap string string)
    (k : string) :
  (forall P field j, (P, field) ∈ privateFields -> i <= j -> k <> indexedKey P j) ->
  privateAttributes i ifaces attrs !! k = attrs !! k.
Proof.
  revert i attrs. induction ifaces as [|iface rest IH]; intros i attrs Hk; [reflexivity|].
  cbn [digitalocean_fetch.privateAttributes]. rewrite IH.
  - rewrite !setAddress_lookup.
    rewrite !decide_False; [reflexivity|..]; eapply Hk; try reflexivity; unfold privateFields.
    + apply elem_of_cons. left. reflexivity.
    + apply elem_of_cons. right. apply elem_of_cons. left. reflexivity.
  - intros P field j HP Hj. eapply Hk; [exact HP | lia].
Qed.

Lemma in_public (P : string) (field : Interface -> option Address) :
  (P, field) ∈ publicFields -> (P, field) ∈ (publicFields ++ privateFields)%list.
Proof. intros H. apply elem_of_app. left. exact H. Qed.

Lemma in_private (P : string) (field : Interface -> option Address) :
  (P, field) ∈ privateFields -> (P, field) ∈ (publicFields ++ privateFields)%list.
Proof. intros H. apply elem_of_app. right. exact H. Qed.

Ltac listed :=
  unfold publicFields, privateFields;
  repeat first [apply elem_of_cons; left; reflexivity | apply elem_of_cons; right].

Ltac other_key :=
  let H := fresh in
  intros H; eapply indexedKey_inj in H as [? ?];
  [first [discriminate | lia] | ..];
  first [apply in_public; eassumption | apply in_private; eassumption
        | apply in_public; solve [listed] | apply in_private; solve [listed]].

Lemma publicAttributes_at (i j : nat) (ifaces : list Interface) (attrs : gmap string string)
    (P : string) (field : Interface -> option Address) :
  (P, field) ∈ publicFields ->
  publicAttributes i ifaces attrs !! indexedKey P (i + j) =
    match attributeOf <$> (ifaces !! j ≫= field) with
    | Some v => Some v
    | None => attrs !! indexedKey P (i + j)
    end.
Proof.
  intros HP. revert i j attrs. induction ifaces as [|iface rest IH]; intros i j attrs.
  - reflexivity.
  - cbn [digitalocean_fetch.publicAttributes]. destruct j as [|j].
    + rewrite !Nat.add_0_r. rewrite publicAttributes_other.
      2: { intros Q field' j HQ Hj. other_key. }
      cbn [lookup list_lookup mbind option_bind]. rewrite !setAddress_lookup.
      clear IH. unfold publicFields in HP.
      repeat (apply elem_of_cons in HP as [HP|HP]; [injection HP as -> ->|]);
        [..|apply elem_of_nil in HP; destruct HP].
      * rewrite decide_False by other_key. rewrite decide_False by other_key.
        rewrite decide_True by reflexivity. destruct (IPv4 iface); reflexivity.
      * rewrite decide_False by other_key. rewrite decide_True by reflexivity.
        rewrite decide_False by other_key. destruct (IPv6 iface); reflexivity.
      * rewrite decide_True by reflexivity.
        rewrite decide_False by other_key. rewrite decide_False by other_key.
        destruct (AnchorIPv4 iface); reflexivity.
    + replace (i + S j)%nat with (S i + j)%nat by lia. rewrite IH.
      cbn [lookup list_lookup]. replace (S i + j)%nat with (i + S j)%nat by lia.
      rewrite !setAddress_lookup.
      rewrite !decide_False; [reflexivity|..]; other_key.
Qed.

Lemma privateAttributes_at (i j : nat) (ifaces : list Interface) (attrs : gmap string string)
    (P : string) (field : Interface -> option Address) :
  (P, field) ∈ privateFields ->
  privateAttributes i ifaces attrs !! indexedKey P (i + j) =
    match attributeOf <$> (ifaces !! j ≫= field) with
    | Some v => Some v
    | None => attrs !! indexedKey P (i + j)
    end.
Proof.
  intros HP. revert i j attrs. induction ifaces as [|iface rest IH]; intros i j attrs.
  - reflexivity.
  - cbn [digitalocean_fetch.privateAttributes]. destruct j as [|j].
    + rewrite !Nat.add_0_r. rewrite privateAttributes_other.
      2: { intros Q field' j HQ Hj. other_key. }
      cbn [lookup list_lookup mbind option_bind]. rewrite !setAddress_lookup.
      clear IH. unfold privateFields in HP.
      repeat (apply elem_of_cons in HP as [HP|HP]; [injection HP as -> ->|]);
        [..|apply elem_of_nil in HP; destruct HP].
      * rewrite decide_False by other_key.
        rewrite decide_True by reflexivity. destruct (IPv4 iface); reflexivity.
      * rewrite decide_True by reflexivity.
        rewrite decide_False by other_key. destruct (IPv6 iface); reflexivity.
    + replace (i + S j)%nat with (S i + j)%nat by lia. rewrite IH.
      cbn [lookup list_lookup]. replace (S i + j)%nat with (i + S j)%nat by lia.
      rewrite !setAddress_lookup.
      rewrite !decide_False; [reflexivity|..]; other_key.
Qed.

(** The two keys that are not indexed are no indexed key. *)
Lemma indexedKey_not_scalar (P : string) (field : Interface -> option Address) (i : nat) :
  (P, field) ∈ (publicFields ++ privateFields)%list ->
  "DIGITALOCEAN_HOSTNAME" <> indexedKey P i /\ "DIGITALOCEAN_REGION" <> indexedKey P i.
Proof.
  intros HP. cbn in HP. unfold indexedKey.
  repeat (apply elem_of_cons in HP as [HP|HP]; [injection HP as -> _|]);
    [..|apply elem_of_nil in HP; destruct HP];
    split; cbn; discriminate.
Qed.

Lemma scalars_lookup (metadata : Metadata) (k : string) :
  (forall P field j, (P, field) ∈ (publicFields ++ privateFields)%list -> k <> indexedKey P j) ->
  parseAttributes metadata !! k =
    (<["DIGITALOCEAN_REGION" := Region metadata]>
       (<["DIGITALOCEAN_HOSTNAME" := Hostname metadata]> ∅) : gmap string string) !! k.
Proof.
  intros Hk. unfold digitalocean_fetch.parseAttributes.
  rewrite privateAttributes_other by (intros P field j HP _; eapply Hk, in_private, HP).
  rewrite publicAttributes_other by (intros P field j HP _; eapply Hk, in_public, HP).
  reflexivity.
Qed.

Lemma fields_disjoint (P : string) (field field' : Interface -> option Address) :
  (P, field) ∈ publicFields -> (P, field') ∈ privateFields -> False.
Proof.
  unfold publicFields, privateFields. intros HP HQ.
  repeat (apply elem_of_cons in HP as [HP|HP]; [injection HP as -> _|]);
    [..|apply elem_of_nil in HP; destruct HP];
    (repeat (apply elem_of_cons in HQ as [HQ|HQ]; [discriminate HQ|]);
     apply elem_of_nil in HQ; destruct HQ).
Qed.

(** X10. The indexed attributes of [parseAttributes]: under each public
    prefix followed by [i] there is the address of that kind of the [i]-th
    public interface, as [providers.String] prints what [net.ParseIP] makes
    of its text (an address that does not parse is printed as the nil
    address, it is no error), and no attribute when there is no such
    interface or it has no such address; likewise for the private prefixes
    and the private interfaces. The anchor address of a private interface
    gets no attribute. *)
Theorem parseAttributes_indexed (metadata : Metadata) (prefix : string)
    (field : Interface -> option Address) (i : nat) :
  ((prefix, field) ∈ publicFields ->
   parseAttributes metadata !! indexedKey prefix i =
     attributeOf <$> (Public (Interfaces_ metadata) !! i ≫= field))
  /\ ((prefix, field) ∈ privateFields ->
      parseAttributes metadata !! indexedKey prefix i =
        attributeOf <$> (Private (Interfaces_ metadata) !! i ≫= field)).
Proof.
  assert (Hbase : forall (attrs : gmap string string),
    (prefix, field) ∈ (publicFields ++ privateFields)%list ->
    attrs = <["DIGITALOCEAN_REGION" := Region metadata]>
              (<["DIGITALOCEAN_HOSTNAME" := Hostname metadata]> ∅) ->
    attrs !! indexedKey prefix i = None).
  { intros attrs HP ->. destruct (indexedKey_not_scalar _ _ i HP) as [Hh Hr].
    rewrite !lookup_insert_ne by assumption. apply lookup_empty. }
  unfold digitalocean_fetch.parseAttributes. split; intros HP.
  - rewrite privateAttributes_other.
    2: { intros Q field' j HQ _ H.
         eapply indexedKey_inj in H as [-> _];
           [eapply fields_disjoint; eassumption | apply in_public, HP | apply in_private, HQ]. }
    rewrite (publicAttributes_at 0 i _ _ _ _ HP). cbn [Nat.add].
    rewrite (Hbase _ (in_public _ _ HP) eq_refl).
    destruct (_ <$> _); reflexivity.
  - rewrite (privateAttributes_at 0 i _ _ _ _ HP). cbn [Nat.add].
    rewrite publicAttributes_other.
    2: { intros Q field' j HQ _ H.
         eapply indexedKey_inj in H as [<- _];
           [eapply fields_disjoint; eassumption | apply in_private, HP | apply in_public, HQ]. }
    rewrite (Hbase _ (in_private _ _ HP) eq_refl).
    destruct (_ <$> _); reflexivity.
Qed.

Lemma setAddress_keys (key k : string) (address : option Address) (attrs : gmap string string) :
  is_Some (setAddress key address attrs !! k) ->
  is_Some (attrs !! k) \/ (k = key /\ is_Some address).
Proof.
  rewrite setAddress_lookup. case_decide as Hk; [|auto].
  destruct address as [a|]; [|auto]. intros _. right. split; [exact Hk | eauto].
Qed.

Lemma publicAttributes_keys (i : nat) (ifaces : list Interface) (attrs : gmap string string)
    (k : string) :
  is_Some (publicAttributes i ifaces attrs !! k) ->
  is_Some (attrs !! k)
  \/ exists P field j iface,
       k = indexedKey P (i + j) /\ is_Some (field iface)
       /\ (P, field) ∈ publicFields /\ ifaces !! j = Some iface.
Proof.
  revert i attrs. induction ifaces as [|iface rest IH]; intros i attrs; [auto|].
  cbn [digitalocean_fetch.publicAttributes]. intros H.
  apply IH in H as [H|(P & field & j & d & -> & Hd & HP & Hj)].
  - apply setAddress_keys in H as [H|[-> Ha]].
    2: { right. exists "DIGITALOCEAN_IPV4_ANCHOR_", AnchorIPv4, 0, iface.
         rewrite Nat.add_0_r. repeat split; [assumption | listed]. }
    apply setAddress_keys in H as [H|[-> Ha]].
    2: { right. exists "DIGITALOCEAN_IPV6_PUBLIC_", IPv6, 0, iface.
         rewrite Nat.add_0_r. repeat split; [assumption | listed]. }
    apply setAddress_keys in H as [H|[-> Ha]]; [auto|].
    right. exists "DIGITALOCEAN_IPV4_PUBLIC_", IPv4, 0, iface.
    rewrite Nat.add_0_r. repeat split; [assumption | listed].
  - right. exists P, field, (S j), d.
    replace (i + S j)%nat with (S i + j)%nat by lia. repeat split; assumption.
Qed.

Lemma privateAttributes_keys (i : nat) (ifaces : list Interface) (attrs : gmap string string)
    (k : string) :
  is_Some (privateAttributes i ifaces attrs !! k) ->
  is_Some (attrs !! k)
  \/ exists P field j iface,
       k = indexedKey P (i + j) /\ is_Some (field iface)
       /\ (P, field) ∈ privateFields /\ ifaces !! j = Some iface.
Proof.
  revert i attrs. induction ifaces as [|iface rest IH]; intros i attrs; [auto|].
  cbn [digitalocean_fetch.privateAttributes]. intros H.
  apply IH in H as [H|(P & field & j & d & -> & Hd & HP & Hj)].
  - apply setAddress_keys in H as [H|[-> Ha]].
    2: { right. exists "DIGITALOCEAN_IPV6_PRIVATE_", IPv6, 0, iface.
         rewrite Nat.add_0_r. repeat split; [assumption | listed]. }
    apply setAddress_keys in H as [H|[-> Ha]]; [auto|].
    right. exists "DIGITALOCEAN_IPV4_PRIVATE_", IPv4, 0, iface.
    rewrite Nat.add_0_r. repeat split; [assumption | listed].
  - right. exists P, field, (S j), d.
    replace (i + S j)%nat with (S i + j)%nat by lia. repeat split; assumption.
Qed.

Lemma parseAttributes_HOSTNAME (metadata : Metadata) :
  parseAttributes metadata !! "DIGITALOCEAN_HOSTNAME" = Some (Hostname metadata).
Proof.
  rewrite scalars_lookup by (intros P field j HP; apply (indexedKey_not_scalar _ _ j HP)).
  rewrite lookup_insert_ne by discriminate. apply lookup_insert_eq.
Qed.

(** X11. [parseAttributes] always stores the hostname and the region,
    and besides these two keys it stores nothing but indexed attributes of
    interfaces that are there, for addresses they have. *)
Theorem parseAttributes_keys (metadata : Metadata) :
  parseAttributes metadata !! "DIGITALOCEAN_HOSTNAME" = Some (Hostname metadata)
  /\ parseAttributes metadata !! "DIGITALOCEAN_REGION" = Some (Region metadata)
  /\ forall k,
       is_Some (parseAttributes metadata !! k) ->
       k = "DIGITALOCEAN_HOSTNAME" \/ k = "DIGITALOCEAN_REGION"
       \/ exists prefix field i iface,
            k = indexedKey prefix i /\ is_Some (field iface)
            /\ ((prefix, field) ∈ publicFields
                /\ Public (Interfaces_ metadata) !! i = Some iface
                \/ (prefix, field) ∈ privateFields
                   /\ Private (Interfaces_ metadata) !! i = Some iface).
Proof.
  split; [apply parseAttributes_HOSTNAME|]. split.
  - rewrite scalars_lookup by (intros P field j HP; apply (indexedKey_not_scalar _ _ j HP)).
    apply lookup_insert_eq.
  - intros k H. unfold digitalocean_fetch.parseAttributes in H.
    apply privateAttributes_keys in H as [H|(P & field & j & d & -> & Hd & HP & Hj)].
    2: { right. right. exists P, field, j, d. auto. }
    apply publicAttributes_keys in H as [H|(P & field & j & d & -> & Hd & HP & Hj)].
    2: { right. right. exists P, field, j, d. auto. }
    destruct (decide (k = "DIGITALOCEAN_REGION")) as [->|Hr]; [auto|].
    rewrite lookup_insert_ne in H by congruence.
    destruct (decide (k = "DIGITALOCEAN_HOSTNAME")) as [->|Hh]; [auto|].
    rewrite lookup_insert_ne, lookup_empty in H by congruence.
    destruct H as [? [=]].
Qed.

Local Abbreviation parseNetwork := (digitalocean.parseNetwork ParseIP ParseMAC rangeOrder).

(** X12. A fetch of DigitalOcean that succeeds made one request, for
    the document, without error; the document decoded, and the record has
    its hostname, also under [DIGITALOCEAN_HOSTNAME], its attributes, the
    interfaces [parseNetwork] makes of it and its public keys. *)
Theorem digitalocean_FetchMetadata_record (log log' : list string) (md : providers.Metadata) :
  FetchMetadata log = (Ok md, log') ->
  exists m,
    (Get endpoint).2 = None
    /\ Unmarshal (stringOf (Get endpoint).1) = Ok m
    /\ log' = (log ++ [endpoint])%list
    /\ providers.Hostname md = Hostname m
    /\ providers.Attributes md !! "DIGITALOCEAN_HOSTNAME" = Some (providers.Hostname md)
    /\ providers.Attributes md = parseAttributes m
    /\ parseNetwork m = Ok (providers.Network md)
    /\ elements (providers.SshKeys md) = PublicKeys m.
Proof.
  unfold digitalocean_fetch.FetchMetadata, clientGet, mbind, M_bind, mret, M_ret.
  destruct (Get endpoint) as [body [e|]]; [discriminate|]. cbn [fst snd].
  destruct (Unmarshal (stringOf body)) as [m|e]; [|discriminate].
  destruct (parseNetwork m) as [network|e] eqn:Hnetwork; [|discriminate].
  intros [= <- <-]. exists m. cbn.
  repeat split; try reflexivity; try assumption. apply parseAttributes_HOSTNAME.
Qed.

(** X13. A document that is absent is not an empty record: the decoder
    is run on the empty text, and its error is the error of the fetch,
    after the one request. *)
Theorem digitalocean_FetchMetadata_absent_document (log : list string) (e : string) :
  absent Get endpoint ->
  Unmarshal "" = Err e ->
  FetchMetadata log = (Err (ErrUnmarshal e), (log ++ [endpoint])%list).
Proof.
  unfold absent. intros HGet Hdoc.
  unfold digitalocean_fetch.FetchMetadata, clientGet, mbind, M_bind, mret, M_ret.
  rewrite HGet. cbn [stringOf default from_option id]. rewrite Hdoc. reflexivity.
Qed.

End Provider.

(** *** On the sample droplet *)

Lemma parseAttributes_indexed_witness :
  digitalocean_fetch.parseAttributes GoNet.ParseIP sampleString
    (sampleMetadata [samplePublic] [samplePrivate] [])
    !! indexedKey "DIGITALOCEAN_IPV4_ANCHOR_" 0
  = Some "10.17.0.9".
Proof.
  refine (proj1 (parseAttributes_indexed GoNet.ParseIP sampleString _
                   "DIGITALOCEAN_IPV4_ANCHOR_" AnchorIPv4 0) _).
  apply elem_of_cons. right. apply elem_of_cons. right. apply elem_of_cons. left. reflexivity.
Defined.

Lemma digitalocean_FetchMetadata_record_witness :
  exists md log',
    digitalocean_fetch.FetchMetadata sampleDigitalOcean GoNet.ParseIP GoNet.ParseMAC map_to_list
      sampleDecode sampleString [] = (Ok md, log')
    /\ exists m,
         (sampleDigitalOcean endpoint).2 = None
         /\ sampleDecode (stringOf (sampleDigitalOcean endpoint).1) = Ok m
         /\ log' = ([] ++ [endpoint])%list
         /\ providers.Hostname md = Hostname m
         /\ providers.Attributes md !! "DIGITALOCEAN_HOSTNAME" = Some (providers.Hostname md)
         /\ providers.Attributes md
              = digitalocean_fetch.parseAttributes GoNet.ParseIP sampleString m
         /\ digitalocean.parseNetwork GoNet.ParseIP GoNet.ParseMAC map_to_list m
              = Ok (providers.Network md)
         /\ elements (providers.SshKeys md) = PublicKeys m.
Proof.
  eexists _, _. split; [reflexivity|].
  apply (digitalocean_FetchMetadata_record sampleDigitalOcean GoNet.ParseIP GoNet.ParseMAC
           map_to_list sampleDecode sampleString []).
  reflexivity.
Defined.

Lemma digitalocean_FetchMetadata_absent_document_witness :
  digitalocean_fetch.FetchMetadata (service []) GoNet.ParseIP GoNet.ParseMAC map_to_list
    sampleDecode sampleString []
  = (Err (ErrUnmarshal "unexpected end of JSON input"), [endpoint]).
Proof.
  apply (digitalocean_FetchMetadata_absent_document (service []) GoNet.ParseIP GoNet.ParseMAC
           map_to_list sampleDecode sampleString []).
  - exact eq_refl.
  - reflexivity.
Defined.

End digitalocean_fetch_props.

(** ** The addresses, keys and attributes of GCE *)

Module gce_fetch_props.

Import fetch gce keyspec strings_props gce_props.

Section Keys.

Context (Get : string -> option string * option string).

Local Abbreviation url key := (String.append endpoint key).
Local Abbreviation fetchSshKeys := (gce.fetchSshKeys Get).
Local Abbreviation fetchAllSshKeys := (gce.fetchAllSshKeys Get).
Local Abbreviation bodyOf key := (gceBody Get key).

Lemma gce_fetchSshKeys_bodies (prefix : string) (log : list string) :
  (Get (url prefix)).2 = None ->
  wellFormed (bodyOf prefix) ->
  exists keys,
    fetchSshKeys prefix log = (Ok keys, (log ++ [url prefix])%list)
    /\ bodiesOf (bodyOf prefix) (elements keys)
    /\ (keys = None <-> bodyOf prefix = "").
Proof.
  intros Herr Hlines. unfold gceBody in Hlines |- *. rewrite gce_fetchSshKeys_eq, Herr.
  destruct (stringOf (Get (url prefix)).1) as [|c keydata] eqn:Hbody.
  - exists None. split; [reflexivity|]. split; [constructor | tauto].
  - cbn [String.length Nat.ltb Nat.leb].
    destruct (keysLoop_bodies _ [] Hlines) as (bodies & -> & Hbodies).
    exists (Some bodies). split; [reflexivity|]. split; [exact Hbodies|].
    split; discriminate.
Qed.

(** X15. A deprecated instance listing [instance/attributes/sshKeys]
    that is not empty shadows everything else: [fetchAllSshKeys] returns
    its key bodies, none when it has only empty lines, after this one
    request; the current instance listing, the blocking flag and the
    project listing are not requested. *)
Theorem fetchAllSshKeys_deprecated_listing_shadows (log : list string) :
  (Get (url "instance/attributes/sshKeys")).2 = None ->
  bodyOf "instance/attributes/sshKeys" <> "" ->
  wellFormed (bodyOf "instance/attributes/sshKeys") ->
  exists keys,
    fetchAllSshKeys log
      = (Ok (Some keys), (log ++ [url "instance/attributes/sshKeys"])%list)
    /\ bodiesOf (bodyOf "instance/attributes/sshKeys") keys.
Proof.
  intros Herr Hne Hlines.
  destruct (gce_fetchSshKeys_bodies _ log Herr Hlines) as (keys & Hfetch & Hbodies & Hnil).
  unfold gce.fetchAllSshKeys. unfold mbind at 1. unfold M_bind. rewrite Hfetch.
  destruct keys as [keys|]; [|destruct Hne; apply Hnil; reflexivity].
  exists keys. split; [reflexivity | exact Hbodies].
Qed.

Lemma fetchAllSshKeys_no_deprecated (log : list string) :
  (Get (url "instance/attributes/sshKeys")).2 = None ->
  bodyOf "instance/attributes/sshKeys" = "" ->
  (Get (url "instance/attributes/ssh-keys")).2 = None ->
  wellFormed (bodyOf "instance/attributes/ssh-keys") ->
  (Get (url "instance/attributes/block-project-ssh-keys")).2 = None ->
  exists instanceSshKeys,
    bodiesOf (bodyOf "instance/attributes/ssh-keys") (elements instanceSshKeys)
    /\ fetchAllSshKeys log =
         let log3 := (log ++ take 3 keyRequests)%list in
         match GoStrconv.ParseBool (bodyOf "instance/attributes/block-project-ssh-keys") with
         | Some true => (Ok instanceSshKeys, log3)
         | _ =>
             let '(projectSshKeys, log4) := fetchSshKeys "project/attributes/sshKeys" log3 in
             (match projectSshKeys with
              | Err e => Err (ErrKeys e)
              | Ok projectSshKeys => Ok (appendSlice instanceSshKeys projectSshKeys)
              end, log4)
         end.
Proof.
  intros Hdep Hempty Hinst Hlines Hblock.
  destruct (gce_fetchSshKeys_bodies _ (log ++ [url "instance/attributes/sshKeys"]) Hinst Hlines)
    as (ikeys & Hfetch & Hbodies & _).
  exists ikeys. split; [exact Hbodies|].
  unfold gce.fetchAllSshKeys. unfold mbind at 1. unfold M_bind.
  rewrite gce_fetchSshKeys_eq, Hdep. unfold gceBody in Hempty. rewrite Hempty.
  cbn [String.length Nat.ltb Nat.leb].
  unfold mbind at 1. unfold M_bind. rewrite Hfetch. clear Hfetch.
  unfold mbind at 1. unfold M_bind. rewrite gce_fetchString_eq, Hblock.
  fold (bodyOf "instance/attributes/block-project-ssh-keys").
  cbn [take keyRequests fmap list_fmap]. rewrite <- !app_assoc. cbn [app].
  destruct (GoStrconv.ParseBool _) as [[|]|]; try reflexivity.
  - unfold mbind, M_bind. destruct (fetchSshKeys _ _) as [[p|e] l]; reflexivity.
  - unfold mbind, M_bind. destruct (fetchSshKeys _ _) as [[p|e] l]; reflexivity.
Qed.

(** X16. With no deprecated listing, and unless the blocking flag is
    one of the spellings [strconv.ParseBool] reads as true, the keys
    returned are the key bodies of the instance listing followed by those
    of the project listing, after four requests in a fixed order. A flag
    that is no boolean does not block. *)
Theorem fetchAllSshKeys_instance_then_project (log : list string) :
  (forall u, u ∈ keyRequests -> (Get u).2 = None) ->
  bodyOf "instance/attributes/sshKeys" = "" ->
  wellFormed (bodyOf "instance/attributes/ssh-keys") ->
  GoStrconv.ParseBool (bodyOf "instance/attributes/block-project-ssh-keys") <> Some true ->
  wellFormed (bodyOf "project/attributes/sshKeys") ->
  exists keys instanceSshKeys projectSshKeys,
    fetchAllSshKeys log = (Ok keys, (log ++ keyRequests)%list)
    /\ elements keys = (instanceSshKeys ++ projectSshKeys)%list
    /\ bodiesOf (bodyOf "instance/attributes/ssh-keys") instanceSshKeys
    /\ bodiesOf (bodyOf "project/attributes/sshKeys") projectSshKeys.
Proof.
  intros Hok Hempty Hinst Hflag Hproj.
  assert (Hreq : Forall (fun u => (Get u).2 = None) keyRequests)
    by (apply Forall_forall; exact Hok).
  unfold keyRequests in Hreq. cbn [fmap list_fmap] in Hreq.
  apply Forall_cons in Hreq as [H1 Hreq]. apply Forall_cons in Hreq as [H2 Hreq].
  apply Forall_cons in Hreq as [H3 Hreq]. apply Forall_cons in Hreq as [H4 _].
  destruct (fetchAllSshKeys_no_deprecated log H1 Hempty H2 Hinst H3)
    as (ikeys & Hikeys & ->).
  destruct (gce_fetchSshKeys_bodies _ (log ++ take 3 keyRequests) H4 Hproj)
    as (pkeys & Hfetch & Hpkeys & _).
  exists (appendSlice ikeys pkeys), (elements ikeys), (elements pkeys).
  split; [|split; [|split; assumption]].
  - cbn zeta. rewrite Hfetch.
    replace (log ++ keyRequests)%list
      with ((log ++ take 3 keyRequests) ++ [url "project/attributes/sshKeys"])%list
      by (rewrite <- app_assoc; reflexivity).
    destruct (GoStrconv.ParseBool _) as [[|]|]; [congruence | reflexivity | reflexivity].
  - unfold appendSlice. destruct (elements pkeys); [rewrite app_nil_r|]; reflexivity.
Qed.

(** X17. When the blocking flag reads as true, [fetchAllSshKeys]
    returns the keys of the instance listing after three requests: the
    project listing is not requested, so nothing in it can fail the
    fetch. *)
Theorem fetchAllSshKeys_block_project_keys (log : list string) :
  (forall u, u ∈ take 3 keyRequests -> (Get u).2 = None) ->
  bodyOf "instance/attributes/sshKeys" = "" ->
  wellFormed (bodyOf "instance/attributes/ssh-keys") ->
  GoStrconv.ParseBool (bodyOf "instance/attributes/block-project-ssh-keys") = Some true ->
  exists keys,
    fetchAllSshKeys log = (Ok keys, (log ++ take 3 keyRequests)%list)
    /\ bodiesOf (bodyOf "instance/attributes/ssh-keys") (elements keys).
Proof.
  intros Hok Hempty Hinst Hflag.
  assert (Hreq : Forall (fun u => (Get u).2 = None) (take 3 keyRequests))
    by (apply Forall_forall; exact Hok).
  unfold keyRequests in Hreq. cbn [fmap list_fmap take] in Hreq.
  apply Forall_cons in Hreq as [H1 Hreq]. apply Forall_cons in Hreq as [H2 Hreq].
  apply Forall_cons in Hreq as [H3 _].
  destruct (fetchAllSshKeys_no_deprecated log H1 Hempty H2 Hinst H3)
    as (ikeys & Hikeys & ->).
  exists ikeys. rewrite Hflag. split; [reflexivity | exact Hikeys].
Qed.

End Keys.

Section Provider.

Context (Get : string -> option string * option string).
Context (ParseIP : string -> option GoNet.IP).
Context (String_ : option GoNet.IP -> string).

Local Abbreviation url key := (String.append endpoint key).
Local Abbreviation fetchIP := (gce.fetchIP Get ParseIP).
Local Abbreviation fetchAllSshKeys := (gce.fetchAllSshKeys Get).
Local Abbreviation FetchMetadata := (gce.FetchMetadata Get ParseIP String_).
Local Abbreviation bodyOf key := (gceBody Get key).
Local Abbreviation addressOf key := (gceAddressOf Get ParseIP key).

Lemma present_iff (s : string) : (0 <? String.length s)%nat = negb (String.eqb s "").
Proof. destruct s; reflexivity. Qed.

Lemma gce_fetchIP_eq (key : string) (log : list string) :
  fetchIP key log =
    (match (Get (url key)).2 with
     | Some e => Err (ErrClient e)
     | None =>
         if String.eqb (bodyOf key) "" then Ok None
         else match ParseIP (bodyOf key) with
              | Some ip => Ok (Some ip)
              | None => Err (ErrParseIP (bodyOf key))
              end
     end, (log ++ [url key])%list).
Proof.
  unfold gce.fetchIP. unfold mbind at 1. unfold M_bind.
  rewrite gce_fetchString_eq, present_iff. fold (bodyOf key).
  destruct (Get (url key)).2; [reflexivity|].
  destruct (String.eqb (bodyOf key) ""); cbn [negb]; [reflexivity|].
  destruct (ParseIP (bodyOf key)); reflexivity.
Qed.

(** X14. [fetchIP] of GCE takes an empty body for an address that is
    not there: it returns the nil address and no error, and the body is not
    parsed. A body that is not empty and does not parse is an error. *)
Theorem gce_fetchIP_empty_body_is_absent (key : string) (log : list string) :
  (Get (url key)).2 = None ->
  (bodyOf key = "" -> fetchIP key log = (Ok None, (log ++ [url key])%list))
  /\ (bodyOf key <> "" -> ParseIP (bodyOf key) = None ->
      fetchIP key log = (Err (ErrParseIP (bodyOf key)), (log ++ [url key])%list)).
Proof.
  intros Herr. rewrite gce_fetchIP_eq, Herr. split.
  - intros ->. reflexivity.
  - intros Hne ->. apply String.eqb_neq in Hne. rewrite Hne. reflexivity.
Qed.

(** X18. The record of a GCE fetch that succeeds has exactly the three
    attributes [GCE_HOSTNAME], [GCE_IP_EXTERNAL_0] and [GCE_IP_LOCAL_0]: an
    address the service has no value for is kept, printed as the nil
    address, not left out. Its hostname is the body of [instance/hostname]
    and it has no interface. *)
Theorem gce_FetchMetadata_attributes (log log' : list string) (md : providers.Metadata) :
  FetchMetadata log = (Ok md, log') ->
  providers.Attributes md !! "GCE_HOSTNAME" = Some (bodyOf "instance/hostname")
  /\ providers.Attributes md !! "GCE_IP_EXTERNAL_0"
       = Some (String_ (addressOf "instance/network-interfaces/0/access-configs/0/external-ip"))
  /\ providers.Attributes md !! "GCE_IP_LOCAL_0"
       = Some (String_ (addressOf "instance/network-interfaces/0/ip"))
  /\ (forall k, is_Some (providers.Attributes md !! k) ->
                k ∈ ["GCE_HOSTNAME"; "GCE_IP_EXTERNAL_0"; "GCE_IP_LOCAL_0"])
  /\ providers.Hostname md = bodyOf "instance/hostname"
  /\ providers.Network md = [].
Proof.
  unfold gce.FetchMetadata, gceAddressOf.
  unfold mbind at 1. unfold M_bind. rewrite gce_fetchIP_eq.
  destruct (Get (url "instance/network-interfaces/0/access-configs/0/external-ip")).2;
    [discriminate|].
  destruct (String.eqb (bodyOf "instance/network-interfaces/0/access-configs/0/external-ip") "").
  all: try destruct (ParseIP (bodyOf "instance/network-interfaces/0/access-configs/0/external-ip"));
    try discriminate.
  all: unfold mbind at 1; unfold M_bind; rewrite gce_fetchIP_eq;
    (destruct (Get (url "instance/network-interfaces/0/ip")).2; [discriminate|]);
    destruct (String.eqb (bodyOf "instance/network-interfaces/0/ip") "");
    try destruct (ParseIP (bodyOf "instance/network-interfaces/0/ip"));
    try discriminate.
  all: unfold mbind at 1; unfold M_bind; rewrite gce_fetchString_eq;
    fold (bodyOf "instance/hostname");
    (destruct (Get (url "instance/hostname")).2; [discriminate|]);
    unfold mbind at 1; unfold M_bind;
    (destruct (fetchAllSshKeys _) as [[sshKeys|e] l]; [|discriminate]);
    intros [= <- <-]; cbn [providers.Attributes providers.Hostname providers.Network].
  all: split; [apply lookup_insert_eq|];
    (split; [rewrite lookup_insert_ne by discriminate; apply lookup_insert_eq|]);
    (split; [rewrite !lookup_insert_ne by discriminate; apply lookup_insert_eq|]);
    (split; [|split; reflexivity]).
  all: intros k Hk;
    destruct (decide (k = "GCE_HOSTNAME")) as [->|H1];
      [apply elem_of_cons; left; reflexivity|];
    destruct (decide (k = "GCE_IP_EXTERNAL_0")) as [->|H2];
      [apply elem_of_cons; right; apply elem_of_cons; left; reflexivity|];
    destruct (decide (k = "GCE_IP_LOCAL_0")) as [->|H3];
      [apply elem_of_cons; right; apply elem_of_cons; right; apply elem_of_cons; left;
       reflexivity|];
    rewrite !lookup_insert_ne, lookup_empty in Hk by congruence;
    destruct Hk as [? [=]].
Qed.

End Provider.

(** *** On the sample services *)

Ltac lines_well_formed :=
  unfold wellFormed, gceBody;
  match goal with
  | |- Forall ?P ?lines =>
      let lines' := eval vm_compute in lines in
      replace lines with lines' by (vm_compute; reflexivity)
  end;
  repeat (constructor; [first [left; reflexivity | right; reflexivity]|]); constructor.

Lemma gce_fetchIP_empty_body_is_absent_witness :
  gce.fetchIP sampleGCEProject GoNet.ParseIP
    "instance/network-interfaces/0/access-configs/0/external-ip" []
  = (Ok None,
     [gce.endpoint ++ "instance/network-interfaces/0/access-configs/0/external-ip"])
  /\ gce.fetchIP sampleGCEProject GoNet.ParseIP "instance/hostname" []
     = (Err (ErrParseIP "vm-1.internal"), [gce.endpoint ++ "instance/hostname"]).
Proof.
  split.
  - apply (proj1 (gce_fetchIP_empty_body_is_absent sampleGCEProject GoNet.ParseIP
                    "instance/network-interfaces/0/access-configs/0/external-ip" []
                    eq_refl)).
    reflexivity.
  - apply (proj2 (gce_fetchIP_empty_body_is_absent sampleGCEProject GoNet.ParseIP
                    "instance/hostname" [] eq_refl)).
    + discriminate.
    + reflexivity.
Defined.

Lemma fetchAllSshKeys_deprecated_listing_shadows_witness :
  exists keys,
    gce.fetchAllSshKeys sampleGCEDeprecated []
      = (Ok (Some keys), [gce.endpoint ++ "instance/attributes/sshKeys"])
    /\ bodiesOf "old:ssh-rsa OLD" keys.
Proof.
  apply (fetchAllSshKeys_deprecated_listing_shadows sampleGCEDeprecated []).
  - reflexivity.
  - discriminate.
  - lines_well_formed.
Defined.

Lemma fetchAllSshKeys_instance_then_project_witness :
  exists keys instanceSshKeys projectSshKeys,
    gce.fetchAllSshKeys sampleGCEProject [] = (Ok keys, keyRequests)
    /\ elements keys = (instanceSshKeys ++ projectSshKeys)%list
    /\ bodiesOf sampleFormatC instanceSshKeys
    /\ bodiesOf "carol:ssh-rsa CCCC" projectSshKeys.
Proof.
  apply (fetchAllSshKeys_instance_then_project sampleGCEProject []).
  - intros u _. apply service_no_error.
  - reflexivity.
  - lines_well_formed.
  - discriminate.
  - lines_well_formed.
Defined.

Lemma fetchAllSshKeys_block_project_keys_witness :
  exists keys,
    gce.fetchAllSshKeys sampleGCEBlocked [] = (Ok keys, take 3 keyRequests)
    /\ bodiesOf sampleFormatC (elements keys).
Proof.
  apply (fetchAllSshKeys_block_project_keys sampleGCEBlocked []).
  - intros u _. apply service_no_error.
  - reflexivity.
  - lines_well_formed.
  - reflexivity.
Defined.

Lemma gce_FetchMetadata_attributes_witness :
  exists md log',
    gce.FetchMetadata sampleGCEProject GoNet.ParseIP sampleString [] = (Ok md, log')
    /\ providers.Attributes md !! "GCE_HOSTNAME" = Some "vm-1.internal"
    /\ providers.Attributes md !! "GCE_IP_EXTERNAL_0" = Some (sampleString None)
    /\ providers.Attributes md !! "GCE_IP_LOCAL_0" = Some "10.0.0.5"
    /\ (forall k, is_Some (providers.Attributes md !! k) ->
                  k ∈ ["GCE_HOSTNAME"; "GCE_IP_EXTERNAL_0"; "GCE_IP_LOCAL_0"])
    /\ providers.Hostname md = "vm-1.internal"
    /\ providers.Network md = [].
Proof.
  eexists _, _. split; [reflexivity|].
  eapply (gce_FetchMetadata_attributes sampleGCEProject GoNet.ParseIP sampleString []).
  reflexivity.
Defined.

End gce_fetch_props.

(** ** The keys and the record of OpenStack *)

Module openstack_props.

Import fetch openstack keyspec strings_props attributes_props.

Lemma Split_length (s : string) (sep : ascii) :
  length (GoStrings.Split s sep) = S (occurrences s sep).
Proof.
  induction s as [|c s IH]; [reflexivity|]. simpl.
  destruct (Ascii.eqb c sep); simpl; [rewrite IH; reflexivity|].
  destruct (GoStrings.Split s sep); simpl in IH |- *; lia.
Qed.

Lemma Split_none (s : string) (sep : ascii) :
  GoStrings.contains s sep = false -> GoStrings.Split s sep = [s].
Proof.
  induction s as [|c s IH]; [reflexivity|]. simpl.
  destruct (Ascii.eqb c sep); simpl; [discriminate|].
  intros H. rewrite (IH H). reflexivity.
Qed.

Lemma Split_entry (sep : ascii) (before after : string) :
  GoStrings.contains before sep = false ->
  GoStrings.Split (before ++ String sep after) sep = before :: GoStrings.Split after sep.
Proof.
  induction before as [|c before IH]; simpl.
  - intros _. rewrite Ascii.eqb_refl. reflexivity.
  - destruct (Ascii.eqb c sep); simpl; [discriminate|].
    intros H. rewrite (IH H). reflexivity.
Qed.

Lemma Split_hd (s : string) (sep : ascii) :
  GoStrings.Split s sep = List.hd "" (GoStrings.Split s sep) :: List.tl (GoStrings.Split s sep).
Proof.
  pose proof (Split_length s sep) as H. destruct (GoStrings.Split s sep); [discriminate|].
  reflexivity.
Qed.

Section Provider.

Context (Get : string -> option string * option string).
Context (pathJoin : list string -> string).

Local Abbreviation url key := (String.append metadataEndpoint key).
Local Abbreviation fetchMetadata := (openstack.fetchMetadata Get).
Local Abbreviation fetchKeys := (openstack.fetchKeys Get pathJoin).
Local Abbreviation FetchMetadata := (openstack.FetchMetadata Get pathJoin).
Local Abbreviation keyURL keyNum := (url (pathJoin ["public-keys"; keyNum; "openssh-key"])).

(** What [fetchKeys] does with a listing that is there. *)
Lemma fetchKeys_present (blob : string) (log : list string) :
  Get (url "public-keys") = (Some blob, None) ->
  blob <> "" ->
  fetchKeys log =
    match GoStrings.Split (firstLine blob) "="%char with
    | [keyNum; _] =>
        (match (Get (keyURL keyNum)).2 with
         | Some e => Err (ErrClient e)
         | None =>
             match (Get (keyURL keyNum)).1 with
             | None => Err (ErrFetchingKey (firstLine blob))
             | Some key =>
                 if String.eqb key "" then Err (ErrFetchingKey (firstLine blob))
                 else Ok (Some [key])
             end
         end, (log ++ [url "public-keys"; keyURL keyNum])%list)
    | _ => (Err (ErrParsingKeyID (firstLine blob)), (log ++ [url "public-keys"])%list)
    end.
Proof.
  intros HGet Hne. apply String.eqb_neq in Hne.
  unfold openstack.fetchKeys. unfold mbind at 1. unfold M_bind.
  rewrite openstack_fetchMetadata_eq, HGet. cbn [fst snd stringOf default from_option id].
  rewrite bool_decide_eq_true_2 by eauto. rewrite Hne. cbn [negb orb].
  unfold firstLine. rewrite (Split_hd blob).
  cbn [List.hd].
  set (keyID := List.hd "" (GoStrings.Split blob GoBufio.newline)).
  destruct (GoStrings.Split keyID "="%char) as [|keyNum [|name [|? ?]]]; try reflexivity.
  unfold mbind, M_bind. rewrite openstack_fetchMetadata_eq.
  rewrite <- app_assoc. cbn [app].
  destruct (Get (keyURL keyNum)) as [[key|] [e|]]; cbn [fst snd]; try reflexivity.
  rewrite bool_decide_eq_true_2 by eauto. cbn [negb orb stringOf default from_option id].
  destruct (String.eqb key ""); reflexivity.
Qed.

Lemma firstLine_entry (blob num name : string) :
  entryOf "="%char (firstLine blob) num name -> blob <> "".
Proof. intros [H _] ->. destruct num; discriminate. Qed.

(** X19. [fetchKeys] of OpenStack reads the first entry of the listing
    only: when that entry is an index, an equals sign and a name, and the
    key body of that index is there and not empty, the keys returned are
    that one body, after two requests. The entries after the first are not
    looked at, whatever they are. *)
Theorem fetchKeys_reads_only_the_first_entry (blob num name key : string)
    (log : list string) :
  Get (url "public-keys") = (Some blob, None) ->
  entryOf "="%char (firstLine blob) num name ->
  GoStrings.contains name "="%char = false ->
  Get (keyURL num) = (Some key, None) ->
  key <> "" ->
  fetchKeys log = (Ok (Some [key]), (log ++ [url "public-keys"; keyURL num])%list).
Proof.
  intros HGet Hentry Hname Hkey Hne.
  rewrite (fetchKeys_present blob log HGet (firstLine_entry _ _ _ Hentry)).
  destruct Hentry as [-> Hnum].
  rewrite (Split_entry _ _ _ Hnum), (Split_none _ _ Hname), Hkey. cbn [fst snd].
  apply String.eqb_neq in Hne. rewrite Hne. reflexivity.
Qed.

(** X20. A key body that is absent or empty makes [fetchKeys] of
    OpenStack fail with the error that names the entry; it is not returned
    as an empty key. *)
Theorem fetchKeys_missing_key_body_is_an_error (blob num name : string)
    (log : list string) :
  Get (url "public-keys") = (Some blob, None) ->
  entryOf "="%char (firstLine blob) num name ->
  GoStrings.contains name "="%char = false ->
  (Get (keyURL num)).2 = None ->
  stringOf (Get (keyURL num)).1 = "" ->
  fetchKeys log =
    (Err (ErrFetchingKey (firstLine blob)), (log ++ [url "public-keys"; keyURL num])%list).
Proof.
  intros HGet Hentry Hname Herr Hbody.
  rewrite (fetchKeys_present blob log HGet (firstLine_entry _ _ _ Hentry)).
  destruct Hentry as [Hline Hnum]. rewrite Hline at 1.
  rewrite (Split_entry _ _ _ Hnum), (Split_none _ _ Hname), Herr.
  destruct (Get (keyURL num)).1 as [key|]; [|reflexivity].
  simpl in Hbody. rewrite Hbody. reflexivity.
Qed.

(** X21. The first entry must have exactly one equals sign: one with
    none, or with more than one, makes [fetchKeys] fail with the parsing
    error after the request for the listing, and no key body is
    requested. *)
Theorem fetchKeys_first_entry_needs_one_equals_sign (blob : string) (log : list string) :
  Get (url "public-keys") = (Some blob, None) ->
  blob <> "" ->
  occurrences (firstLine blob) "="%char <> 1 ->
  fetchKeys log = (Err (ErrParsingKeyID (firstLine blob)), (log ++ [url "public-keys"])%list).
Proof.
  intros HGet Hne Hcount. rewrite (fetchKeys_present blob log HGet Hne).
  pose proof (Split_length (firstLine blob) "="%char) as Hlen.
  destruct (GoStrings.Split (firstLine blob) "="%char) as [|keyNum [|name [|? ?]]];
    try reflexivity.
  simpl in Hlen. lia.
Qed.

Lemma fetchKeys_at_most_one (log log' : list string) (keys : option (list string)) :
  fetchKeys log = (Ok keys, log') -> length (elements keys) <= 1.
Proof.
  unfold openstack.fetchKeys. unfold mbind at 1. unfold M_bind.
  rewrite openstack_fetchMetadata_eq. cbn [fst snd].
  destruct (Get (url "public-keys")).2; [discriminate|].
  destruct (_ || _)%bool; [intros [= <- _]; simpl; lia|].
  destruct (GoStrings.Split _ GoBufio.newline) as [|keyID others];
    [intros [= <- _]; simpl; lia|].
  destruct (GoStrings.Split keyID "="%char) as [|keyNum [|name [|? ?]]]; try discriminate.
  unfold mbind, M_bind. rewrite openstack_fetchMetadata_eq. cbn [fst snd].
  destruct (Get (keyURL keyNum)).2; [discriminate|].
  destruct (_ || _)%bool; [discriminate|]. intros [= <- _]. simpl. lia.
Qed.

Lemma openstack_FetchMetadata_Ok (log log' : list string) (md : providers.Metadata) :
  FetchMetadata log = (Ok md, log') ->
  exists keys l l',
    fetchKeys l = (Ok keys, l')
    /\ md = {| providers.Attributes := providers.Attributes md;
               providers.Hostname := "";
               providers.Network := [];
               providers.SshKeys := keys |}.
Proof.
  unfold openstack.FetchMetadata.
  repeat (unfold mbind at 1; unfold M_bind; rewrite fetchAndSet_eq;
          destruct (Get (url _)).2; [discriminate|];
          destruct (Get (url _)).1 as [?body|]; [destruct (String.eqb _ "")|]).
  all: unfold mbind, M_bind;
    match goal with |- context [openstack.fetchKeys Get pathJoin ?l] =>
      destruct (fetchKeys l) as [[keys|e] l'] eqn:Hkeys end;
    [intros [= <- _]; eauto | discriminate].
Qed.

Lemma stored_values (key attrKey : string) (attributes : gmap string string)
    (P : string -> string -> Prop) :
  (forall k v, attributes !! k = Some v -> P k v) ->
  (forall v, v <> "" -> P attrKey v) ->
  forall k v, stored Get key attrKey attributes !! k = Some v -> P k v.
Proof.
  intros Hattrs Hnew k v. unfold stored.
  destruct (Get (url key)).1 as [body|]; [|apply Hattrs].
  destruct (String.eqb body "") eqn:Hbody; [apply Hattrs|].
  apply String.eqb_neq in Hbody.
  destruct (decide (k = attrKey)) as [->|Hne].
  - rewrite lookup_insert_eq. intros [= <-]. apply Hnew, Hbody.
  - rewrite lookup_insert_ne by congruence. apply Hattrs.
Qed.

(** X22. The record of an OpenStack fetch that succeeds has an empty
    [Hostname] and no interface, at most one key, and attributes only under
    the four OpenStack keys, none with an empty value. *)
Theorem openstack_FetchMetadata_record (log log' : list string)
    (md : providers.Metadata) :
  FetchMetadata log = (Ok md, log') ->
  providers.Hostname md = ""
  /\ providers.Network md = []
  /\ length (elements (providers.SshKeys md)) <= 1
  /\ (forall k v, providers.Attributes md !! k = Some v ->
                  k ∈ openstackScalars.*2 /\ v <> "").
Proof.
  intros Hfetch.
  destruct (openstack_FetchMetadata_Ok _ _ _ Hfetch) as (keys & l & l' & Hkeys & Hmd).
  rewrite Hmd. cbn [providers.Hostname providers.Network providers.SshKeys providers.Attributes].
  split; [reflexivity|]. split; [reflexivity|].
  split; [exact (fetchKeys_at_most_one _ _ _ Hkeys)|].
  rewrite (FetchMetadata_attributes _ _ _ _ _ Hfetch).
  repeat (apply stored_values;
          [|intros v Hv; split; [|exact Hv]; unfold openstackScalars; cbn;
            repeat first [apply elem_of_cons; left; reflexivity | apply elem_of_cons; right]]).
  intros k v Hk. rewrite lookup_empty in Hk. discriminate.
Qed.

End Provider.

(** *** On the sample services *)

Lemma fetchKeys_reads_only_the_first_entry_witness :
  openstack.fetchKeys sampleOpenStackKeys samplePathJoin []
  = (Ok (Some ["ssh-rsa AAAA0 deploy"]),
     [metadataEndpoint ++ "public-keys"; metadataEndpoint ++ "public-keys/0/openssh-key"]).
Proof.
  apply (fetchKeys_reads_only_the_first_entry sampleOpenStackKeys samplePathJoin
           ("0=deploy" ++ lf ++ "1=backup") "0" "deploy" "ssh-rsa AAAA0 deploy" []).
  - reflexivity.
  - split; reflexivity.
  - reflexivity.
  - reflexivity.
  - discriminate.
Defined.

Lemma fetchKeys_missing_key_body_is_an_error_witness :
  openstack.fetchKeys sampleOpenStackMissing samplePathJoin []
  = (Err (ErrFetchingKey "0=deploy"),
     [metadataEndpoint ++ "public-keys"; metadataEndpoint ++ "public-keys/0/openssh-key"]).
Proof.
  apply (fetchKeys_missing_key_body_is_an_error sampleOpenStackMissing samplePathJoin
           "0=deploy" "0" "deploy" []).
  - reflexivity.
  - split; reflexivity.
  - reflexivity.
  - reflexivity.
  - reflexivity.
Defined.

Lemma fetchKeys_first_entry_needs_one_equals_sign_witness :
  openstack.fetchKeys sampleOpenStackTwoEquals samplePathJoin []
  = (Err (ErrParsingKeyID "0=deploy=old"), [metadataEndpoint ++ "public-keys"]).
Proof.
  apply (fetchKeys_first_entry_needs_one_equals_sign sampleOpenStackTwoEquals samplePathJoin
           "0=deploy=old" []).
  - reflexivity.
  - discriminate.
  - vm_compute. discriminate.
Defined.

Lemma openstack_FetchMetadata_record_witness :
  exists md log',
    openstack.FetchMetadata sampleOpenStackKeys samplePathJoin [] = (Ok md, log')
    /\ providers.Attributes md !! "OPENSTACK_HOSTNAME" = Some "web-1"
    /\ providers.Hostname md = ""
    /\ providers.Network md = []
    /\ length (elements (providers.SshKeys md)) <= 1
    /\ (forall k v, providers.Attributes md !! k = Some v ->
                    k ∈ openstackScalars.*2 /\ v <> "").
Proof.
  eexists _, _. split; [reflexivity|]. split; [reflexivity|].
  eapply (openstack_FetchMetadata_record sampleOpenStackKeys samplePathJoin []).
  reflexivity.
Defined.

End openstack_props.

(** ** The addresses, keys and record of EC2 *)

Module ec2_fetch_props.

Import fetch ec2 keyspec strings_props ec2_props attributes_props.

Section Provider.

Context (Get : string -> option string * option string).
Context (ParseIP : string -> option GoNet.IP).
Context (String_ : option GoNet.IP -> string).
Context (Unmarshal : string -> result string instanceIdDoc).
Context (rangeOrder : gmap string string -> list (string * string)).

Hypothesis rangeOrder_perm : forall m, rangeOrder m ≡ₚ map_to_list m.

Local Abbreviation url key := (String.append endpoint key).
Local Abbreviation fetchString := (ec2.fetchString Get).
Local Abbreviation fetchIP := (ec2.fetchIP Get ParseIP).
Local Abbreviation fetchKeyBodies := (ec2.fetchKeyBodies Get).
Local Abbreviation fetchSshKeys := (ec2.fetchSshKeys Get rangeOrder).
Local Abbreviation FetchMetadata :=
  (ec2.FetchMetadata Get ParseIP String_ Unmarshal rangeOrder).
Local Abbreviation bodyOf key := (stringOf (Get (url key)).1).
Local Abbreviation addressOf := (keyspec.addressOf Get ParseIP).
Local Abbreviation attributesOf := (keyspec.attributesOf Get ParseIP String_).

(** X23. [fetchIP] of EC2 parses whatever body is there: an address
    that is present with an empty body is a parse error (the text that
    does not parse being the empty one), where an absent one is the nil
    address. *)
Theorem ec2_fetchIP_empty_body_is_a_parse_error (key : string) (log : list string) :
  Get (url key) = (Some "", None) ->
  ParseIP "" = None ->
  fetchIP key log = (Err (ErrParseIP ""), (log ++ [url key])%list).
Proof.
  intros HGet Hparse. rewrite fetchIP_eq, HGet. cbn [fst snd]. rewrite Hparse. reflexivity.
Qed.

Lemma fetchKeyBodies_error (ids keys log : list string) (id e : string) :
  id ∈ ids -> (Get (url (keyPath id))).2 = Some e ->
  exists id' e',
    id' ∈ ids /\ (Get (url (keyPath id'))).2 = Some e'
    /\ (fetchKeyBodies ids keys log).1 = Err (ErrClient e').
Proof.
  intros Hin Herr. revert keys log.
  induction ids as [|i ids IH]; intros keys log; [inversion Hin|].
  cbn [ec2.fetchKeyBodies]. unfold mbind at 1. unfold M_bind.
  rewrite fetchString_eq.
  destruct (Get (url (keyPath i))).2 as [e0|] eqn:Hi.
  - exists i, e0. split; [apply elem_of_cons; left; reflexivity|]. split; [exact Hi | reflexivity].
  - apply elem_of_cons in Hin as [->|Hin]; [congruence|].
    destruct (IH Hin (keys ++ [bodyOf (keyPath i)])%list (log ++ [url (keyPath i)])%list)
      as (id' & e' & Hid' & He' & Hres).
    exists id', e'. split; [apply elem_of_cons; right; exact Hid'|]. split; assumption.
Qed.

(** X24. When the request for the key body of an index that survives
    in the listing fails, [fetchSshKeys] of EC2 returns the error of such a
    request and no keys: the bodies fetched before it are dropped. *)
Theorem fetchSshKeys_key_body_error_is_fatal (keydata : string) (keynames : list string)
    (entries : list (string * string)) (log : list string) (id name e : string) :
  Get (url "public-keys") = (Some keydata, None) ->
  GoBufio.ScanLines keydata = (keynames, None) ->
  Forall2 (fun line e => entryOf "="%char line e.1 e.2) keynames entries ->
  survives entries id name ->
  (Get (url (keyPath id))).2 = Some e ->
  exists id' name' e',
    survives entries id' name'
    /\ (Get (url (keyPath id'))).2 = Some e'
    /\ (fetchSshKeys log).1 = Err (ErrClient e').
Proof.
  intros HGet Hscan Hentries Hsurv Herr.
  rewrite (fetchSshKeys_listing _ _ _ _ _ _ HGet Hscan Hentries).
  assert (Hin : id ∈ (rangeOrder (keyIDsOf entries ∅)).*2)
    by (apply (rangeOrder_survives _ rangeOrder_perm); eauto).
  destruct (fetchKeyBodies_error _ [] (log ++ [url "public-keys"])%list _ _ Hin Herr)
    as (id' & e' & Hid' & He' & Hres).
  apply (rangeOrder_survives _ rangeOrder_perm) in Hid' as [name' Hname'].
  exists id', name', e'. auto.
Qed.

Lemma ec2_fetchIP_parses (key attrKey : string) :
  (key, attrKey) ∈ ec2IPScalars ->
  (Get (url key)).2 = None ->
  (forall body, (Get (url key)).1 = Some body -> is_Some (ParseIP body)) ->
  forall l, fetchIP key l = (Ok (addressOf key), (l ++ [url key])%list).
Proof.
  intros _ Herr Hparse l. rewrite fetchIP_eq, Herr. unfold keyspec.addressOf.
  destruct (Get (url key)).1 as [body|]; [|reflexivity].
  destruct (Hparse body eq_refl) as [ip Hip]. cbn [mbind option_bind]. rewrite Hip. reflexivity.
Qed.

(** X25. An identity document that is absent fails the fetch of EC2
    with the error of the decoder on the empty text, after the six
    requests for the scalar keys: the key listing is not requested. *)
Theorem FetchMetadata_absent_identity_document (log : list string) (e : string) :
  (forall u, u ∈ scalarRequests -> (Get u).2 = None) ->
  (forall key attrKey body,
      (key, attrKey) ∈ ec2IPScalars -> (Get (url key)).1 = Some body ->
      is_Some (ParseIP body)) ->
  absent Get (url "dynamic/instance-identity/document") ->
  Unmarshal "" = Err e ->
  FetchMetadata log = (Err (ErrJSON e), (log ++ scalarRequests)%list).
Proof.
  intros Hok Hparse Habsent Hdoc.
  assert (Hreq : forall u, In u scalarRequests -> (Get u).2 = None)
    by (intros u Hu; apply Hok, list_elem_of_In, Hu).
  assert (Hpub := ec2_fetchIP_parses "meta-data/public-ipv4" "EC2_IPV4_PUBLIC").
  assert (Hloc := ec2_fetchIP_parses "meta-data/local-ipv4" "EC2_IPV4_LOCAL").
  unfold ec2.FetchMetadata, mbind, M_bind.
  rewrite fetchString_eq; cbn [fst snd]; rewrite Hreq by (simpl; tauto).
  rewrite Hpub;
    [|apply elem_of_cons; left; reflexivity | apply Hreq; simpl; tauto
     |intros body; apply Hparse with (attrKey := "EC2_IPV4_PUBLIC");
      apply elem_of_cons; left; reflexivity].
  rewrite Hloc;
    [|apply elem_of_cons; right; apply elem_of_cons; left; reflexivity
     |apply Hreq; simpl; tauto
     |intros body; apply Hparse with (attrKey := "EC2_IPV4_LOCAL");
      apply elem_of_cons; right; apply elem_of_cons; left; reflexivity].
  repeat (rewrite fetchString_eq; cbn [fst snd]; rewrite Hreq by (simpl; tauto)).
  unfold absent in Habsent. rewrite Habsent. cbn [fst stringOf default from_option id].
  rewrite Hdoc. unfold mret, M_ret. rewrite <- !app_assoc. reflexivity.
Qed.

Lemma ec2_FetchMetadata_Ok (log log' : list string) (md : providers.Metadata) :
  FetchMetadata log = (Ok md, log') ->
  exists doc keys,
    Unmarshal (bodyOf "dynamic/instance-identity/document") = Ok doc
    /\ md = {| providers.Attributes := attributesOf doc;
               providers.Hostname := bodyOf "meta-data/hostname";
               providers.Network := [];
               providers.SshKeys := keys |}.
Proof.
  unfold ec2.FetchMetadata, keyspec.attributesOf, keyspec.addressOf.
  unfold mbind at 1; unfold M_bind; rewrite fetchString_eq. cbn [fst snd].
  destruct (Get (url "meta-data/instance-id")).2; [discriminate|].
  unfold mbind at 1; unfold M_bind; rewrite fetchIP_eq.
  destruct (Get (url "meta-data/public-ipv4")).2; [discriminate|].
  destruct (Get (url "meta-data/public-ipv4")).1 as [pub|]; cbn [mbind option_bind];
    [destruct (ParseIP pub); [|discriminate]|].
  all: unfold mbind at 1; unfold M_bind; rewrite fetchIP_eq;
    destruct (Get (url "meta-data/local-ipv4")).2; [discriminate|];
    destruct (Get (url "meta-data/local-ipv4")).1 as [loc|]; cbn [mbind option_bind];
    [destruct (ParseIP loc); [|discriminate]|].
  all: unfold mbind at 1; unfold M_bind; rewrite fetchString_eq; cbn [fst snd];
    destruct (Get (url "meta-data/hostname")).2; [discriminate|];
    unfold mbind at 1; unfold M_bind; rewrite fetchString_eq; cbn [fst snd];
    destruct (Get (url "meta-data/placement/availability-zone")).2; [discriminate|];
    unfold mbind at 1; unfold M_bind; rewrite fetchString_eq; cbn [fst snd];
    destruct (Get (url "dynamic/instance-identity/document")).2; [discriminate|];
    destruct (Unmarshal _) as [doc|e]; [|discriminate];
    unfold mbind, M_bind; destruct (fetchSshKeys _) as [[keys|e] l]; [|discriminate];
    intros [= <- _]; exists doc, keys; split; reflexivity.
Qed.

(** X26. The record of an EC2 fetch that succeeds has exactly the six
    EC2 attributes; its region is that of the decoded identity document,
    its hostname is the body of [meta-data/hostname], also stored under
    [EC2_HOSTNAME], and it has no interface. *)
Theorem ec2_FetchMetadata_record (log log' : list string) (md : providers.Metadata) :
  FetchMetadata log = (Ok md, log') ->
  exists doc,
    Unmarshal (bodyOf "dynamic/instance-identity/document") = Ok doc
    /\ providers.Attributes md !! "EC2_REGION" = Some (Region doc)
    /\ providers.Attributes md !! "EC2_HOSTNAME" = Some (providers.Hostname md)
    /\ providers.Hostname md = bodyOf "meta-data/hostname"
    /\ providers.Network md = []
    /\ (forall k, is_Some (providers.Attributes md !! k) <-> k ∈ ec2AttributeKeys).
Proof.
  intros Hfetch. destruct (ec2_FetchMetadata_Ok _ _ _ Hfetch) as (doc & keys & Hdoc & ->).
  exists doc. cbn [providers.Attributes providers.Hostname providers.Network].
  unfold keyspec.attributesOf.
  split; [exact Hdoc|]. split; [apply lookup_insert_eq|].
  split; [rewrite !lookup_insert_ne by discriminate; apply lookup_insert_eq|].
  split; [reflexivity|]. split; [reflexivity|].
  intros k. unfold ec2AttributeKeys. split.
  - intros Hk.
    repeat (rewrite lookup_insert in Hk; case_decide;
            [subst k; repeat first [apply elem_of_cons; left; reflexivity
                                   | apply elem_of_cons; right]|]).
    rewrite lookup_empty in Hk. destruct Hk as [? [=]].
  - intros Hk.
    repeat (apply elem_of_cons in Hk as [->|Hk];
            [rewrite ?lookup_insert_ne by discriminate; rewrite lookup_insert_eq; eauto|]).
    inversion Hk.
Qed.

End Provider.

(** *** On the sample services *)

Lemma ec2_fetchIP_empty_body_is_a_parse_error_witness :
  ec2.fetchIP sampleEC2EmptyIP GoNet.ParseIP "meta-data/public-ipv4" []
  = (Err (ErrParseIP ""), [endpoint ++ "meta-data/public-ipv4"]).
Proof.
  apply (ec2_fetchIP_empty_body_is_a_parse_error sampleEC2EmptyIP GoNet.ParseIP
           "meta-data/public-ipv4" []); reflexivity.
Defined.

Lemma fetchSshKeys_key_body_error_is_fatal_witness :
  exists id' name' e',
    survives sampleEntries id' name'
    /\ (sampleEC2Refused (endpoint ++ keyPath id')).2 = Some e'
    /\ (ec2.fetchSshKeys sampleEC2Refused map_to_list []).1 = Err (ErrClient e').
Proof.
  apply (fetchSshKeys_key_body_error_is_fatal sampleEC2Refused map_to_list
           (fun m => Permutation_refl _) sampleFormatB sampleKeynames sampleEntries []
           "2" "deploy" "connection refused").
  - reflexivity.
  - reflexivity.
  - exact sampleEntries_listed.
  - exists [("0", "deploy"); ("1", "backup")], []. split; [reflexivity | apply not_elem_of_nil].
  - reflexivity.
Defined.

Lemma FetchMetadata_absent_identity_document_witness :
  ec2.FetchMetadata sampleEC2Malformed GoNet.ParseIP sampleString sampleUnmarshal map_to_list []
  = (Err (ErrJSON "unexpected end of JSON input"), scalarRequests).
Proof.
  apply (FetchMetadata_absent_identity_document sampleEC2Malformed GoNet.ParseIP sampleString
           sampleUnmarshal map_to_list []).
  - intros u _. apply service_no_error.
  - intros key attrKey body Hin.
    repeat (apply elem_of_cons in Hin as [[= -> ->]|Hin]);
      [intros H; vm_compute in H; discriminate H ..|inversion Hin].
  - exact eq_refl.
  - reflexivity.
Defined.

Lemma ec2_FetchMetadata_record_witness :
  exists md log',
    ec2.FetchMetadata sampleEC2 GoNet.ParseIP sampleString sampleUnmarshal map_to_list []
      = (Ok md, log')
    /\ exists doc,
         sampleUnmarshal (stringOf (sampleEC2 (endpoint ++ "dynamic/instance-identity/document")).1)
           = Ok doc
         /\ providers.Attributes md !! "EC2_REGION" = Some (Region doc)
         /\ providers.Attributes md !! "EC2_HOSTNAME" = Some (providers.Hostname md)
         /\ providers.Hostname md = stringOf (sampleEC2 (endpoint ++ "meta-data/hostname")).1
         /\ providers.Network md = []
         /\ (forall k, is_Some (providers.Attributes md !! k) <-> k ∈ ec2AttributeKeys).
Proof.
  eexists _, _. split; [reflexivity|].
  eapply (ec2_FetchMetadata_record sampleEC2 GoNet.ParseIP sampleString sampleUnmarshal
            map_to_list []).
  reflexivity.
Defined.

End ec2_fetch_props.
